(** * Funnel audit engine: crawler and browser-session pool

    A shallow embedding of [services/crawler_service.py] and of the pool
    and navigation probe of [services/webdriver_service.py], with the
    properties of the crawl-and-interact engine proved about it.

    Conventions of the embedding.
    - A Python [str] is a [string] of 8-bit characters; the case and
      whitespace operations ([lower], [strip]) are the ASCII ones, which
      is what Python does on ASCII text.
    - A Python [int] is a [Z]; [len] of a list or set is a [nat].
    - A [dict] is a [gmap], a [set] is a [gset], a [list] is a [list].
    - A call that can raise returns an [option]; [None] stands for the
      exception caught by the enclosing [except Exception].
    - The libraries the services call (the HTTP session, [urllib.parse],
      the HTML parser behind [BeautifulSoup], the Selenium driver) are
      parameters of the sections that use them. *)

From Stdlib Require Import ZArith String Ascii List Lia DecimalString.
From stdpp Require Import base option list strings gmap fin_sets.

Local Open Scope string_scope.
Local Open Scope Z_scope.
Local Open Scope list_scope.

(** ** Python string operations *)

Module PyStr.

(** [c.lower()] on one ASCII character. *)
Definition lower_char (c : ascii) : ascii :=
    let n := N_of_ascii c in
    if ((65 <=? n) && (n <=? 90))%N then ascii_of_N (n + 32) else c.

(** [s.lower()] *)
Fixpoint lower (s : string) : string :=
    match s with
    | EmptyString => EmptyString
    | String c s' => String (lower_char c) (lower s')
    end.

(** [s.startswith(p)] *)
Fixpoint startswith (p s : string) : bool :=
    match p, s with
    | EmptyString, _ => true
    | String a p', String b s' => if Ascii.eqb a b then startswith p' s' else false
    | String _ _, EmptyString => false
    end.

(** [k in s] for strings: [k] occurs in [s] as a substring. *)
Fixpoint contains (k s : string) : bool :=
    startswith k s ||
    match s with
    | EmptyString => false
    | String _ s' => contains k s'
    end.

(** [c.isspace()] on one ASCII character: tab, line feed, vertical tab,
    form feed, carriage return, the four separators 28..31 and space. *)
Definition isspace (c : ascii) : bool :=
    let n := N_of_ascii c in
    (((9 <=? n) && (n <=? 13)) || ((28 <=? n) && (n <=? 32)))%N.

(** [s.lstrip()] *)
Fixpoint lstrip (s : string) : string :=
    match s with
    | EmptyString => EmptyString
    | String c s' => if isspace c then lstrip s' else s
    end.

(** [s.rstrip()] *)
Fixpoint rstrip (s : string) : string :=
    match s with
    | EmptyString => EmptyString
    | String c s' =>
        match rstrip s' with
        | EmptyString => if isspace c then EmptyString else String c EmptyString
        | r => String c r
        end
    end.

(** [s.strip()] *)
Definition strip (s : string) : string := rstrip (lstrip s).

(** [sep.join(parts)] *)
Fixpoint join (sep : string) (parts : list string) : string :=
    match parts with
    | [] => ""
    | [p] => p
    | p :: rest => p +:+ sep +:+ join sep rest
    end.

(** [s.split(sep)] for a one-character separator: always at least one
    field. *)
Fixpoint split_char (sep : ascii) (s : string) : list string :=
    match s with
    | EmptyString => [""]
    | String c s' =>
        if Ascii.eqb c sep then "" :: split_char sep s'
        else match split_char sep s' with
             | [] => [String c ""]
             | f :: fs => String c f :: fs
             end
    end.

(** [s.split(sep, 1)[1]] for a one-character separator: what follows
    the first separator; [None] is the [IndexError] of a string that has
    none. *)
Fixpoint after_first (sep : ascii) (s : string) : option string :=
    match s with
    | EmptyString => None
    | String c s' => if Ascii.eqb c sep then Some s' else after_first sep s'
    end.

(** [str(n)] and [f"{n}"] for an [int]. *)
Definition of_Z (n : Z) : string := NilZero.string_of_int (Z.to_int n).

(** [f"{n}"] for a length. *)
Definition of_nat (n : nat) : string := of_Z (Z.of_nat n).

(** [any(k in s for k in keywords)] *)
Definition any_in (keywords : list string) (s : string) : bool :=
    existsb (fun k => contains k s) keywords.

End PyStr.

(** ** The parsed document

    [BeautifulSoup(content, 'html.parser')] yields a tree of tags and
    text.  The tree builder stores every attribute the crawler reads as a
    string, except [class], which it stores as the list of class names. *)

Module Soup.

#[warnings="-register-all"] Inductive node : Type :=
| Text (s : string)
| Tag (name : string) (attrs : list (string * string)) (classes : list string)
      (children : list node).

Definition tag_name (n : node) : string :=
  match n with Tag nm _ _ _ => nm | Text _ => "" end.

Definition tag_attrs (n : node) : list (string * string) :=
  match n with Tag _ a _ _ => a | Text _ => [] end.

Definition tag_classes (n : node) : list string :=
  match n with Tag _ _ c _ => c | Text _ => [] end.

Definition tag_children (n : node) : list node :=
  match n with Tag _ _ _ cs => cs | Text _ => [] end.

(** The attribute dictionary of a tag, read by key. *)
Fixpoint attr_lookup (k : string) (attrs : list (string * string)) : option string :=
  match attrs with
  | [] => None
  | (k', v) :: rest => if String.eqb k k' then Some v else attr_lookup k rest
  end.

(** [tag.get(k, default)] *)
Definition get (k default : string) (n : node) : string :=
  match attr_lookup k (tag_attrs n) with Some v => v | None => default end.

(** [tag.has_attr(k)] *)
Definition has_attr (k : string) (n : node) : bool :=
  match attr_lookup k (tag_attrs n) with Some _ => true | None => false end.

(** The tags below a node, the node itself first, in document order. *)
Fixpoint self_and_descendants (n : node) : list node :=
  match n with
  | Text _ => []
  | Tag _ _ _ cs => n :: flat_map self_and_descendants cs
  end.

(** The tags of a document (or below a tag, given its children), in
    document order: what [find_all] walks. *)
Definition descendants (ns : list node) : list node :=
  flat_map self_and_descendants ns.

(** [tag.get_text()]: the text below the tag, concatenated. *)
Fixpoint get_text (n : node) : string :=
  match n with
  | Text s => s
  | Tag _ _ _ cs => fold_right (fun c acc => get_text c +:+ acc) "" cs
  end.

(** [find_all(names)] with a list of names: a tag matches when its name
    equals one of the strings of the list. *)
Definition name_in (names : list string) (n : node) : bool :=
  existsb (String.eqb (tag_name n)) names.

(** An attribute filter [k=v] with a string [v]: a tag that has the
    attribute matches when the value equals [v]; a tag that lacks it
    matches only the empty [v]. *)
Definition attr_is (k v : string) (n : node) : bool :=
  match attr_lookup k (tag_attrs n) with
  | Some v' => String.eqb v' v
  | None => String.eqb v ""
  end.

Definition find_all (p : node -> bool) (soup : list node) : list node :=
  List.filter p (descendants soup).

(** [find(...)]: the first match or [None]. *)
Definition find (p : node -> bool) (soup : list node) : option node :=
  head (find_all p soup).

End Soup.

(** ** crawler_service.py *)

Module Crawler.

Import Soup.

Record InputInfo := {
  input_type : string;
  input_name : string;
  input_required : bool;
  input_placeholder : string }.

Record FormInfo := {
  form_action : string;
  form_method : string;
  form_inputs : list InputInfo }.

Record ButtonInfo := {
  button_text : string;
  button_type : string;
  button_class : string;
  button_id : string }.

(** [PageInfo], without [load_time] (a wall-clock measurement). *)
Record PageInfo := {
  url : string;
  title : string;
  page_type : string;
  status_code : Z;
  content_length : nat;
  links : list string;
  forms : list FormInfo;
  buttons : list ButtonInfo;
  images : list string;
  meta_description : string;
  h1_tags : list string;
  errors : list string }.

(** [crawl_stats], without the two timing entries. *)
Record CrawlStats := {
  total_pages : nat;
  stat_broken_links : nat;
  stat_external_links : nat }.

Record SiteMap := {
  domain : string;
  pages : list PageInfo;
  broken_links : list string;
  external_links : list string;
  crawl_stats : CrawlStats;
  funnel_pages : gmap string (list string) }.

Definition landing_keywords : list string := ["landing"; "lp"; "campaign"].
Definition product_keywords : list string := ["product"; "item"; "/p/"; "shop"].
Definition checkout_keywords : list string := ["checkout"; "cart"; "payment"; "billing"].
Definition confirmation_keywords : list string :=
  ["thank"; "confirmation"; "success"; "complete"].
Definition contact_keywords : list string := ["contact"; "support"; "help"].
Definition about_keywords : list string := ["about"; "team"; "company"].
Definition content_keywords : list string := ["blog"; "news"; "article"; "post"].

Definition _classify_page_type (url title content : string) : string :=
  let url_lower := PyStr.lower url in
  let title_lower := PyStr.lower title in
  let content_lower := PyStr.lower content in
  if PyStr.any_in landing_keywords url_lower then "landing"
  else if PyStr.any_in product_keywords url_lower then "product"
  else if PyStr.any_in checkout_keywords url_lower then "checkout"
  else if PyStr.any_in confirmation_keywords url_lower then "confirmation"
  else if PyStr.any_in contact_keywords url_lower then "contact"
  else if PyStr.any_in about_keywords url_lower then "about"
  else if PyStr.any_in content_keywords url_lower then "content"
  else if PyStr.contains "add to cart" content_lower
          || PyStr.contains "buy now" content_lower then "product"
  else if PyStr.contains "sign up" content_lower
          || PyStr.contains "get started" content_lower then "signup"
  else "general".

(** The classification as the specification words it: an ordered table of
    rules, the first rule that matches gives the label. *)
Inductive rule_subject := OnUrl | OnContent.

Definition classification_rules : list (rule_subject * list string * string) :=
  [ (OnUrl, ["landing"; "lp"; "campaign"], "landing");
    (OnUrl, ["product"; "item"; "/p/"; "shop"], "product");
    (OnUrl, ["checkout"; "cart"; "payment"; "billing"], "checkout");
    (OnUrl, ["thank"; "confirmation"; "success"; "complete"], "confirmation");
    (OnUrl, ["contact"; "support"; "help"], "contact");
    (OnUrl, ["about"; "team"; "company"], "about");
    (OnUrl, ["blog"; "news"; "article"; "post"], "content");
    (OnContent, ["add to cart"; "buy now"], "product");
    (OnContent, ["sign up"; "get started"], "signup") ].

Fixpoint first_match (rules : list (rule_subject * list string * string))
    (url_lower content_lower : string) : string :=
  match rules with
  | [] => "general"
  | (subject, keywords, label) :: rest =>
      let text := match subject with OnUrl => url_lower | OnContent => content_lower end in
      if PyStr.any_in keywords text then label
      else first_match rest url_lower content_lower
  end.

Definition classify_by_priority (url content : string) : string :=
  first_match classification_rules (PyStr.lower url) (PyStr.lower content).

(** The filters of the [find] and [find_all] calls with attributes. *)
Definition is_meta_description (n : node) : bool :=
  name_in ["meta"] n && attr_is "name" "description" n.

Definition is_meta_viewport (n : node) : bool :=
  name_in ["meta"] n && attr_is "name" "viewport" n.

Definition is_empty_src_image (n : node) : bool :=
  name_in ["img"] n && attr_is "src" "" n.

Definition _detect_page_errors (soup : list node) (status_code : Z) : list string :=
  let errors := [] in
  let errors :=
    if 400 <=? status_code
    then errors ++ ["HTTP " +:+ PyStr.of_Z status_code +:+ " error"] else errors in
  let title := find (name_in ["title"]) soup in
  let errors :=
    match title with
    | Some t => if String.eqb (PyStr.strip (get_text t)) ""
                then errors ++ ["Missing or empty title tag"] else errors
    | None => errors ++ ["Missing or empty title tag"]
    end in
  let meta_desc := find is_meta_description soup in
  let errors :=
    match meta_desc with
    | Some m => if String.eqb (PyStr.strip (get "content" "" m)) ""
                then errors ++ ["Missing meta description"] else errors
    | None => errors ++ ["Missing meta description"]
    end in
  let h1_tags := find_all (name_in ["h1"]) soup in
  let errors :=
    match h1_tags with
    | [] => errors ++ ["No H1 tags found"]
    | [_] => errors
    | _ => errors ++ ["Multiple H1 tags found (" +:+ PyStr.of_nat (length h1_tags) +:+ ")"]
    end in
  let viewport := find is_meta_viewport soup in
  let errors :=
    match viewport with
    | Some _ => errors
    | None => errors ++ ["Missing viewport meta tag"]
    end in
  let broken_images := find_all is_empty_src_image soup in
  let errors :=
    match broken_images with
    | [] => errors
    | _ => errors ++ [PyStr.of_nat (length broken_images) +:+ " images with empty src"]
    end in
  errors.

(** ['landing': [], 'product': [], ...]: the six funnel keys, empty. *)
Definition funnel_types : list string :=
  ["landing"; "product"; "checkout"; "confirmation"; "signup"; "contact"].

Definition empty_funnel : gmap string (list string) :=
  <["landing" := []]> (<["product" := []]> (<["checkout" := []]>
  (<["confirmation" := []]> (<["signup" := []]> (<["contact" := []]> ∅))))).

Definition _identify_funnel_pages (pages : list PageInfo) : gmap string (list string) :=
  fold_left
    (fun funnel_pages page =>
       match funnel_pages !! page_type page with
       | Some urls => <[page_type page := urls ++ [url page]]> funnel_pages
       | None => funnel_pages
       end)
    pages empty_funnel.

(** The double quote character, for the selector-like names below. *)
Definition dq : string := String (ascii_of_nat 34) "".

(** The names passed to [find_all] for buttons. *)
Definition button_names : list string :=
  ["button";
   "input[type=" +:+ dq +:+ "submit" +:+ dq +:+ "]";
   "input[type=" +:+ dq +:+ "button" +:+ dq +:+ "]"].

Definition button_info (button : node) : ButtonInfo :=
  {| button_text :=
       (let t := PyStr.strip (get_text button) in
        if String.eqb t "" then get "value" "" button else t);
     button_type := get "type" "button" button;
     button_class := PyStr.join " " (tag_classes button);
     button_id := get "id" "" button |}.

Definition extract_buttons (soup : list node) : list ButtonInfo :=
  map button_info (find_all (name_in button_names) soup).

Definition input_info (input_elem : node) : InputInfo :=
  {| input_type := get "type" "text" input_elem;
     input_name := get "name" "" input_elem;
     input_required := has_attr "required" input_elem;
     input_placeholder := get "placeholder" "" input_elem |}.

Definition form_info (form : node) : FormInfo :=
  {| form_action := get "action" "" form;
     form_method := PyStr.lower (get "method" "get" form);
     form_inputs :=
       map input_info
           (find_all (name_in ["input"; "select"; "textarea"]) (tag_children form)) |}.

Definition extract_links (soup : list node) : list string :=
  List.filter
    (fun href => negb (String.eqb href "") && negb (PyStr.startswith "#" href))
    (map (fun link => PyStr.strip (get "href" "" link))
         (find_all (fun n => name_in ["a"] n && has_attr "href" n) soup)).

(** What [_crawl_page] computes once the response has arrived. *)
Definition analyze_page (url : string) (status : Z) (content : string)
    (soup : list node) : PageInfo :=
  let title_text :=
    match find (name_in ["title"]) soup with
    | Some t => PyStr.strip (get_text t)
    | None => ""
    end in
  let meta_description :=
    match find is_meta_description soup with
    | Some m => get "content" "" m
    | None => ""
    end in
  {| url := url;
     title := title_text;
     page_type := _classify_page_type url title_text content;
     status_code := status;
     content_length := String.length content;
     links := extract_links soup;
     forms := map form_info (find_all (name_in ["form"]) soup);
     buttons := extract_buttons soup;
     images := map (get "src" "")
                   (find_all (fun n => name_in ["img"] n && has_attr "src" n) soup);
     meta_description := meta_description;
     h1_tags := map (fun h1 => PyStr.strip (get_text h1)) (find_all (name_in ["h1"]) soup);
     errors := _detect_page_errors soup status |}.

(** The reply to one GET: the status, and the decoded body ([None] when
    reading the body raises). *)
Record Response := {
  status : Z;
  text : option string }.


(** The fields of [CrawlerService] ([delay] only feeds [asyncio.sleep]),
    and the GET requests the instance has issued so far, oldest first. *)
Record CrawlerService := {
  max_pages : Z;
  robots_cache : gmap string bool;
  requests : list string }.

(** [CrawlerService(max_pages)] *)
Definition new_service (max_pages : Z) : CrawlerService :=
  {| max_pages := max_pages; robots_cache := ∅; requests := [] |}.

Definition with_cache (domain : string) (allowed : bool) (self : CrawlerService)
    : CrawlerService :=
  {| max_pages := max_pages self;
     robots_cache := <[domain := allowed]> (robots_cache self);
     requests := requests self |}.

Definition with_request (url : string) (self : CrawlerService) : CrawlerService :=
  {| max_pages := max_pages self;
     robots_cache := robots_cache self;
     requests := requests self ++ [url] |}.

(** The loop over the lines of robots.txt: the pair is
    [(user_agent_found, disallow_all)]. *)
Definition robots_line (flags : bool * bool) (raw : string) : bool * bool :=
  let '(user_agent_found, disallow_all) := flags in
  let line := PyStr.lower (PyStr.strip raw) in
  if PyStr.startswith "user-agent:" line then
    let user_agent := PyStr.strip (default "" (PyStr.after_first ":" line)) in
    (String.eqb user_agent "*" || PyStr.contains "funnel" user_agent, disallow_all)
  else if PyStr.startswith "disallow:" line && user_agent_found then
    let disallow_path := PyStr.strip (default "" (PyStr.after_first ":" line)) in
    if String.eqb disallow_path "/" then (user_agent_found, true)
    else (user_agent_found, disallow_all)
  else (user_agent_found, disallow_all).

Definition robots_disallow_all (robots_content : string) : bool :=
  snd (fold_left robots_line (PyStr.split_char (ascii_of_nat 10) robots_content)
                 (false, false)).

(** The state of the crawl loop: the local variables of [crawl_website],
    the number of iterations done, and the service. *)
Record CrawlState := {
  to_crawl : gset string;
  crawled : gset string;
  cur_pages : list PageInfo;
  cur_broken_links : list string;
  cur_external_links : list string;
  iterations : nat;
  service : CrawlerService }.

Inductive outcome (A : Type) : Type :=
| Returned (a : A)
| Raised
| OutOfFuel.
Arguments Returned {A} a.
Arguments Raised {A}.
Arguments OutOfFuel {A}.

Section Engine.

(** The HTTP session: the reply to the [n]-th GET of the instance, for
    the URL asked; [None] when the request raises (connection failure,
    timeout). *)
Variable session_get : nat -> string -> option Response.

(** [BeautifulSoup(content, 'html.parser')] *)
Variable BeautifulSoup : string -> list node.

(** [urlparse(u)], as its [(scheme, netloc)]; [None] when it raises. *)
Variable urlparse : string -> option (string * string).

(** [urljoin(base, link)]; [None] when it raises. *)
Variable urljoin : string -> string -> option string.

(** Which element [to_crawl.pop()] takes from the set at the [n]-th
    iteration; a proposal outside the set is replaced by the first element
    of the set, so that every function here is a pop policy. *)
Variable pop_choice : nat -> gset string -> string.

Definition set_pop (n : nat) (s : gset string) : string :=
  let x := pop_choice n s in
  if decide (x ∈ s) then x else default "" (head (elements s)).

Definition _check_robots_txt (domain : string) (self : CrawlerService)
    : bool * CrawlerService :=
  match robots_cache self !! domain with
  | Some allowed => (allowed, self)
  | None =>
      let robots_url := domain +:+ "/robots.txt" in
      let self1 := with_request robots_url self in
      match session_get (length (requests self)) robots_url with
      | Some response =>
          if status response =? 200 then
            match text response with
            | Some robots_content =>
                let allowed := negb (robots_disallow_all robots_content) in
                (allowed, with_cache domain allowed self1)
            | None => (true, with_cache domain true self1)
            end
          else (true, with_cache domain true self1)
      | None => (true, with_cache domain true self1)
      end
  end.

Definition _is_same_domain (url domain : string) : bool :=
  match urlparse url with
  | Some (_, url_netloc) =>
      match urlparse domain with
      | Some (_, domain_netloc) => String.eqb url_netloc domain_netloc
      | None => false
      end
  | None => false
  end.

Definition _crawl_page (url : string) (self : CrawlerService)
    : option PageInfo * CrawlerService :=
  (match session_get (length (requests self)) url with
   | Some response =>
       match text response with
       | Some content =>
           Some (analyze_page url (status response) content (BeautifulSoup content))
       | None => None
       end
   | None => None
   end,
   with_request url self).

(** The [for link in page_info.links] loop; the boolean is [false] when
    [urljoin] raised, which leaves the loop with what was routed so far. *)
Fixpoint route_links (current_url domain : string) (links : list string)
    (to_crawl : gset string) (external_links : list string)
    : bool * gset string * list string :=
  match links with
  | [] => (true, to_crawl, external_links)
  | link :: rest =>
      match urljoin current_url link with
      | Some absolute_link =>
          if _is_same_domain absolute_link domain
          then route_links current_url domain rest ({[absolute_link]} ∪ to_crawl)
                           external_links
          else route_links current_url domain rest to_crawl
                           (external_links ++ [absolute_link])
      | None => (false, to_crawl, external_links)
      end
  end.

(** One iteration of the [while] loop of [crawl_website]. *)
Definition crawl_iteration (domain : string) (st : CrawlState) : CrawlState :=
  let current_url := set_pop (iterations st) (to_crawl st) in
  let to_crawl1 := to_crawl st ∖ {[current_url]} in
  if decide (current_url ∈ crawled st) then
    {| to_crawl := to_crawl1; crawled := crawled st; cur_pages := cur_pages st;
       cur_broken_links := cur_broken_links st;
       cur_external_links := cur_external_links st;
       iterations := S (iterations st); service := service st |}
  else if negb (_is_same_domain current_url domain) then
    {| to_crawl := to_crawl1; crawled := crawled st; cur_pages := cur_pages st;
       cur_broken_links := cur_broken_links st;
       cur_external_links := cur_external_links st ++ [current_url];
       iterations := S (iterations st); service := service st |}
  else
    match _crawl_page current_url (service st) with
    | (Some page_info, service1) =>
        let '(routed, to_crawl2, external2) :=
          route_links current_url domain (links page_info) to_crawl1
                      (cur_external_links st) in
        {| to_crawl := to_crawl2;
           crawled := crawled st ∪ {[current_url]};
           cur_pages := cur_pages st ++ [page_info];
           cur_broken_links :=
             if routed then cur_broken_links st
             else cur_broken_links st ++ [current_url];
           cur_external_links := external2;
           iterations := S (iterations st); service := service1 |}
    | (None, service1) =>
        {| to_crawl := to_crawl1; crawled := crawled st; cur_pages := cur_pages st;
           cur_broken_links := cur_broken_links st ++ [current_url];
           cur_external_links := cur_external_links st;
           iterations := S (iterations st); service := service1 |}
    end.

(** The four ways through the body of the loop, as a relation between
    the state before and the state after; [current_url] is the URL the
    iteration pops. *)
Inductive iteration_case (domain : string) (st : CrawlState) : CrawlState -> Prop :=
| case_already_crawled current_url :
    current_url = set_pop (iterations st) (to_crawl st) ->
    current_url ∈ crawled st ->
    iteration_case domain st
      {| to_crawl := to_crawl st ∖ {[current_url]};
         crawled := crawled st; cur_pages := cur_pages st;
         cur_broken_links := cur_broken_links st;
         cur_external_links := cur_external_links st;
         iterations := S (iterations st); service := service st |}
| case_external current_url :
    current_url = set_pop (iterations st) (to_crawl st) ->
    current_url ∉ crawled st ->
    _is_same_domain current_url domain = false ->
    iteration_case domain st
      {| to_crawl := to_crawl st ∖ {[current_url]};
         crawled := crawled st; cur_pages := cur_pages st;
         cur_broken_links := cur_broken_links st;
         cur_external_links := cur_external_links st ++ [current_url];
         iterations := S (iterations st); service := service st |}
| case_fetched current_url page_info routed to_crawl2 external2 :
    current_url = set_pop (iterations st) (to_crawl st) ->
    current_url ∉ crawled st ->
    _is_same_domain current_url domain = true ->
    fst (_crawl_page current_url (service st)) = Some page_info ->
    route_links current_url domain (links page_info)
                (to_crawl st ∖ {[current_url]}) (cur_external_links st)
      = (routed, to_crawl2, external2) ->
    iteration_case domain st
      {| to_crawl := to_crawl2;
         crawled := crawled st ∪ {[current_url]};
         cur_pages := cur_pages st ++ [page_info];
         cur_broken_links :=
           if routed then cur_broken_links st
           else cur_broken_links st ++ [current_url];
         cur_external_links := external2;
         iterations := S (iterations st);
         service := with_request current_url (service st) |}
| case_failed current_url :
    current_url = set_pop (iterations st) (to_crawl st) ->
    current_url ∉ crawled st ->
    _is_same_domain current_url domain = true ->
    fst (_crawl_page current_url (service st)) = None ->
    iteration_case domain st
      {| to_crawl := to_crawl st ∖ {[current_url]};
         crawled := crawled st; cur_pages := cur_pages st;
         cur_broken_links := cur_broken_links st ++ [current_url];
         cur_external_links := cur_external_links st;
         iterations := S (iterations st);
         service := with_request current_url (service st) |}.

(** The measure of the loop: the pages still allowed, then the size of
    the frontier. *)
Definition pages_left (st : CrawlState) : nat :=
  Z.to_nat (max_pages (service st) - Z.of_nat (size (crawled st))).

(** The state after [k] iterations. *)
Definition iterate (k : nat) (domain : string) (st : CrawlState) : CrawlState :=
  Nat.iter k (crawl_iteration domain) st.

(** [to_crawl and len(crawled) < self.max_pages] *)
Definition loop_condition (st : CrawlState) : bool :=
  bool_decide (to_crawl st ≠ ∅)
  && (Z.of_nat (size (crawled st)) <? max_pages (service st)).

Fixpoint crawl_loop (fuel : nat) (domain : string) (st : CrawlState)
    : option CrawlState :=
  if loop_condition st then
    match fuel with
    | O => None
    | S fuel' => crawl_loop fuel' domain (crawl_iteration domain st)
    end
  else Some st.

(** The local variables of [crawl_website] when the loop starts. *)
Definition initial_state (start_url : string) (self : CrawlerService) : CrawlState :=
  {| to_crawl := {[start_url]}; crawled := ∅; cur_pages := [];
     cur_broken_links := []; cur_external_links := [];
     iterations := 0; service := self |}.

(** The [SiteMap] built after the loop. *)
Definition site_map (domain : string) (st : CrawlState) : SiteMap :=
  {| domain := domain;
     pages := cur_pages st;
     broken_links := cur_broken_links st;
     external_links := cur_external_links st;
     crawl_stats :=
       {| total_pages := length (cur_pages st);
          stat_broken_links := length (cur_broken_links st);
          stat_external_links := length (cur_external_links st) |};
     funnel_pages := _identify_funnel_pages (cur_pages st) |}.

(** [crawl_website]: the site map and the service afterwards; [Raised]
    when [urlparse(start_url)] raises, [OutOfFuel] when [fuel] iterations
    do not end the loop. *)
Definition crawl_website (fuel : nat) (start_url : string) (self : CrawlerService)
    : outcome (SiteMap * CrawlerService) :=
  match urlparse start_url with
  | None => Raised
  | Some (scheme, netloc) =>
      let domain := scheme +:+ "://" +:+ netloc in
      let '(robots_allowed, self1) := _check_robots_txt domain self in
      match crawl_loop fuel domain (initial_state start_url self1) with
      | None => OutOfFuel
      | Some st => Returned (site_map domain st, service st)
      end
  end.

(** The page of every visited URL, once: what the loop keeps true of
    [pages] and [crawled], with the page cap. *)
Definition pages_match_crawled (st : CrawlState) : Prop :=
  length (cur_pages st) = size (crawled st)
  /\ NoDup (map url (cur_pages st))
  /\ (forall u, u ∈ crawled st <-> In u (map url (cur_pages st)))
  /\ Z.of_nat (size (crawled st)) <= Z.max 0 (max_pages (service st)).

(** Whether the [n]-th request, made for [u], brings a page. *)
Definition fetch_ok (n : nat) (u : string) : bool :=
  match session_get n u with
  | Some response => match text response with Some _ => true | None => false end
  | None => false
  end.

(** [_crawl_page] ends the same way for a URL at every attempt: it returns
    a page each time, or it raises each time. *)
Definition same_outcome_every_attempt : Prop :=
  forall (u : string) (self self' : CrawlerService),
    fst (_crawl_page u self) = None <-> fst (_crawl_page u self') = None.

(** No link of these pages makes [urljoin] raise: each call
    [urljoin(current_url, link)] that the loop makes for one of them
    returns. *)
Definition links_of_pages_resolve (pages : list PageInfo) : Prop :=
  forall p link, In p pages -> In link (links p) -> urljoin (url p) link <> None.

(** Where the entries of [pages] and [broken_links] come from: a page is
    what some call of [_crawl_page] returned for its URL; a broken link is
    a URL for which some call of [_crawl_page] raised, or the URL of a page
    one of whose links made [urljoin] raise. *)
Definition buckets_explained (st : CrawlState) : Prop :=
  (forall p, In p (cur_pages st) ->
     exists self, fst (_crawl_page (url p) self) = Some p)
  /\ (forall u, In u (cur_broken_links st) ->
        (exists self, fst (_crawl_page u self) = None)
        \/ (exists p link,
              In p (cur_pages st) /\ url p = u
              /\ In link (links p) /\ urljoin u link = None)).

End Engine.

End Crawler.

(** ** webdriver_service.py *)

Module WebDriver.

(** A [webdriver.Chrome] object, by identity. *)
Definition driver := nat.

Record WebDriverManager := {
  max_drivers : Z;
  driver_pool : list driver;
  available_drivers : list driver }.

(** [WebDriverManager(max_drivers=n)] *)
Definition new_manager (n : Z) : WebDriverManager :=
  {| max_drivers := n; driver_pool := []; available_drivers := [] |}.

(** [l.pop()]: the last element and the rest; [None] on the empty list. *)
Definition list_pop (l : list driver) : option (driver * list driver) :=
  match rev l with
  | [] => None
  | d :: r => Some (d, rev r)
  end.

(** [l.remove(d)]: drops the first occurrence of [d]. *)
Fixpoint list_remove (d : driver) (l : list driver) : list driver :=
  match l with
  | [] => []
  | x :: r => if Nat.eqb x d then r else x :: list_remove d r
  end.

(** [d in l] *)
Definition list_in (d : driver) (l : list driver) : bool := existsb (Nat.eqb d) l.

(** How a call of [get_driver] goes, up to its first suspension. *)
Inductive acquired : Type :=
| Reused (d : driver)     (* an idle driver, popped from [available_drivers] *)
| Created (d : driver)    (* a new driver, appended to [driver_pool] *)
| CreateRaised            (* [create_chrome_driver] raised *)
| Waiting.                (* the call sleeps until a driver is available *)

(** [get_driver]; [fresh] is what [create_chrome_driver] would return,
    [None] when it raises. *)
Definition get_driver (fresh : option driver) (self : WebDriverManager)
    : acquired * WebDriverManager :=
  match list_pop (available_drivers self) with
  | Some (d, rest) =>
      (Reused d, {| max_drivers := max_drivers self; driver_pool := driver_pool self;
                    available_drivers := rest |})
  | None =>
      if Z.of_nat (length (driver_pool self)) <? max_drivers self then
        match fresh with
        | Some d =>
            (Created d, {| max_drivers := max_drivers self;
                           driver_pool := driver_pool self ++ [d];
                           available_drivers := available_drivers self |})
        | None => (CreateRaised, self)
        end
      else (Waiting, self)
  end.

(** A suspended [get_driver] wakes up: it pops an available driver if
    there is one, and keeps sleeping otherwise. *)
Definition resume_get_driver (self : WebDriverManager)
    : option driver * WebDriverManager :=
  match list_pop (available_drivers self) with
  | Some (d, rest) =>
      (Some d, {| max_drivers := max_drivers self; driver_pool := driver_pool self;
                  available_drivers := rest |})
  | None => (None, self)
  end.

(** [close_driver]; [quit_ok] is [false] when [driver.quit()] raises. *)
Definition close_driver (d : driver) (quit_ok : bool) (self : WebDriverManager)
    : WebDriverManager :=
  if quit_ok then
    {| max_drivers := max_drivers self;
       driver_pool :=
         if list_in d (driver_pool self) then list_remove d (driver_pool self)
         else driver_pool self;
       available_drivers :=
         if list_in d (available_drivers self)
         then list_remove d (available_drivers self)
         else available_drivers self |}
  else self.

(** [release_driver]; [reset_ok] is [false] when clearing the cookies or
    the storage raises. *)
Definition release_driver (d : driver) (reset_ok quit_ok : bool)
    (self : WebDriverManager) : WebDriverManager :=
  if reset_ok then
    {| max_drivers := max_drivers self; driver_pool := driver_pool self;
       available_drivers := available_drivers self ++ [d] |}
  else close_driver d quit_ok self.

(** [close_all], on the two lists. *)
Definition close_all (self : WebDriverManager) : WebDriverManager :=
  {| max_drivers := max_drivers self; driver_pool := []; available_drivers := [] |}.

(** The operations on the pool, with what the browser answers. *)
Inductive pool_op : Type :=
| OpGet (fresh : option driver)
| OpResume
| OpRelease (d : driver) (reset_ok quit_ok : bool)
| OpClose (d : driver) (quit_ok : bool)
| OpCloseAll.

Definition apply_op (self : WebDriverManager) (op : pool_op) : WebDriverManager :=
  match op with
  | OpGet fresh => snd (get_driver fresh self)
  | OpResume => snd (resume_get_driver self)
  | OpRelease d reset_ok quit_ok => release_driver d reset_ok quit_ok self
  | OpClose d quit_ok => close_driver d quit_ok self
  | OpCloseAll => close_all self
  end.

(** The manager after a sequence of operations. *)
Definition run_ops (ops : list pool_op) (self : WebDriverManager) : WebDriverManager :=
  fold_left apply_op ops self.

(** *** The navigation probe *)

(** A Selenium call: its value, or the message of the exception. *)
Inductive result (A : Type) : Type :=
| Ok (a : A)
| Err (message : string).
Arguments Ok {A} a.
Arguments Err {A} message.

(** Sequencing inside a [try] block: the first exception ends it. *)
#[global] Instance result_bind : MBind result :=
  fun A B k r => match r with Ok a => k a | Err e => Err e end.

(** The page a driver shows after [driver.get(url)]: its
    [current_url], the [href] attributes of its [<a>] elements as a CSS
    query finds them (or the exception of [find_elements]), and its
    [title]. *)
Record PageView := {
  current_url : result string;
  anchors : result (list string);
  page_title : result string }.

Definition conversion_keywords : list string :=
  ["checkout"; "cart"; "buy"; "purchase"; "order"; "signup"; "register"].

(** The substrings of the selector
    [a[href*='checkout'], a[href*='cart'], a[href*='buy'], a[href*='signup']]. *)
Definition conversion_link_keywords : list string :=
  ["checkout"; "cart"; "buy"; "signup"].

(** [driver.find_elements(By.CSS_SELECTOR, ...)] with that selector: the
    anchors whose [href] contains one of the four substrings. *)
Definition find_conversion_links (view : PageView) : result (list string) :=
  match anchors view with
  | Ok hrefs => Ok (List.filter (PyStr.any_in conversion_link_keywords) hrefs)
  | Err e => Err e
  end.

(** The dictionary [_test_navigation_path] returns: the entries of the
    normal return, or those of the [except] branch. *)
Inductive path_result : Type :=
| PathTested (link_text url : string) (is_conversion_page : bool)
             (clicks_to_convert : Z) (page_title : string)
| PathError (link_text url error : string).

Section Navigation.

(** [driver.get(url)]: the page shown afterwards, or the exception. *)
Variable driver_get : string -> result PageView.

Definition _test_navigation_path (url link_text : string) (max_depth : Z)
    : path_result :=
  let tried :=
    view ← driver_get url;
    shown_url ← current_url view;
    let current_url := PyStr.lower shown_url in
    let is_conversion_page := PyStr.any_in conversion_keywords current_url in
    clicks_to_convert ←
      (if negb is_conversion_page && (0 <? max_depth) then
         conversion_links ← find_conversion_links view;
         match conversion_links with
         | _ :: _ => Ok 1
         | [] => Ok max_depth
         end
       else Ok 0);
    t ← page_title view;
    Ok (PathTested link_text url is_conversion_page clicks_to_convert t) in
  match tried with
  | Ok path_result => path_result
  | Err e => PathError link_text url e
  end.

End Navigation.

End WebDriver.

(** ** Concrete sites and browsers

    Small worlds on which the services are run in the examples below. *)

Module Demo.

Import Soup Crawler.

Definition is_alpha (c : ascii) : bool :=
  let n := N_of_ascii c in
  (((65 <=? n) && (n <=? 90)) || ((97 <=? n) && (n <=? 122)))%N.

Definition is_scheme_char (c : ascii) : bool :=
  let n := N_of_ascii c in
  (is_alpha c || ((48 <=? n) && (n <=? 57)) || (n =? 43) || (n =? 45) || (n =? 46))%N.

(** [s.partition(sep)] when [sep] occurs: what precedes the first [sep]
    and what follows it. *)
Fixpoint partition_char (sep : ascii) (s : string) : option (string * string) :=
  match s with
  | EmptyString => None
  | String c s' =>
      if Ascii.eqb c sep then Some ("", s')
      else match partition_char sep s' with
           | Some (a, b) => Some (String c a, b)
           | None => None
           end
  end.

Fixpoint all_chars (p : ascii -> bool) (s : string) : bool :=
  match s with
  | EmptyString => true
  | String c s' => p c && all_chars p s'
  end.

Fixpoint take_until (stop : ascii -> bool) (s : string) : string :=
  match s with
  | EmptyString => EmptyString
  | String c s' => if stop c then EmptyString else String c (take_until stop s')
  end.

Definition has_char (c : ascii) (s : string) : bool := PyStr.contains (String c "") s.

(** [urlparse(u)] as [(scheme, netloc)], after [urllib.parse.urlsplit]:
    a leading scheme is split off at the first colon, a following [//]
    opens the network location, which runs to the next [/], [?] or [#];
    a network location with one bracket and not the other raises
    [ValueError].  (Leading blanks and control characters, which
    [urlsplit] removes first, do not occur in the URLs used here.) *)
Definition urlparse (u : string) : option (string * string) :=
  let '(scheme, rest) :=
    match partition_char ":" u with
    | Some (String c pre, post) =>
        if is_alpha c && all_chars is_scheme_char pre
        then (PyStr.lower (String c pre), post) else ("", u)
    | _ => ("", u)
    end in
  if PyStr.startswith "//" rest then
    let netloc :=
      take_until (fun c => Ascii.eqb c "/" || Ascii.eqb c "?" || Ascii.eqb c "#")
                 (String.substring 2 (String.length rest) rest) in
    if xorb (has_char "[" netloc) (has_char "]" netloc) then None
    else Some (scheme, netloc)
  else Some (scheme, "").

(** [urljoin(base, link)] for the links used here: a link with a scheme
    of its own is returned as it is, a link that starts with a slash is
    put behind the scheme and network location of the base; a link or a
    base that [urlparse] rejects raises.  (Other relative links, whose
    resolution against the directory of the base is not modelled, are
    put behind the root.) *)
Definition urljoin (base link : string) : option string :=
  if String.eqb base "" then Some link
  else if String.eqb link "" then Some base
  else
    match urlparse base with
    | None => None
    | Some (bscheme, bnetloc) =>
        match urlparse link with
        | None => None
        | Some (scheme, netloc) =>
            if negb (String.eqb scheme "") then Some link
            else if PyStr.startswith "//" link then Some (bscheme +:+ ":" +:+ link)
            else if PyStr.startswith "/" link
                 then Some (bscheme +:+ "://" +:+ bnetloc +:+ link)
                 else Some (bscheme +:+ "://" +:+ bnetloc +:+ "/" +:+ link)
        end
    end.

(** [urljoin] on sites whose links all parse: never raises. *)
Definition urljoin_wellformed (base link : string) : option string :=
  Some (default link (urljoin base link)).

(** A pop policy: the first URL of [order] that is in the set. *)
Definition prefer (order : list string) (n : nat) (s : gset string) : string :=
  default "" (head (List.filter (fun u => bool_decide (u ∈ s)) order)).

Definition anchor (href text : string) : node :=
  Tag "a" [("href", href)] [] [Text text].

(** The documents of the sites, with the tree the parser builds for
    each. *)
Definition home_html : string := "<a href='/about'>About</a><a href='/contact'>Contact</a>".
Definition about_html : string := "<title>About</title><a href='/'>Home</a>".
Definition contact_html : string := "<title>Contact</title><h1>Write to us</h1>".
Definition hub_html : string := "<a href='/x'>x</a><a href='/b'>b</a>".
Definition b_html : string := "<a href='/x'>x again</a>".
Definition x_html : string := "<h1>x</h1>".
Definition badlink_html : string := "<a href='http://[bad'>oops</a>".
Definition twice_html : string :=
  "<a href='http://ext.com/'>e</a><a href='/b'>b</a><a href='http://ext.com/'>e</a>".
Definition ext_again_html : string := "<a href='http://ext.com/'>e</a>".

Definition documents : list (string * list node) :=
  [ (home_html, [anchor "/about" "About"; anchor "/contact" "Contact"]);
    (about_html, [Tag "title" [] [] [Text "About"]; anchor "/" "Home"]);
    (contact_html, [Tag "title" [] [] [Text "Contact"];
                    Tag "h1" [] [] [Text "Write to us"]]);
    (hub_html, [anchor "/x" "x"; anchor "/b" "b"]);
    (b_html, [anchor "/x" "x again"]);
    (x_html, [Tag "h1" [] [] [Text "x"]]);
    (badlink_html, [anchor "http://[bad" "oops"]);
    (twice_html, [anchor "http://ext.com/" "e"; anchor "/b" "b";
                  anchor "http://ext.com/" "e"]);
    (ext_again_html, [anchor "http://ext.com/" "e"]) ].

Fixpoint table_lookup {A : Type} (k : string) (t : list (string * A)) : option A :=
  match t with
  | [] => None
  | (k', v) :: rest => if String.eqb k k' then Some v else table_lookup k rest
  end.

Definition BeautifulSoup (content : string) : list node :=
  default [] (table_lookup content documents).

Definition ok (content : string) : option Response :=
  Some {| status := 200; text := Some content |}.

Definition not_found : option Response :=
  Some {| status := 404; text := Some "" |}.

(** A site that answers the same at every request: the pages of the
    table, 404 for anything else. *)
Definition serve (site : list (string * string)) (n : nat) (u : string)
    : option Response :=
  match table_lookup u site with
  | Some content => ok content
  | None => not_found
  end.

(** Home, about and contact, all internal links, no robots.txt. *)
Definition three_pages : list (string * string) :=
  [ ("http://a.com/", home_html);
    ("http://a.com/about", about_html);
    ("http://a.com/contact", contact_html) ].

Definition crawl_three_pages (fuel : nat) : outcome (SiteMap * CrawlerService) :=
  crawl_website (serve three_pages) BeautifulSoup urlparse urljoin_wellformed
    (prefer ["http://a.com/"; "http://a.com/about"; "http://a.com/contact"])
    fuel "http://a.com/" (new_service 10).

(** A hub that links to x and b, b links to x again; the first request
    for x times out, the second is answered.  Requests are numbered from
    0, the one for robots.txt first. *)
Definition flaky (n : nat) (u : string) : option Response :=
  if String.eqb u "http://a.com/x" then
    if (n <? 3)%nat then None else ok x_html
  else serve [("http://a.com/", hub_html); ("http://a.com/b", b_html)] n u.

Definition crawl_flaky (fuel : nat) : outcome (SiteMap * CrawlerService) :=
  crawl_website flaky BeautifulSoup urlparse urljoin_wellformed
    (prefer ["http://a.com/"; "http://a.com/x"; "http://a.com/b"])
    fuel "http://a.com/" (new_service 10).

(** A page with a link that [urljoin] rejects. *)
Definition crawl_badlink (fuel : nat) : outcome (SiteMap * CrawlerService) :=
  crawl_website (serve [("http://a.com/", badlink_html)]) BeautifulSoup urlparse urljoin
    (prefer ["http://a.com/"]) fuel "http://a.com/" (new_service 10).

(** Two pages that link to the same off-domain URL, one of them twice. *)
Definition crawl_twice (fuel : nat) : outcome (SiteMap * CrawlerService) :=
  crawl_website
    (serve [("http://a.com/", twice_html); ("http://a.com/b", ext_again_html)])
    BeautifulSoup urlparse urljoin_wellformed
    (prefer ["http://a.com/"; "http://a.com/b"]) fuel "http://a.com/" (new_service 10).

(** The two errors of a page with two headings and no description. *)
Definition meta_and_h1_errors : list string :=
  ["Missing meta description"; "Multiple H1 tags found (2)"].

(** Two headings and nothing else. *)
Definition two_h1_only : list node :=
  [Tag "h1" [] [] [Text "One"]; Tag "h1" [] [] [Text "Two"]].

(** Two headings in a page that has a title and a viewport tag. *)
Definition two_h1_page : list node :=
  [Tag "html" [] []
     [Tag "head" [] []
        [Tag "title" [] [] [Text "Shop"];
         Tag "meta" [("name", "viewport"); ("content", "width=device-width")] [] []];
      Tag "body" [] []
        [Tag "h1" [] [] [Text "One"]; Tag "h1" [] [] [Text "Two"];
         Tag "img" [("src", "/logo.png")] [] []]]].

(** A form with a submit input, a plain button input and a button. *)
Definition form_page : list node :=
  [Tag "form" [("action", "/go")] []
     [Tag "input" [("type", "submit"); ("value", "Go")] [] [];
      Tag "input" [("type", "button"); ("value", "Back")] [] [];
      Tag "button" [("id", "b")] ["btn"; "primary"] [Text " Buy "]]].

(** A browser that shows [shown] after any navigation, on a page whose
    anchors have the given [href]s. *)
Definition shows (shown : string) (hrefs : list string) (u : string)
    : WebDriver.result WebDriver.PageView :=
  WebDriver.Ok {| WebDriver.current_url := WebDriver.Ok shown;
                  WebDriver.anchors := WebDriver.Ok hrefs;
                  WebDriver.page_title := WebDriver.Ok "t" |}.

End Demo.

(** ** webdriver_service.py: the button, form and navigation probes *)

Module Probes.

Import WebDriver.

(** [InteractionResult], without [response_time] (a wall-clock
    measurement). *)
Record InteractionResult := {
  element_type : string;
  element_selector : string;
  element_text : string;
  success : bool;
  error_message : option string;
  screenshot_data : option string }.

(** [FormTestResult], without [response_time]. *)
Record FormTestResult := {
  form_selector : string;
  fields_tested : Z;
  fields_successful : Z;
  submission_successful : bool;
  validation_errors : list string }.

(** Python's [x or y] on an attribute that may be [None]. *)
Definition or_default (v : option string) (d : string) : string :=
  match v with
  | Some s => if String.eqb s "" then d else s
  | None => d
  end.

(** [any(e.is_displayed() for e in elements)], on the answers of the
    elements: stops at the first [True], raises at the first exception met
    before one. *)
Fixpoint any_displayed (answers : list (result bool)) : result bool :=
  match answers with
  | [] => Ok false
  | Ok true :: _ => Ok true
  | Ok false :: rest => any_displayed rest
  | Err e :: _ => Err e
  end.

(** [a() and b()] on two calls that may raise: the second is made only
    when the first answers [True]. *)
Definition both (a b : result bool) : result bool :=
  match a with
  | Ok true => b
  | Ok false => Ok false
  | Err e => Err e
  end.

(** What the browser answers while one clickable element is probed, in
    the order of the calls of [_test_button_click]. *)
Record ClickableElement := {
  el_displayed : result bool;
  el_enabled : result bool;
  el_text : result string;
  el_value : result (option string);
  el_aria_label : result (option string);
  el_scrolled : result unit;
  el_url_before : result string;
  el_clicked : result unit;
  el_url_after : result string;
  el_modals : result (list (result bool));
  el_screenshot : result string }.

(** [element.text.strip() or element.get_attribute('value') or
    element.get_attribute('aria-label') or 'No text'] *)
Definition read_element_text (element : ClickableElement) : result string :=
  t ← el_text element;
  if negb (String.eqb (PyStr.strip t) "") then Ok (PyStr.strip t)
  else
    v ← el_value element;
    if negb (String.eqb (or_default v "") "") then Ok (or_default v "")
    else
      a ← el_aria_label element;
      Ok (or_default a "No text").

(** The exception of a handler that reads a local variable never
    assigned (its message as of Python 3.11). *)
Definition unbound_element_text : string :=
  "cannot access local variable 'element_text' where it is not associated with a value".

(** [_test_button_click]; [Err] when the function itself raises, which
    its [except] branch does when [element_text] was never assigned. *)
Definition _test_button_click (element : ClickableElement) (selector : string)
    : result InteractionResult :=
  match read_element_text element with
  | Err _ => Err unbound_element_text
  | Ok element_text =>
      let tried :=
        _ ← el_scrolled element;
        original_url ← el_url_before element;
        _ ← el_clicked element;
        new_url ← el_url_after element;
        let url_changed := negb (String.eqb original_url new_url) in
        let modal_appeared :=
          match (modals ← el_modals element; any_displayed modals) with
          | Ok b => b
          | Err _ => false
          end in
        Ok (url_changed || modal_appeared) in
      match tried with
      | Ok success =>
          Ok {| element_type := "button"; element_selector := selector;
                element_text := element_text; success := success;
                error_message := None; screenshot_data := None |}
      | Err e =>
          Ok {| element_type := "button"; element_selector := selector;
                element_text := if String.eqb element_text "" then "Unknown"
                                else element_text;
                success := false;
                error_message := Some e;
                screenshot_data :=
                  match el_screenshot element with
                  | Ok shot => Some shot
                  | Err _ => None
                  end |}
      end
  end.

Definition clickable_selectors : list string :=
  ["button"; "input[type='button']"; "input[type='submit']"; "a[href]";
   "[role='button']"; ".btn"; ".button"].

(** The loop over [elements[:10]] of one selector, from index [i]; an
    exception leaves the loop with the results gathered so far. *)
Fixpoint probe_elements (selector : string) (i : nat)
    (elements : list ClickableElement) (results : list InteractionResult)
    : list InteractionResult :=
  match elements with
  | [] => results
  | element :: rest =>
      match both (el_displayed element) (el_enabled element) with
      | Err _ => results
      | Ok false => probe_elements selector (S i) rest results
      | Ok true =>
          match _test_button_click element
                  (selector +:+ "[" +:+ PyStr.of_nat i +:+ "]") with
          | Err _ => results
          | Ok result => probe_elements selector (S i) rest (results ++ [result])
          end
      end
  end.

(** What the browser answers to [test_all_buttons]: to [driver.get(url)],
    to the wait for the body, and to [find_elements] for each selector. *)
Record ButtonsPage := {
  bp_opened : result unit;
  bp_body_ready : result unit;
  bp_elements : string -> result (list ClickableElement) }.

(** The [try] block of [test_all_buttons]. *)
Definition probe_buttons (page : ButtonsPage) : list InteractionResult :=
  match (_ ← bp_opened page; bp_body_ready page) with
  | Err _ => []
  | Ok _ =>
      fold_left
        (fun results selector =>
           match bp_elements page selector with
           | Ok elements => probe_elements selector 0 (firstn 10 elements) results
           | Err _ => results
           end)
        clickable_selectors []
  end.

(** How a probe that borrows a driver ends: with its results and the
    manager after the release, or with the exception of
    [create_chrome_driver], or suspended in [get_driver]. *)
Inductive probe_end (A : Type) : Type :=
| Probed (results : A) (self : WebDriverManager)
| GetDriverRaised
| GetDriverWaits.
Arguments Probed {A} results self.
Arguments GetDriverRaised {A}.
Arguments GetDriverWaits {A}.

(** [get_driver], then the probe, then [release_driver] in the
    [finally]; [reset_ok] and [quit_ok] are the answers of the driver
    during the release. *)
Definition with_driver {A : Type} (fresh : option driver) (reset_ok quit_ok : bool)
    (probe : driver -> A) (self : WebDriverManager) : probe_end A :=
  match get_driver fresh self with
  | (Reused d, self1) | (Created d, self1) =>
      Probed (probe d) (release_driver d reset_ok quit_ok self1)
  | (CreateRaised, _) => GetDriverRaised
  | (Waiting, _) => GetDriverWaits
  end.

Definition test_all_buttons (fresh : option driver) (reset_ok quit_ok : bool)
    (page : driver -> ButtonsPage) (self : WebDriverManager)
    : probe_end (list InteractionResult) :=
  with_driver fresh reset_ok quit_ok (fun d => probe_buttons (page d)) self.

(** *** Forms *)

Definition _generate_test_data (input_type input_name : string) : string :=
  let input_name_lower := PyStr.lower input_name in
  if String.eqb input_type "email" || PyStr.contains "email" input_name_lower
  then "test@example.com"
  else if String.eqb input_type "tel" || PyStr.contains "phone" input_name_lower
  then "+1234567890"
  else if String.eqb input_type "url" || PyStr.contains "website" input_name_lower
  then "https://example.com"
  else if String.eqb input_type "number" || PyStr.contains "age" input_name_lower
  then "25"
  else if String.eqb input_type "date" then "2024-01-01"
  else if PyStr.contains "name" input_name_lower then
    if PyStr.contains "first" input_name_lower then "John"
    else if PyStr.contains "last" input_name_lower then "Doe"
    else "John Doe"
  else if PyStr.contains "company" input_name_lower then "Test Company"
  else if PyStr.contains "address" input_name_lower then "123 Test Street"
  else if PyStr.contains "city" input_name_lower then "Test City"
  else if PyStr.contains "zip" input_name_lower
          || PyStr.contains "postal" input_name_lower then "12345"
  else if String.eqb input_type "password" then "TestPassword123!"
  else if String.eqb input_type "textarea"
          || existsb (String.eqb input_name_lower) ["message"; "comment"; "description"]
  then "This is a test message for form validation."
  else "Test Value".

(** What the browser answers while one form field is filled: the two
    reads of [tag_name] are separate calls; [in_options] holds the answer
    of [click()] for each [<option>] found. *)
Record InputElement := {
  in_displayed : result bool;
  in_enabled : result bool;
  in_type : result (option string);
  in_name : result (option string);
  in_tag_name : result string;
  in_tag_name_again : result string;
  in_cleared : result unit;
  in_typed : result unit;
  in_options : result (list (result unit)) }.

(** The inner [try] of the loop over the fields: [Ok true] when the
    field was filled, [Ok false] when it was passed over, [Err] when a
    call raised. *)
Definition fill_input (input_elem : InputElement) : result bool :=
  ty ← in_type input_elem;
  let input_type := or_default ty "text" in
  nm ← in_name input_elem;
  let input_name := or_default nm "" in
  let test_value := _generate_test_data input_type input_name in
  not_select ←
    (if String.eqb test_value "" then Ok false
     else tag ← in_tag_name input_elem;
          Ok (negb (String.eqb (PyStr.lower tag) "select")));
  if (not_select : bool) then
    _ ← in_cleared input_elem;
    _ ← in_typed input_elem;
    Ok true
  else
    tag ← in_tag_name_again input_elem;
    if String.eqb (PyStr.lower tag) "select" then
      options ← in_options input_elem;
      match options with
      | _ :: second :: _ => _ ← second; Ok true
      | _ => Ok false
      end
    else Ok false.

(** The loop over the fields, on [(fields_tested, fields_successful,
    validation_errors)]; [Err] when [is_displayed] or [is_enabled]
    raises, outside the inner [try]. *)
Fixpoint fill_inputs (inputs : list InputElement) (counts : Z * Z * list string)
    : result (Z * Z * list string) :=
  match inputs with
  | [] => Ok counts
  | input_elem :: rest =>
      let '(fields_tested, fields_successful, validation_errors) := counts in
      usable ← both (in_displayed input_elem) (in_enabled input_elem);
      if (usable : bool) then
        match fill_input input_elem with
        | Ok true =>
            fill_inputs rest (fields_tested + 1, fields_successful + 1,
                              validation_errors)
        | Ok false => fill_inputs rest counts
        | Err e =>
            fill_inputs rest (fields_tested + 1, fields_successful,
                              validation_errors ++ ["Field error: " +:+ e])
        end
      else fill_inputs rest counts
  end.

(** What the browser answers while one form is tested. *)
Record FormElement := {
  fm_displayed : result bool;
  fm_scrolled : result unit;
  fm_inputs : result (list InputElement);
  fm_submit_buttons : result (list (result unit));
  fm_url_before : result string;
  fm_url_after : result string;
  fm_success_indicators : result (list (result bool)) }.

(** The [try] around the submission. *)
Definition submit_form (form : FormElement) : result bool :=
  submit_buttons ← fm_submit_buttons form;
  match submit_buttons with
  | [] => Ok false
  | first :: _ =>
      original_url ← fm_url_before form;
      _ ← first;
      new_url ← fm_url_after form;
      let url_changed := negb (String.eqb original_url new_url) in
      success_indicators ← fm_success_indicators form;
      success_message ← any_displayed success_indicators;
      Ok (url_changed || success_message)
  end.

Definition _test_form_submission (form : FormElement) (form_selector : string)
    : FormTestResult :=
  let tried :=
    _ ← fm_scrolled form;
    inputs ← fm_inputs form;
    counts ← fill_inputs inputs (0, 0, []);
    let '(fields_tested, fields_successful, validation_errors) := counts in
    Ok (match submit_form form with
        | Ok submission_successful =>
            {| form_selector := form_selector; fields_tested := fields_tested;
               fields_successful := fields_successful;
               submission_successful := submission_successful;
               validation_errors := validation_errors |}
        | Err e =>
            {| form_selector := form_selector; fields_tested := fields_tested;
               fields_successful := fields_successful;
               submission_successful := false;
               validation_errors := validation_errors ++ ["Submission error: " +:+ e] |}
        end) in
  match tried with
  | Ok result => result
  | Err e =>
      {| form_selector := form_selector; fields_tested := 0;
         fields_successful := 0; submission_successful := false;
         validation_errors := [e] |}
  end.





(** *** Navigation *)

(** What the browser answers for one element of the navigation. *)
Record NavElement := {
  nav_displayed : result bool;
  nav_enabled : result bool;
  nav_text : result string;
  nav_href : result (option string) }.

(** The [url] entry of a path dictionary. *)
Definition path_url (p : path_result) : string :=
  match p with
  | PathTested _ url _ _ _ => url
  | PathError _ url _ => url
  end.

(** The [navigation_data] dictionary. *)
Record NavigationData := {
  nd_start_url : string;
  pages_visited : list string;
  navigation_paths : list path_result;
  dead_ends : list string;
  conversion_paths : list string;
  average_clicks_to_convert : Z }.

(** What [test_navigation_flow] returns: the data, or the dictionary with
    the one key [error]. *)
Inductive flow_result : Type :=
| FlowData (navigation_data : NavigationData)
| FlowError (error : string).

Section Flow.

(** [driver.get(url)]: the page shown afterwards, or the exception. *)
Variable driver_get : string -> result PageView.

(** [driver.find_elements] for the navigation links of the start page. *)
Variable nav_elements : result (list NavElement).

(** The body of the loop over [nav_elements[:5]], with its [try]. *)
Definition probe_nav_element (max_depth : Z) (paths : list path_result)
    (nav_element : NavElement) : list path_result :=
  let tried :=
    usable ← both (nav_displayed nav_element) (nav_enabled nav_element);
    if (usable : bool) then
      t ← nav_text nav_element;
      let link_text := PyStr.strip t in
      href ← nav_href nav_element;
      match href with
      | Some href =>
          if negb (String.eqb href "") && PyStr.startswith "http" href
          then Ok (paths ++ [_test_navigation_path driver_get href link_text max_depth])
          else Ok paths
      | None => Ok paths
      end
    else Ok paths in
  match tried with
  | Ok paths' => paths'
  | Err _ => paths
  end.

(** The [try] block of [test_navigation_flow]. *)
Definition probe_navigation (start_url : string) (max_depth : Z) : flow_result :=
  match (_ ← driver_get start_url; nav_elements) with
  | Err e => FlowError e
  | Ok elements =>
      FlowData
        {| nd_start_url := start_url;
           pages_visited := [];
           navigation_paths :=
             fold_left (probe_nav_element max_depth) (firstn 5 elements) [];
           dead_ends := [];
           conversion_paths := [];
           average_clicks_to_convert := 0 |}
  end.

End Flow.

Definition test_navigation_flow (fresh : option driver) (reset_ok quit_ok : bool)
    (driver_get : driver -> string -> result PageView)
    (nav_elements : driver -> result (list NavElement))
    (start_url : string) (max_depth : Z) (self : WebDriverManager)
    : probe_end flow_result :=
  with_driver fresh reset_ok quit_ok
    (fun d => probe_navigation (driver_get d) (nav_elements d) start_url max_depth)
    self.

End Probes.

(** ** More sites *)

Module Sites.

Import Soup Crawler.

(** A network on which every request times out. *)
Definition unreachable (n : nat) (u : string) : option Response := None.

Definition crawl_unreachable (fuel : nat) : outcome (SiteMap * CrawlerService) :=
  crawl_website unreachable Demo.BeautifulSoup Demo.urlparse Demo.urljoin
    (Demo.prefer []) fuel "http://a.com/" (new_service 10).

(** The three pages of [Demo.three_pages], crawled with a cap of 0. *)
Definition crawl_capped_at_zero (fuel : nat) : outcome (SiteMap * CrawlerService) :=
  crawl_website (Demo.serve Demo.three_pages) Demo.BeautifulSoup Demo.urlparse
    Demo.urljoin_wellformed (Demo.prefer []) fuel "http://a.com/" (new_service 0).

(** Anchors with a padded link, a fragment, an empty link, no link at
    all and a mail link. *)
Definition links_page : list node :=
  [Demo.anchor "  /a " "A"; Demo.anchor "#top" "Top"; Demo.anchor "" "E";
   Tag "a" [] [] [Text "no href"]; Demo.anchor "mailto:x@y.z" "M"].

(** A robots.txt with a group for another crawler, then one for all. *)
Definition robots_two_groups : string :=
  PyStr.join (String (ascii_of_nat 10) "")
    ["User-agent: bingbot"; "Disallow: /private"; "";
     "User-agent: *"; "Allow: /public"; "Disallow: /"].

(** A button that answers every call and whose click changes nothing. *)
Definition inert_button : Probes.ClickableElement :=
  {| Probes.el_displayed := WebDriver.Ok true;
     Probes.el_enabled := WebDriver.Ok true;
     Probes.el_text := WebDriver.Ok " Save ";
     Probes.el_value := WebDriver.Ok None;
     Probes.el_aria_label := WebDriver.Ok None;
     Probes.el_scrolled := WebDriver.Ok tt;
     Probes.el_url_before := WebDriver.Ok "http://a.com/";
     Probes.el_clicked := WebDriver.Ok tt;
     Probes.el_url_after := WebDriver.Ok "http://a.com/";
     Probes.el_modals := WebDriver.Ok [];
     Probes.el_screenshot := WebDriver.Ok "png" |}.

(** A button that has gone stale: reading its text raises. *)
Definition stale_button : Probes.ClickableElement :=
  {| Probes.el_displayed := WebDriver.Ok true;
     Probes.el_enabled := WebDriver.Ok true;
     Probes.el_text := WebDriver.Err "stale element reference";
     Probes.el_value := WebDriver.Ok None;
     Probes.el_aria_label := WebDriver.Ok None;
     Probes.el_scrolled := WebDriver.Ok tt;
     Probes.el_url_before := WebDriver.Ok "http://a.com/";
     Probes.el_clicked := WebDriver.Ok tt;
     Probes.el_url_after := WebDriver.Ok "http://a.com/";
     Probes.el_modals := WebDriver.Ok [];
     Probes.el_screenshot := WebDriver.Ok "png" |}.

(** A required e-mail field that takes what is typed. *)
Definition email_field : Probes.InputElement :=
  {| Probes.in_displayed := WebDriver.Ok true;
     Probes.in_enabled := WebDriver.Ok true;
     Probes.in_type := WebDriver.Ok (Some "email");
     Probes.in_name := WebDriver.Ok (Some "contact");
     Probes.in_tag_name := WebDriver.Ok "input";
     Probes.in_tag_name_again := WebDriver.Ok "input";
     Probes.in_cleared := WebDriver.Ok tt;
     Probes.in_typed := WebDriver.Ok tt;
     Probes.in_options := WebDriver.Ok [] |}.

(** A form with that one field and no submit control. *)
Definition form_without_submit : Probes.FormElement :=
  {| Probes.fm_displayed := WebDriver.Ok true;
     Probes.fm_scrolled := WebDriver.Ok tt;
     Probes.fm_inputs := WebDriver.Ok [email_field];
     Probes.fm_submit_buttons := WebDriver.Ok [];
     Probes.fm_url_before := WebDriver.Ok "http://a.com/";
     Probes.fm_url_after := WebDriver.Ok "http://a.com/";
     Probes.fm_success_indicators := WebDriver.Ok [] |}.


(** A page with one inert button under every selector. *)
Definition buttons_page : Probes.ButtonsPage :=
  {| Probes.bp_opened := WebDriver.Ok tt;
     Probes.bp_body_ready := WebDriver.Ok tt;
     Probes.bp_elements := fun _ => WebDriver.Ok [inert_button] |}.

(** A navigation link. *)
Definition nav_link (href : string) : Probes.NavElement :=
  {| Probes.nav_displayed := WebDriver.Ok true;
     Probes.nav_enabled := WebDriver.Ok true;
     Probes.nav_text := WebDriver.Ok " Pricing ";
     Probes.nav_href := WebDriver.Ok (Some href) |}.

(** A site whose only page is missing: the server answers 404. *)
Definition crawl_missing (fuel : nat) : outcome (SiteMap * CrawlerService) :=
  crawl_website (Demo.serve []) Demo.BeautifulSoup Demo.urlparse Demo.urljoin
    (Demo.prefer []) fuel "http://a.com/" (new_service 10).

(** Home, about and contact again, with [urljoin] raising where the
    library's does. *)
Definition crawl_home_about_contact (fuel : nat)
    : outcome (SiteMap * CrawlerService) :=
  crawl_website (Demo.serve Demo.three_pages) Demo.BeautifulSoup Demo.urlparse
    Demo.urljoin
    (Demo.prefer ["http://a.com/"; "http://a.com/about"; "http://a.com/contact"])
    fuel "http://a.com/" (new_service 10).

(** A missing page whose error body holds a link that [urljoin] rejects. *)
Definition crawl_missing_badlink (fuel : nat) : outcome (SiteMap * CrawlerService) :=
  crawl_website (fun _ _ => Some {| status := 404; text := Some Demo.badlink_html |})
    Demo.BeautifulSoup Demo.urlparse Demo.urljoin
    (Demo.prefer []) fuel "http://a.com/" (new_service 10).

End Sites.

(** ** Reading robots.txt line by line *)

Module RobotsLines.

(** A line as the parser looks at it: trimmed, then lowercased. *)
Definition normal_line (raw : string) : string := PyStr.lower (PyStr.strip raw).

(** What follows the first colon of the line, trimmed. *)
Definition line_value (raw : string) : string :=
  PyStr.strip (default "" (PyStr.after_first ":" (normal_line raw))).

(** A [User-agent:] line. *)
Definition is_user_agent_line (raw : string) : bool :=
  PyStr.startswith "user-agent:" (normal_line raw).

(** A [User-agent:] line for every crawler or for one with "funnel" in
    its name. *)
Definition names_this_crawler (raw : string) : bool :=
  is_user_agent_line raw
  && (String.eqb (line_value raw) "*" || PyStr.contains "funnel" (line_value raw)).

(** A [Disallow: /] line. *)
Definition is_disallow_root (raw : string) : bool :=
  PyStr.startswith "disallow:" (normal_line raw) && String.eqb (line_value raw) "/".

(** A [Disallow: /] line lies ahead in the current group: before any
    further [User-agent:] line. *)
Definition disallow_in_group (lines : list string) : Prop :=
  exists between d rest,
    lines = between ++ d :: rest
    /\ Forall (fun l => is_user_agent_line l = false) between
    /\ is_disallow_root d = true.

(** A group opened for this crawler holds a [Disallow: /] line. *)
Definition group_disallows_all (lines : list string) : Prop :=
  exists before ua group,
    lines = before ++ ua :: group
    /\ names_this_crawler ua = true
    /\ disallow_in_group group.

End RobotsLines.

(** * Properties *)

Import Soup Crawler.

(** ** String operations on examples *)

Example lower_ex : PyStr.lower "Add to Cart / LP-7" = "add to cart / lp-7".
Proof. reflexivity. Qed.

Example strip_ex : PyStr.strip "  a b  " = "a b".
Proof. reflexivity. Qed.

Example split_ex : PyStr.split_char ":" "a:b:" = ["a"; "b"; ""].
Proof. reflexivity. Qed.

Example of_nat_ex :
  PyStr.of_nat 12 = "12" /\ PyStr.of_Z 0 = "0" /\ PyStr.of_Z 404 = "404".
Proof. repeat split; reflexivity. Qed.

Lemma any_in_spec keywords s :
  PyStr.any_in keywords s = true <->
  exists k, In k keywords /\ PyStr.contains k s = true.
Proof. unfold PyStr.any_in. apply existsb_exists. Qed.

(** ** Page classification *)

Example classify_content_rule :
  _classify_page_type "https://x.com/promo" "" "<b>Add to Cart</b>" = "product".
Proof. reflexivity. Qed.

Example classify_signup :
  _classify_page_type "https://x.com/" "" "Get started today" = "signup".
Proof. reflexivity. Qed.

Example classify_product_before_checkout :
  _classify_page_type "https://x.com/shop/cart" "" "" = "product".
Proof. reflexivity. Qed.

(** C4. [_classify_page_type] is the first-match evaluation of the
    ordered rule table (URL keyword sets for landing, product, checkout,
    confirmation, contact, about, content, then the content heuristics for
    product and signup, else general); and the page at
    https://x.com/landing/promo is classified landing whatever its title
    and its body, in particular when the body contains "Add to Cart". *)
Theorem classify_first_match_wins :
  (forall url title content,
      _classify_page_type url title content = classify_by_priority url content)
  /\ (forall title before after,
      _classify_page_type "https://x.com/landing/promo" title
        (before +:+ "Add to Cart" +:+ after) = "landing").
Proof.
  split.
  - intros u t c. unfold _classify_page_type, classify_by_priority.
    cbn [classification_rules first_match].
    unfold landing_keywords, product_keywords, checkout_keywords,
      confirmation_keywords, contact_keywords, about_keywords, content_keywords.
    set (ul := PyStr.lower u). set (cl := PyStr.lower c).
    repeat (match goal with
            | |- context [PyStr.any_in ?k ul] =>
                destruct (PyStr.any_in k ul); try reflexivity
            end).
    unfold PyStr.any_in. cbn [existsb].
    rewrite !orb_false_r. reflexivity.
  - intros t b a. reflexivity.
Qed.

(** ** Structural errors *)

Example errors_two_h1_only :
  _detect_page_errors Demo.two_h1_only 200 =
  ["Missing or empty title tag"; "Missing meta description";
   "Multiple H1 tags found (2)"; "Missing viewport meta tag"].
Proof. reflexivity. Qed.

Example errors_server_error :
  _detect_page_errors Demo.two_h1_page 503 =
  ["HTTP 503 error"; "Missing meta description"; "Multiple H1 tags found (2)"].
Proof. reflexivity. Qed.

(** C5, as the specification states it, fails: the document made of two
    [<h1>] tags has two headings and no meta description, is served with
    status 200, and its errors are not the set of the two messages: a
    missing title is reported as well. *)
Lemma two_h1_more_errors :
  length (find_all (name_in ["h1"]) Demo.two_h1_only) = 2%nat
  /\ find is_meta_description Demo.two_h1_only = None
  /\ ~ (forall e, In e (_detect_page_errors Demo.two_h1_only 200) <->
                  In e Demo.meta_and_h1_errors).
Proof.
  split; [reflexivity | split; [reflexivity |]].
  intros H. destruct (H "Missing or empty title tag") as [H1 _].
  assert (Hin : In "Missing or empty title tag"
                   (_detect_page_errors Demo.two_h1_only 200))
    by (left; reflexivity).
  apply H1 in Hin. destruct Hin as [Hd | [Hd | []]]; discriminate.
Qed.

(** C5, amended.  A document with two [<h1>] tags and no meta description
    tag, served with a status below 400, which has a non-empty title, a
    viewport meta tag and no image matched by the empty-[src] query, has
    exactly the two errors "Missing meta description" and "Multiple H1
    tags found (2)". *)
Theorem two_h1_no_meta_errors (soup : list node) (status_code : Z) (t v : node) :
  status_code < 400 ->
  length (find_all (name_in ["h1"]) soup) = 2%nat ->
  find is_meta_description soup = None ->
  find (name_in ["title"]) soup = Some t ->
  PyStr.strip (get_text t) <> "" ->
  find is_meta_viewport soup = Some v ->
  find_all is_empty_src_image soup = [] ->
  _detect_page_errors soup status_code = Demo.meta_and_h1_errors
  /\ (forall e, In e (_detect_page_errors soup status_code) <->
                In e Demo.meta_and_h1_errors).
Proof.
  intros Hst Hh1 Hmeta Ht Hne Hv Himg.
  assert (E : _detect_page_errors soup status_code = Demo.meta_and_h1_errors).
  { unfold _detect_page_errors.
    rewrite Hmeta, Ht, Hv, Himg.
    replace (400 <=? status_code) with false
      by (symmetry; apply Z.leb_gt; exact Hst).
    destruct (String.eqb_spec (PyStr.strip (get_text t)) "") as [E | _];
      [contradiction |].
    destruct (find_all (name_in ["h1"]) soup) as [| a [| b [| c l]]] eqn:Eh;
      cbn in Hh1; try discriminate.
    reflexivity. }
  split; [exact E |]. rewrite E. tauto.
Qed.

Lemma two_h1_no_meta_errors_witness :
  _detect_page_errors Demo.two_h1_page 200 = Demo.meta_and_h1_errors
  /\ (forall e, In e (_detect_page_errors Demo.two_h1_page 200) <->
                In e Demo.meta_and_h1_errors).
Proof.
  apply (two_h1_no_meta_errors Demo.two_h1_page 200
           (Tag "title" [] [] [Text "Shop"])
           (Tag "meta" [("name", "viewport"); ("content", "width=device-width")] [] [])).
  - lia.
  - reflexivity.
  - reflexivity.
  - reflexivity.
  - vm_compute. discriminate.
  - reflexivity.
  - reflexivity.
Defined.

(** ** Buttons *)

Lemma extract_buttons_spec (soup : list node) :
  extract_buttons soup =
  map button_info (List.filter (name_in button_names) (descendants soup)).
Proof. reflexivity. Qed.

Lemma input_not_button_name (n : node) :
  tag_name n = "input" -> name_in button_names n = false.
Proof. intros E. unfold name_in. rewrite E. reflexivity. Qed.

(** C6 fails on the code, which passes the two input selectors to
    [find_all] as tag names: on a form with an [<input type="submit">], an
    [<input type="button">] and a [<button>], the buttons list holds the
    descriptor of the [<button>] alone; and on any document no tag named
    [input] gets a descriptor. *)
Theorem buttons_skip_inputs :
  extract_buttons Demo.form_page =
    [ {| button_text := "Buy"; button_type := "button";
         button_class := "btn primary"; button_id := "b" |} ]
  /\ (forall soup : list node,
        length (extract_buttons soup) =
        length (List.filter (fun n => negb (String.eqb (tag_name n) "input"))
                            (find_all (name_in button_names) soup))).
Proof.
  split; [reflexivity |].
  intros soup. rewrite extract_buttons_spec, length_map. unfold find_all.
  f_equal. induction (descendants soup) as [| n l IH]; [reflexivity |].
  cbn [List.filter]. destruct (name_in button_names n) eqn:E.
  - cbn [List.filter].
    destruct (String.eqb_spec (tag_name n) "input") as [Ei | _].
    + rewrite (input_not_button_name n Ei) in E. discriminate.
    + cbn [negb]. f_equal. exact IH.
  - exact IH.
Qed.

(** ** The robots gate *)

Example robots_disallow_ex :
  robots_disallow_all
    ("User-agent: *" +:+ String (ascii_of_nat 10) "Disallow: /") = true
  /\ robots_disallow_all
    ("User-agent: bingbot" +:+ String (ascii_of_nat 10) "Disallow: /") = false
  /\ robots_disallow_all
    ("User-Agent: FunnelBot" +:+ String (ascii_of_nat 10) " disallow:  / ") = true.
Proof. repeat split; reflexivity. Qed.

(** A time-out is answered with true; a disallow read once stays cached
    when the network fails afterwards. *)
Example robots_timeout_then_cached :
  fst (_check_robots_txt (fun _ _ => None) "http://a.com" (new_service 10)) = true
  /\ (let self1 :=
        snd (_check_robots_txt
               (fun _ _ => Demo.ok ("User-agent: *" +:+ String (ascii_of_nat 10)
                                                              "Disallow: /"))
               "http://a.com" (new_service 10)) in
      _check_robots_txt (fun _ _ => None) "http://a.com" self1 = (false, self1)
      /\ requests self1 = ["http://a.com/robots.txt"]).
Proof. repeat split; reflexivity. Qed.

Lemma check_robots_cached session_get domain self allowed :
  robots_cache self !! domain = Some allowed ->
  _check_robots_txt session_get domain self = (allowed, self).
Proof. intros H. unfold _check_robots_txt. rewrite H. reflexivity. Qed.

Lemma check_robots_caches session_get domain self :
  robots_cache (snd (_check_robots_txt session_get domain self)) !! domain
  = Some (fst (_check_robots_txt session_get domain self)).
Proof.
  unfold _check_robots_txt.
  destruct (robots_cache self !! domain) as [b |] eqn:E; [exact E |].
  destruct (session_get _ _) as [r |]; [| apply lookup_insert_eq].
  destruct (status r =? 200); [| apply lookup_insert_eq].
  destruct (text r); apply lookup_insert_eq.
Qed.

Lemma check_robots_max_pages session_get domain self :
  max_pages (snd (_check_robots_txt session_get domain self)) = max_pages self.
Proof.
  unfold _check_robots_txt.
  destruct (robots_cache self !! domain); [reflexivity |].
  destruct (session_get _ _) as [r |]; [| reflexivity].
  destruct (status r =? 200); [| reflexivity].
  destruct (text r); reflexivity.
Qed.



(** ** The navigation probe *)

Import WebDriver.

Example navigation_direct_link :
  _test_navigation_path (Demo.shows "https://x.com/Pricing" ["/about"; "/cart"])
    "https://x.com/p" "P" 3
  = PathTested "P" "https://x.com/p" false 1 "t"
  /\ _test_navigation_path (Demo.shows "https://x.com/pricing" ["/about"])
       "https://x.com/p" "P" 3
  = PathTested "P" "https://x.com/p" false 3 "t"
  /\ _test_navigation_path (Demo.shows "https://x.com/Cart" []) "https://x.com/c" "C" 3
  = PathTested "C" "https://x.com/c" true 0 "t"
  /\ _test_navigation_path (fun _ => Err "timeout") "https://x.com/c" "C" 3
  = PathError "C" "https://x.com/c" "timeout".
Proof. repeat split; reflexivity. Qed.

(** C7, as the specification states it, fails: on a page that is not a
    conversion page and whose only link goes to /register, with
    [max_depth = 3], a link with one of the fixed conversion keywords is
    present and yet [clicks_to_convert] is 3, not 1: the link query of the
    probe looks for checkout, cart, buy and signup only. *)
Lemma register_link_not_counted :
  _test_navigation_path (Demo.shows "https://x.com/pricing" ["https://x.com/register"])
    "https://x.com/pricing" "Pricing" 3
  = PathTested "Pricing" "https://x.com/pricing" false 3 "t"
  /\ PyStr.any_in conversion_keywords "https://x.com/register" = true
  /\ ~ (forall lt u clicks t,
          _test_navigation_path
            (Demo.shows "https://x.com/pricing" ["https://x.com/register"])
            "https://x.com/pricing" "Pricing" 3
          = PathTested lt u false clicks t ->
          (exists href, In href ["https://x.com/register"]
                        /\ PyStr.any_in conversion_keywords href = true) ->
          clicks = 1).
Proof.
  split; [reflexivity | split; [reflexivity |]].
  intros H.
  specialize (H "Pricing" "https://x.com/pricing" 3 "t" eq_refl).
  assert (E : 3 = 1); [| discriminate].
  apply H. exists "https://x.com/register". split; [left |]; reflexivity.
Qed.

(** C7, amended.  Every edge that [_test_navigation_path] reports as
    tested comes from a page the driver showed, at some URL [shown]; the
    edge is a conversion page iff that URL, lowercased as the probe does,
    contains one of checkout, cart, buy, purchase, order, signup,
    register; when it is not and [max_depth] is positive,
    [clicks_to_convert] is 1 when the page has a link whose [href]
    contains checkout, cart, buy or signup, and [max_depth] when it has
    none, so never a value in between; and a probe whose driver calls all
    answer reports a tested edge. *)
Theorem navigation_path_saturates
    (driver_get : string -> result PageView)
    (url link_text : string) (max_depth : Z) :
  (forall lt u conv clicks t,
      _test_navigation_path driver_get url link_text max_depth
        = PathTested lt u conv clicks t ->
      exists view shown,
        driver_get url = Ok view /\ current_url view = Ok shown
        /\ (conv = true <->
            exists k, In k conversion_keywords
                      /\ PyStr.contains k (PyStr.lower shown) = true)
        /\ (conv = false -> 0 < max_depth ->
            exists hrefs,
              anchors view = Ok hrefs
              /\ ((exists href k, In href hrefs /\ In k conversion_link_keywords
                                  /\ PyStr.contains k href = true) -> clicks = 1)
              /\ ((forall href k, In href hrefs -> In k conversion_link_keywords ->
                                  PyStr.contains k href = false) -> clicks = max_depth)
              /\ (clicks = 1 \/ clicks = max_depth)))
  /\ (forall view shown hrefs t,
        driver_get url = Ok view -> current_url view = Ok shown ->
        anchors view = Ok hrefs -> page_title view = Ok t ->
        exists conv clicks,
          _test_navigation_path driver_get url link_text max_depth
            = PathTested link_text url conv clicks t).
Proof.
  split.
  - intros lt u conv clicks t H. unfold _test_navigation_path, mbind, result_bind in H.
    destruct (driver_get url) as [view | e] eqn:Eg; [| discriminate].
    destruct (current_url view) as [shown | e] eqn:Eu; [| discriminate].
    exists view, shown. split; [reflexivity | split; [exact Eu |]].
    set (c := PyStr.any_in conversion_keywords (PyStr.lower shown)) in *.
    assert (Hc : c = true <->
                 exists k, In k conversion_keywords
                           /\ PyStr.contains k (PyStr.lower shown) = true)
      by apply any_in_spec.
    destruct c eqn:Ec; cbn [negb andb] in H.
    + destruct (page_title view); [| discriminate].
      injection H as _ _ Hconv _ _. subst conv. split; [exact Hc | discriminate].
    + destruct (0 <? max_depth) eqn:Ed.
      * unfold find_conversion_links in H.
        destruct (anchors view) as [hrefs | e] eqn:Ea; [| discriminate].
        destruct (List.filter _ hrefs) as [| x found] eqn:Ef;
          (destruct (page_title view); [| discriminate]);
          injection H as _ _ Hconv Hcl _; subst conv clicks;
          (split; [exact Hc |]); intros _ _; exists hrefs;
          (split; [reflexivity |]).
        -- split; [| auto]. intros (href & k & Hh & Hk & Hin). exfalso.
           assert (Hf : In href (List.filter (PyStr.any_in conversion_link_keywords)
                                             hrefs)).
           { apply filter_In. split; [exact Hh |]. apply any_in_spec. eauto. }
           rewrite Ef in Hf. exact Hf.
        -- split; [auto | split; [| auto]]. intros Hnone. exfalso.
           assert (Hf : In x (List.filter (PyStr.any_in conversion_link_keywords)
                                          hrefs))
             by (rewrite Ef; left; reflexivity).
           apply filter_In in Hf as [Hx Hk]. apply any_in_spec in Hk as (k & Hk & Hin).
           rewrite (Hnone x k Hx Hk) in Hin. discriminate.
      * destruct (page_title view); [| discriminate].
        injection H as _ _ Hconv Hcl _. subst conv clicks.
        split; [exact Hc |]. intros _ Hpos. apply Z.ltb_ge in Ed. lia.
  - intros view shown hrefs t Hg Hu Ha Ht.
    unfold _test_navigation_path, mbind, result_bind, find_conversion_links.
    rewrite Hg, Hu, Ha, Ht.
    destruct (negb _ && _); [destruct (List.filter _ hrefs) |]; eauto.
Qed.

Lemma navigation_path_saturates_witness :
  (exists view shown,
      Demo.shows "https://x.com/pricing" ["/about"; "/cart"] "https://x.com/p" = Ok view
      /\ current_url view = Ok shown
      /\ (false = true <->
          exists k, In k conversion_keywords
                    /\ PyStr.contains k (PyStr.lower shown) = true)
      /\ (false = false -> 0 < 3 ->
          exists hrefs,
            anchors view = Ok hrefs
            /\ ((exists href k, In href hrefs /\ In k conversion_link_keywords
                                /\ PyStr.contains k href = true) -> 1 = 1)
            /\ ((forall href k, In href hrefs -> In k conversion_link_keywords ->
                                PyStr.contains k href = false) -> 1 = 3)
            /\ (1 = 1 \/ 1 = 3)))
  /\ exists conv clicks,
      _test_navigation_path (Demo.shows "https://x.com/pricing" ["/about"; "/cart"])
        "https://x.com/p" "P" 3
      = PathTested "P" "https://x.com/p" conv clicks "t".
Proof.
  split.
  - apply (proj1 (navigation_path_saturates
                    (Demo.shows "https://x.com/pricing" ["/about"; "/cart"])
                    "https://x.com/p" "P" 3)
             "P" "https://x.com/p" false 1 "t").
    reflexivity.
  - apply (proj2 (navigation_path_saturates
                    (Demo.shows "https://x.com/pricing" ["/about"; "/cart"])
                    "https://x.com/p" "P" 3)
             {| current_url := Ok "https://x.com/pricing";
                anchors := Ok ["/about"; "/cart"];
                page_title := Ok "t" |}
             "https://x.com/pricing" ["/about"; "/cart"] "t");
      reflexivity.
Defined.

(** ** The driver pool *)

Example pool_run_ex :
  run_ops [OpGet (Some 1%nat); OpGet (Some 2%nat); OpGet (Some 3%nat);
           OpRelease 1%nat true true; OpGet (Some 4%nat)] (new_manager 2)
  = {| max_drivers := 2; driver_pool := [1%nat; 2%nat]; available_drivers := [] |}.
Proof. reflexivity. Qed.

Lemma list_pop_None (l : list driver) : list_pop l = None -> l = [].
Proof.
  unfold list_pop. intros H. destruct (rev l) eqn:E; [| discriminate].
  apply (f_equal (@rev driver)) in E. rewrite rev_involutive in E. exact E.
Qed.

Lemma list_pop_Some (l : list driver) d rest :
  list_pop l = Some (d, rest) -> l = rest ++ [d].
Proof.
  unfold list_pop. intros H. destruct (rev l) as [| x r] eqn:E; [discriminate |].
  injection H as -> <-.
  apply (f_equal (@rev driver)) in E. rewrite rev_involutive in E. exact E.
Qed.

Lemma list_remove_length (d : driver) (l : list driver) :
  (length (list_remove d l) <= length l)%nat.
Proof.
  induction l as [| x r IH]; cbn; [lia |].
  destruct (Nat.eqb x d); cbn; lia.
Qed.

(** One operation keeps the ceiling and does not push the pool above it. *)
Lemma apply_op_bound (self : WebDriverManager) (op : pool_op) :
  Z.of_nat (length (driver_pool self)) <= max_drivers self ->
  max_drivers (apply_op self op) = max_drivers self
  /\ Z.of_nat (length (driver_pool (apply_op self op))) <= max_drivers self.
Proof.
  intros H. destruct op as [fresh | | d reset_ok quit_ok | d quit_ok |]; cbn.
  - unfold get_driver. destruct (list_pop (available_drivers self)) as [[d rest] |];
      cbn; [auto |].
    destruct (Z.ltb_spec (Z.of_nat (length (driver_pool self))) (max_drivers self));
      [| cbn; auto].
    destruct fresh as [d |]; cbn; [| auto].
    rewrite length_app. cbn. split; [reflexivity | lia].
  - unfold resume_get_driver.
    destruct (list_pop (available_drivers self)) as [[d rest] |]; cbn; auto.
  - unfold release_driver, close_driver. destruct reset_ok; cbn; [auto |].
    destruct quit_ok; cbn; [| auto]. split; [reflexivity |].
    destruct (list_in d (driver_pool self)); [| exact H].
    pose proof (list_remove_length d (driver_pool self)). lia.
  - unfold close_driver. destruct quit_ok; cbn; [| auto]. split; [reflexivity |].
    destruct (list_in d (driver_pool self)); [| exact H].
    pose proof (list_remove_length d (driver_pool self)). lia.
  - split; [reflexivity | lia].
Qed.

Lemma run_ops_bound (ops : list pool_op) (self : WebDriverManager) :
  Z.of_nat (length (driver_pool self)) <= max_drivers self ->
  max_drivers (run_ops ops self) = max_drivers self
  /\ Z.of_nat (length (driver_pool (run_ops ops self))) <= max_drivers self.
Proof.
  revert self. induction ops as [| op ops IH]; intros self H; cbn; [auto |].
  destruct (apply_op_bound self op H) as [Hm Hb].
  destruct (IH (apply_op self op)) as [Hm' Hb']; [rewrite Hm; exact Hb |].
  fold (run_ops ops (apply_op self op)).
  rewrite Hm' , Hm in *. auto.
Qed.

(** C8. From a fresh manager with ceiling [max_drivers >= 0], after any
    sequence of [get_driver], wake-ups of suspended [get_driver] calls,
    [release_driver], [close_driver] and [close_all], the pool tracks at
    most [max_drivers] drivers.  In every such state a [get_driver] call
    creates a driver only when the pool holds strictly fewer than
    [max_drivers]; otherwise it returns a driver that was idle, or waits
    (when none is idle and the pool is at the ceiling). *)
Theorem pool_never_exceeds_ceiling (n : Z) (ops : list pool_op) :
  0 <= n ->
  let self := run_ops ops (new_manager n) in
  Z.of_nat (length (driver_pool self)) <= n
  /\ forall fresh,
      match fst (get_driver fresh self) with
      | Created d =>
          Z.of_nat (length (driver_pool self)) < n
          /\ available_drivers self = [] /\ fresh = Some d
          /\ driver_pool (snd (get_driver fresh self)) = driver_pool self ++ [d]
      | Reused d =>
          exists rest, available_drivers self = rest ++ [d]
          /\ driver_pool (snd (get_driver fresh self)) = driver_pool self
      | Waiting =>
          available_drivers self = []
          /\ n <= Z.of_nat (length (driver_pool self))
          /\ snd (get_driver fresh self) = self
      | CreateRaised =>
          fresh = None /\ snd (get_driver fresh self) = self
      end.
Proof.
  intros Hn self.
  destruct (run_ops_bound ops (new_manager n)) as [Hm Hb]; [cbn; lia |].
  fold self in Hm, Hb. cbn in Hm, Hb. split; [exact Hb |].
  intros fresh. unfold get_driver.
  destruct (list_pop (available_drivers self)) as [[d rest] |] eqn:Ep; cbn.
  - exists rest. split; [apply list_pop_Some; exact Ep | reflexivity].
  - apply list_pop_None in Ep. rewrite Hm.
    destruct (Z.ltb_spec (Z.of_nat (length (driver_pool self))) n).
    + destruct fresh as [d |]; cbn; auto.
    + cbn. auto.
Qed.

Lemma pool_never_exceeds_ceiling_witness :
  Z.of_nat (length (driver_pool
     (run_ops [OpGet (Some 1%nat); OpGet (Some 2%nat); OpGet (Some 3%nat)]
              (new_manager 2)))) <= 2.
Proof.
  assert (H : 0 <= 2) by lia.
  exact (proj1 (pool_never_exceeds_ceiling 2
                  [OpGet (Some 1%nat); OpGet (Some 2%nat); OpGet (Some 3%nat)] H)).
Defined.

(** ** The crawl loop *)

Section CrawlLoop.

Variable session_get : nat -> string -> option Response.
Variable BeautifulSoup : string -> list node.
Variable urlparse : string -> option (string * string).
Variable urljoin : string -> string -> option string.
Variable pop_choice : nat -> gset string -> string.

Local Abbreviation pop := (set_pop pop_choice).
Local Abbreviation same_domain := (_is_same_domain urlparse).
Local Abbreviation crawl_page := (_crawl_page session_get BeautifulSoup).
Local Abbreviation route := (route_links urlparse urljoin).
Local Abbreviation iteration :=
  (crawl_iteration session_get BeautifulSoup urlparse urljoin pop_choice).
Local Abbreviation loop :=
  (crawl_loop session_get BeautifulSoup urlparse urljoin pop_choice).
Local Abbreviation crawl :=
  (crawl_website session_get BeautifulSoup urlparse urljoin pop_choice).
Local Abbreviation iterate_loop :=
  (iterate session_get BeautifulSoup urlparse urljoin pop_choice).

Lemma set_pop_in (n : nat) (s : gset string) : s ≠ ∅ -> pop n s ∈ s.
Proof.
  intros Hne. unfold set_pop.
  destruct (decide (pop_choice n s ∈ s)) as [H | _]; [exact H |].
  destruct (elements s) as [| x l] eqn:E.
  - apply elements_empty_inv in E. apply leibniz_equiv in E. contradiction.
  - cbn. apply elem_of_elements. rewrite E. left.
Qed.

Lemma crawl_page_url (u : string) (self : CrawlerService) (p : PageInfo) :
  fst (crawl_page u self) = Some p -> url p = u.
Proof.
  unfold _crawl_page. cbn [fst].
  destruct (session_get _ _) as [r |]; [| discriminate].
  destruct (text r); [| discriminate].
  intros [= <-]. reflexivity.
Qed.

Lemma crawl_page_service (u : string) (self : CrawlerService) :
  snd (crawl_page u self) = with_request u self.
Proof. reflexivity. Qed.

Lemma iteration_cases (domain : string) (st : CrawlState) :
  iteration_case session_get BeautifulSoup urlparse urljoin pop_choice
                 domain st (iteration domain st).
Proof.
  unfold crawl_iteration.
  set (u := pop (iterations st) (to_crawl st)).
  destruct (decide (u ∈ crawled st)) as [Hc | Hc].
  - eapply case_already_crawled; eauto.
  - destruct (same_domain u domain) eqn:Ed; cbn [negb].
    + pose proof (crawl_page_service u (service st)) as Hs.
      destruct (crawl_page u (service st)) as [[page_info |] service1] eqn:Ep;
        cbn [snd] in Hs; subst service1.
      * destruct (route _ _ _ _ _) as [[routed to_crawl2] external2] eqn:Er.
        eapply case_fetched; eauto. rewrite Ep. reflexivity.
      * eapply case_failed; eauto. rewrite Ep. reflexivity.
    + eapply case_external; eauto.
Qed.

Lemma iteration_max_pages (domain : string) (st : CrawlState) :
  max_pages (service (iteration domain st)) = max_pages (service st).
Proof. destruct (iteration_cases domain st); reflexivity. Qed.

Lemma loop_condition_true (st : CrawlState) :
  loop_condition st = true ->
  to_crawl st ≠ ∅ /\ Z.of_nat (size (crawled st)) < max_pages (service st).
Proof.
  unfold loop_condition. intros H. apply andb_true_iff in H as [H1 H2].
  apply bool_decide_eq_true in H1. apply Z.ltb_lt in H2. auto.
Qed.

(** *** Termination *)

Lemma iteration_decreases (domain : string) (st : CrawlState) :
  loop_condition st = true ->
  (pages_left (iteration domain st) < pages_left st)%nat
  \/ (pages_left (iteration domain st) = pages_left st
      /\ (size (to_crawl (iteration domain st)) < size (to_crawl st))%nat).
Proof.
  intros Hc. apply loop_condition_true in Hc as [Hne Hlt].
  pose proof (set_pop_in (iterations st) (to_crawl st) Hne) as Hin.
  assert (Hsz : (size (to_crawl st ∖ {[pop (iterations st) (to_crawl st)]})
                 < size (to_crawl st))%nat).
  { apply subset_size, subset_difference_elem_of, Hin. }
  unfold pages_left.
  destruct (iteration_cases domain st)
    as [u -> Hx | u -> Hx Hd | u p r t2 e2 -> Hx Hd Hp Hr | u -> Hx Hd Hp];
    cbn [crawled to_crawl service max_pages with_request].
  - right. auto.
  - right. auto.
  - left. rewrite size_union by (apply disjoint_singleton_r; exact Hx).
    rewrite size_singleton. lia.
  - right. auto.
Qed.

Lemma crawl_loop_terminates (domain : string) (st : CrawlState) :
  exists fuel st', loop fuel domain st = Some st'.
Proof.
  remember (pages_left st) as a eqn:Ea. revert st Ea.
  induction a as [a IHa] using lt_wf_ind. intros st Ea.
  remember (size (to_crawl st)) as b eqn:Eb. revert st Ea Eb.
  induction b as [b IHb] using lt_wf_ind. intros st Ea Eb.
  destruct (loop_condition st) eqn:Hc.
  - destruct (iteration_decreases domain st Hc) as [Hlt | [Heq Hlt]].
    + destruct (IHa (pages_left (iteration domain st))) with (st := iteration domain st)
        as (fuel & st' & Hf); [lia | reflexivity |].
      exists (S fuel), st'. cbn. rewrite Hc. exact Hf.
    + destruct (IHb (size (to_crawl (iteration domain st)))) with (st := iteration domain st)
        as (fuel & st' & Hf); [lia | congruence | reflexivity |].
      exists (S fuel), st'. cbn. rewrite Hc. exact Hf.
  - exists 0%nat, st. cbn. rewrite Hc. reflexivity.
Qed.

(** What holds before the loop and is kept by every iteration that the
    loop condition lets through holds of the state the loop ends in. *)
Lemma crawl_loop_invariant (P : CrawlState -> Prop) (domain : string) :
  (forall st, loop_condition st = true -> P st -> P (iteration domain st)) ->
  forall fuel st st', P st -> loop fuel domain st = Some st' ->
                      P st' /\ loop_condition st' = false.
Proof.
  intros Hstep fuel. induction fuel as [| fuel IH]; intros st st' HP Hl; cbn in Hl.
  - destruct (loop_condition st) eqn:Hc; [discriminate |].
    inversion Hl; subst; auto.
  - destruct (loop_condition st) eqn:Hc.
    + apply (IH (iteration domain st)); auto.
    + inversion Hl; subst; auto.
Qed.

(** *** What the loop keeps true *)

Lemma initial_pages_match (start_url : string) (self : CrawlerService) :
  pages_match_crawled (initial_state start_url self).
Proof.
  unfold pages_match_crawled. cbn. rewrite size_empty.
  repeat split; try constructor; try set_solver; try lia.
Qed.

Lemma iteration_pages_match (domain : string) (st : CrawlState) :
  loop_condition st = true ->
  pages_match_crawled st -> pages_match_crawled (iteration domain st).
Proof.
  intros Hc (Hlen & Hnd & Hiff & Hcap).
  apply loop_condition_true in Hc as [_ Hlt].
  destruct (iteration_cases domain st)
    as [u _ Hx | u _ Hx Hd | u p r t2 e2 _ Hx Hd Hp Hr | u _ Hx Hd Hp];
    unfold pages_match_crawled;
    cbn [crawled cur_pages service max_pages with_request]; auto.
  apply crawl_page_url in Hp.
  rewrite length_app, map_app, size_union, size_singleton
    by (apply disjoint_singleton_r; exact Hx).
  cbn [length map]. rewrite Hp. repeat split.
  - lia.
  - apply NoDup_app. repeat split; auto.
    + intros x Hin Hx'. apply list_elem_of_singleton in Hx'. subst x.
      apply Hx, Hiff. apply list_elem_of_In. exact Hin.
    + apply NoDup_singleton.
  - intros Hin. apply in_or_app. apply elem_of_union in Hin as [Hin | Hin].
    + left. apply Hiff. exact Hin.
    + right. apply elem_of_singleton in Hin. subst. left. reflexivity.
  - intros Hin. apply in_app_or in Hin as [Hin | [<- | []]].
    + apply elem_of_union_l, Hiff. exact Hin.
    + apply elem_of_union_r, elem_of_singleton. reflexivity.
  - lia.
Qed.

Lemma crawl_page_fetch_ok (u : string) (self : CrawlerService) :
  fetch_ok session_get (length (requests self)) u
  = match fst (crawl_page u self) with Some _ => true | None => false end.
Proof.
  unfold fetch_ok, _crawl_page. cbn [fst].
  destruct (session_get _ _) as [r |]; [| reflexivity].
  destruct (text r); reflexivity.
Qed.

(** The link loop is left early only by a link on which [urljoin] raises. *)
Lemma route_links_raised (u domain : string) (ls : list string)
    (tc : gset string) (ext : list string) :
  fst (fst (route u domain ls tc ext)) = false ->
  exists link, In link ls /\ urljoin u link = None.
Proof.
  revert tc ext. induction ls as [| l ls IH]; intros tc ext; cbn;
    [discriminate |].
  destruct (urljoin u l) as [a |] eqn:E.
  - destruct (same_domain a domain); intros H;
      apply IH in H as (link & Hin & Hn); eauto.
  - intros _. exists l. auto.
Qed.

Lemma route_links_returned (u domain : string) (ls : list string)
    (tc : gset string) (ext : list string) :
  (forall link, In link ls -> urljoin u link <> None) ->
  fst (fst (route u domain ls tc ext)) = true.
Proof.
  revert tc ext. induction ls as [| l ls IH]; intros tc ext Hres; cbn;
    [reflexivity |].
  destruct (urljoin u l) as [a |] eqn:E;
    [| exfalso; exact (Hres l (or_introl eq_refl) E)].
  destruct (same_domain a domain); apply IH; intros link Hin;
    apply Hres; right; exact Hin.
Qed.

Lemma route_links_returned_inv (u domain : string) (ls : list string)
    (tc : gset string) (ext : list string) :
  fst (fst (route u domain ls tc ext)) = true ->
  forall link, In link ls -> urljoin u link <> None.
Proof.
  revert tc ext. induction ls as [| l ls IH]; intros tc ext H link Hin;
    [destruct Hin |].
  cbn in H. destruct (urljoin u l) as [a |] eqn:E; [| discriminate].
  destruct Hin as [<- | Hin]; [congruence |].
  destruct (same_domain a domain); exact (IH _ _ H link Hin).
Qed.

Lemma iteration_buckets_explained (domain : string) (st : CrawlState) :
  buckets_explained session_get BeautifulSoup urljoin st ->
  buckets_explained session_get BeautifulSoup urljoin (iteration domain st).
Proof.
  intros [Hp Hb].
  destruct (iteration_cases domain st)
    as [u _ Hx | u _ Hx Hd | u p r t2 e2 _ Hx Hd Hf Hr | u _ Hx Hd Hf];
    unfold buckets_explained; cbn [cur_broken_links cur_pages]; auto.
  - assert (Hold : forall v, In v (cur_broken_links st) ->
               (exists self, fst (crawl_page v self) = None)
               \/ (exists q link,
                     In q (cur_pages st ++ [p]) /\ url q = v
                     /\ In link (links q) /\ urljoin v link = None)).
    { intros v Hin. destruct (Hb v Hin) as [H | (q & link & Hq & H)];
        [left; exact H |].
      right. exists q, link. split; [apply in_or_app; left; exact Hq | exact H]. }
    split.
    + intros q Hin. apply in_app_or in Hin as [Hin | [<- | []]]; [auto |].
      exists (service st). rewrite (crawl_page_url _ _ _ Hf). exact Hf.
    + destruct r; [exact Hold |].
      intros v Hin. apply in_app_or in Hin as [Hin | [<- | []]]; [auto |].
      pose proof (route_links_raised u domain (links p)
                    (to_crawl st ∖ {[u]}) (cur_external_links st)) as Hrt.
      rewrite Hr in Hrt. destruct (Hrt eq_refl) as (link & Hin & Hn).
      right. exists p, link.
      split; [apply in_or_app; right; left; reflexivity |].
      split; [exact (crawl_page_url _ _ _ Hf) | auto].
  - split; [exact Hp |].
    intros v Hin. apply in_app_or in Hin as [Hin | [<- | []]]; [auto |].
    left. exists (service st). exact Hf.
Qed.

(** A visited URL stays visited, and no later iteration requests it. *)
Lemma iteration_keeps_visited (domain : string) (st : CrawlState) (u : string) :
  u ∈ crawled st ->
  u ∈ crawled (iteration domain st)
  /\ count_occ string_dec (requests (service (iteration domain st))) u
     = count_occ string_dec (requests (service st)) u.
Proof.
  intros Hu.
  destruct (iteration_cases domain st)
    as [v _ Hx | v _ Hx Hd | v p r t2 e2 _ Hx Hd Hf Hr | v _ Hx Hd Hf];
    cbn [crawled service requests with_request]; auto.
  - split; [set_solver |].
    rewrite count_occ_app. cbn.
    destruct (string_dec v u) as [-> | _]; [contradiction | lia].
  - split; [exact Hu |].
    rewrite count_occ_app. cbn.
    destruct (string_dec v u) as [-> | _]; [contradiction | lia].
Qed.

Lemma iterate_keeps_visited (domain : string) (st : CrawlState) (u : string)
    (k j : nat) :
  u ∈ crawled (iterate_loop k domain st) ->
  u ∈ crawled (iterate_loop (j + k) domain st)
  /\ count_occ string_dec (requests (service (iterate_loop (j + k) domain st))) u
     = count_occ string_dec (requests (service (iterate_loop k domain st))) u.
Proof.
  intros Hu. induction j as [| j [IH1 IH2]]; [auto |].
  unfold iterate in *. cbn [Nat.add Nat.iter].
  destruct (iteration_keeps_visited domain _ u IH1) as [H1 H2].
  split; [exact H1 | exact (eq_trans H2 IH2)].
Qed.

(** *** From the loop to [crawl_website] *)

Lemma crawl_website_returned (fuel : nat) (start_url : string)
    (self : CrawlerService) (sm : SiteMap) (self' : CrawlerService) :
  crawl fuel start_url self = Returned (sm, self') ->
  exists scheme netloc st,
    urlparse start_url = Some (scheme, netloc)
    /\ loop fuel (scheme +:+ "://" +:+ netloc)
             (initial_state start_url
                (snd (_check_robots_txt session_get (scheme +:+ "://" +:+ netloc) self)))
       = Some st
    /\ sm = site_map (scheme +:+ "://" +:+ netloc) st /\ self' = service st.
Proof.
  unfold crawl_website.
  destruct (urlparse start_url) as [[scheme netloc] |]; [| discriminate].
  cbv zeta.
  destruct (_check_robots_txt session_get (scheme +:+ "://" +:+ netloc) self)
    as [allowed self1] eqn:Er.
  destruct (loop fuel _ _) as [st |] eqn:El; [| discriminate].
  intros H. injection H as <- <-. exists scheme, netloc, st. rewrite Er. cbn [snd].
  repeat split; auto.
Qed.

Lemma crawl_website_terminates (start_url : string) (self : CrawlerService) :
  exists fuel, crawl fuel start_url self <> OutOfFuel.
Proof.
  unfold crawl_website.
  destruct (urlparse start_url) as [[scheme netloc] |]; [| exists 0%nat; discriminate].
  destruct (_check_robots_txt session_get _ self) as [allowed self1].
  destruct (crawl_loop_terminates (scheme +:+ "://" +:+ netloc)
              (initial_state start_url self1)) as (fuel & st & Hl).
  exists fuel. rewrite Hl. discriminate.
Qed.

Lemma crawl_website_pages_match (fuel : nat) (start_url : string)
    (self : CrawlerService) (sm : SiteMap) (self' : CrawlerService) :
  crawl fuel start_url self = Returned (sm, self') ->
  Z.of_nat (length (pages sm)) <= Z.max 0 (max_pages self)
  /\ NoDup (map url (pages sm)).
Proof.
  intros H. apply crawl_website_returned in H as (scheme & netloc & st & _ & Hl & -> & _).
  set (domain := scheme +:+ "://" +:+ netloc) in *.
  assert (Hinv : pages_match_crawled st
                 /\ max_pages (service st) = max_pages self).
  { eapply (crawl_loop_invariant
              (fun st => pages_match_crawled st
                         /\ max_pages (service st) = max_pages self)); [| | exact Hl].
    - intros st0 Hc [H1 H2]. split; [apply iteration_pages_match; auto |].
      rewrite iteration_max_pages. exact H2.
    - split; [apply initial_pages_match |]. cbn. apply check_robots_max_pages. }
  destruct Hinv as [(Hlen & Hnd & _ & Hcap) Hmax]. cbn [pages site_map].
  rewrite Hlen, <- Hmax. auto.
Qed.

Lemma crawl_website_buckets_explained (fuel : nat) (start_url : string)
    (self : CrawlerService) (sm : SiteMap) (self' : CrawlerService) :
  crawl fuel start_url self = Returned (sm, self') ->
  (forall p, In p (pages sm) ->
     exists self0, fst (crawl_page (url p) self0) = Some p)
  /\ (forall u, In u (broken_links sm) ->
        (exists self0, fst (crawl_page u self0) = None)
        \/ (exists p link,
              In p (pages sm) /\ url p = u
              /\ In link (links p) /\ urljoin u link = None)).
Proof.
  intros H. apply crawl_website_returned in H as (scheme & netloc & st & _ & Hl & -> & _).
  cbn [pages broken_links site_map].
  eapply (crawl_loop_invariant
            (buckets_explained session_get BeautifulSoup urljoin)); [| | exact Hl].
  - intros st0 _. apply iteration_buckets_explained.
  - split; intros x [].
Qed.

End CrawlLoop.

(** ** Funnel grouping *)

Lemma empty_funnel_lookup (t : string) :
  empty_funnel !! t = if existsb (String.eqb t) funnel_types then Some [] else None.
Proof.
  unfold empty_funnel, funnel_types.
  repeat (rewrite lookup_insert; case_decide; [subst t; reflexivity |]).
  rewrite lookup_empty. cbn [existsb].
  repeat (match goal with
          | |- context [String.eqb t ?k] =>
              destruct (String.eqb_spec t k); [congruence |]
          end).
  reflexivity.
Qed.

Lemma funnel_fold_lookup (pages : list PageInfo) (acc : gmap string (list string))
    (t : string) :
  fold_left
    (fun funnel_pages page =>
       match funnel_pages !! page_type page with
       | Some urls => <[page_type page := urls ++ [url page]]> funnel_pages
       | None => funnel_pages
       end) pages acc !! t
  = (fun urls =>
       urls ++ map url (List.filter (fun p => String.eqb (page_type p) t) pages))
      <$> (acc !! t).
Proof.
  revert acc. induction pages as [| p pages IH]; intros acc; cbn [fold_left List.filter map].
  - destruct (acc !! t); cbn; [rewrite app_nil_r |]; reflexivity.
  - rewrite IH. destruct (String.eqb_spec (page_type p) t) as [E | E].
    + rewrite E. destruct (acc !! t) as [urls |] eqn:Ea.
      * rewrite lookup_insert_eq. cbn. rewrite <- app_assoc. reflexivity.
      * rewrite Ea. reflexivity.
    + destruct (acc !! page_type p) as [urls |]; [| reflexivity].
      rewrite lookup_insert_ne by exact E. reflexivity.
Qed.

Lemma identify_funnel_pages_lookup (pages : list PageInfo) (t : string) :
  _identify_funnel_pages pages !! t
  = if existsb (String.eqb t) funnel_types
    then Some (map url (List.filter (fun p => String.eqb (page_type p) t) pages))
    else None.
Proof.
  unfold _identify_funnel_pages. rewrite funnel_fold_lookup, empty_funnel_lookup.
  destruct (existsb _ _); reflexivity.
Qed.

Lemma funnel_type_spec (t : string) :
  existsb (String.eqb t) funnel_types = true <-> In t funnel_types.
Proof.
  rewrite existsb_exists. split.
  - intros (k & Hk & E). apply String.eqb_eq in E. subst. exact Hk.
  - intros H. exists t. split; [exact H | apply String.eqb_refl].
Qed.

Lemma identify_funnel_pages_dom (pages : list PageInfo) :
  dom (_identify_funnel_pages pages) = list_to_set funnel_types.
Proof.
  apply set_eq. intros t. rewrite elem_of_dom, identify_funnel_pages_lookup.
  rewrite elem_of_list_to_set, list_elem_of_In, <- funnel_type_spec.
  destruct (existsb _ _); split; intros H; auto; try discriminate.
  destruct H as [x Hx]. discriminate.
Qed.

Lemma NoDup_map_inj {A B : Type} (f : A -> B) (l : list A) (x y : A) :
  NoDup (map f l) -> In x l -> In y l -> f x = f y -> x = y.
Proof.
  induction l as [| a l IH]; cbn; intros Hnd Hx Hy Hf; [contradiction |].
  apply NoDup_cons in Hnd as [Hna Hnd].
  destruct Hx as [-> | Hx], Hy as [-> | Hy]; auto.
  - exfalso. apply Hna. rewrite Hf. apply list_elem_of_In, in_map, Hy.
  - exfalso. apply Hna. rewrite <- Hf. apply list_elem_of_In, in_map, Hx.
Qed.

Example funnel_ex :
  _identify_funnel_pages
    [analyze_page "http://a.com/cart" 200 "" [];
     analyze_page "http://a.com/about" 200 "" [];
     analyze_page "http://a.com/checkout" 200 "" []] !! "checkout"
  = Some ["http://a.com/cart"; "http://a.com/checkout"].
Proof. reflexivity. Qed.

(** ** The crawl *)

(** Runs a crawl on a concrete site and names its result. *)
Ltac run_crawl := eexists _, _; split; [vm_compute; reflexivity |].

Example crawl_three_pages_result :
  exists sm self',
    Demo.crawl_three_pages 10 = Returned (sm, self')
    /\ map url (pages sm)
       = ["http://a.com/"; "http://a.com/about"; "http://a.com/contact"]
    /\ crawl_stats sm
       = {| total_pages := 3; stat_broken_links := 0; stat_external_links := 0 |}
    /\ broken_links sm = [] /\ external_links sm = []
    /\ requests self'
       = ["http://a.com/robots.txt"; "http://a.com/"; "http://a.com/about";
          "http://a.com/contact"].
Proof. run_crawl. repeat split. Qed.

(** With a cap of 2 the crawl stops after two pages; with a cap of 0 it
    fetches nothing. *)
Example crawl_three_pages_capped :
  (exists sm self',
      crawl_website (Demo.serve Demo.three_pages) Demo.BeautifulSoup Demo.urlparse
        Demo.urljoin_wellformed
        (Demo.prefer ["http://a.com/"; "http://a.com/about"; "http://a.com/contact"])
        10 "http://a.com/" (new_service 2) = Returned (sm, self')
      /\ map url (pages sm) = ["http://a.com/"; "http://a.com/about"])
  /\ (exists sm self',
      crawl_website (Demo.serve Demo.three_pages) Demo.BeautifulSoup Demo.urlparse
        Demo.urljoin_wellformed
        (Demo.prefer ["http://a.com/"; "http://a.com/about"; "http://a.com/contact"])
        10 "http://a.com/" (new_service 0) = Returned (sm, self')
      /\ pages sm = [] /\ broken_links sm = []
      /\ requests self' = ["http://a.com/robots.txt"]).
Proof.
  split; run_crawl; repeat split.
Qed.

(** A start URL without a scheme is not on the domain computed from it:
    it is dequeued as an external link and nothing is fetched. *)
Example crawl_schemeless_start :
  exists sm self',
    crawl_website (Demo.serve Demo.three_pages) Demo.BeautifulSoup Demo.urlparse
      Demo.urljoin_wellformed (Demo.prefer []) 10 "//a.com/" (new_service 10)
    = Returned (sm, self')
    /\ domain sm = "://a.com" /\ pages sm = []
    /\ external_links sm = ["//a.com/"].
Proof. run_crawl. repeat split. Qed.

(** The slip in the scope of the [try]: a page whose link makes
    [urljoin] raise has been appended to [pages] when the [except] branch
    appends its URL to [broken_links]. *)
Example crawl_badlink_result :
  exists sm self',
    Demo.crawl_badlink 10 = Returned (sm, self')
    /\ map url (pages sm) = ["http://a.com/"]
    /\ broken_links sm = ["http://a.com/"].
Proof. run_crawl. repeat split. Qed.

(** C1. Whatever the network, the parser, the URL functions and the pop
    order, a crawl with page cap [N >= 0] ends, and the site map it
    returns holds at most [N] pages. *)
Theorem crawl_respects_page_cap
    (session_get : nat -> string -> option Response)
    (BeautifulSoup : string -> list node)
    (urlparse : string -> option (string * string))
    (urljoin : string -> string -> option string)
    (pop_choice : nat -> gset string -> string)
    (N : Z) (start_url : string) (self : CrawlerService) :
  0 <= N ->
  max_pages self = N ->
  (exists fuel,
      crawl_website session_get BeautifulSoup urlparse urljoin pop_choice
                    fuel start_url self <> OutOfFuel)
  /\ forall fuel sm self',
      crawl_website session_get BeautifulSoup urlparse urljoin pop_choice
                    fuel start_url self = Returned (sm, self') ->
      Z.of_nat (length (pages sm)) <= N.
Proof.
  intros HN Hmax. split; [apply crawl_website_terminates |].
  intros fuel sm self' H.
  apply crawl_website_pages_match in H as [H _]. lia.
Qed.

Lemma crawl_respects_page_cap_witness :
  exists sm self',
    Demo.crawl_three_pages 10 = Returned (sm, self')
    /\ Z.of_nat (length (pages sm)) <= 10.
Proof.
  run_crawl.
  assert (H0 : 0 <= 10) by lia.
  eapply (proj2 (crawl_respects_page_cap
                   (Demo.serve Demo.three_pages) Demo.BeautifulSoup Demo.urlparse
                   Demo.urljoin_wellformed
                   (Demo.prefer ["http://a.com/"; "http://a.com/about";
                                 "http://a.com/contact"])
                   10 "http://a.com/" (new_service 10) H0 eq_refl) 10%nat).
  vm_compute. reflexivity.
Defined.

(** C2, as the specification states it, fails: when the first request
    for a URL times out, a page found later links to it again and the
    second request is answered, the URL is in [broken_links] and the page
    list both. *)
Lemma visited_url_also_broken :
  exists sm self',
    Demo.crawl_flaky 10 = Returned (sm, self')
    /\ In "http://a.com/x" (broken_links sm)
    /\ In "http://a.com/x" (map url (pages sm)).
Proof.
  run_crawl.
  split; cbn; tauto.
Qed.

(** C2, amended.  A crawl ends.  When [_crawl_page] ends the same way
    for each URL at every attempt (a page each time, or an exception each
    time), and no link of a page of the returned site map makes [urljoin]
    raise, no URL is in both [broken_links] and the page list of that site
    map.  And in every crawl, whatever the network and the links, once a
    URL is visited no later iteration of the loop requests it: the number
    of requests for it stays what it was. *)
Theorem stable_crawl_buckets_disjoint
    (session_get : nat -> string -> option Response)
    (BeautifulSoup : string -> list node)
    (urlparse : string -> option (string * string))
    (urljoin : string -> string -> option string)
    (pop_choice : nat -> gset string -> string)
    (start_url : string) (self : CrawlerService) :
  (exists fuel,
      crawl_website session_get BeautifulSoup urlparse urljoin pop_choice
                    fuel start_url self <> OutOfFuel)
  /\ (same_outcome_every_attempt session_get BeautifulSoup ->
      forall fuel sm self',
        crawl_website session_get BeautifulSoup urlparse urljoin pop_choice
                      fuel start_url self = Returned (sm, self') ->
        links_of_pages_resolve urljoin (pages sm) ->
        forall u, ~ (In u (broken_links sm) /\ In u (map url (pages sm))))
  /\ (forall domain st u k j,
        u ∈ crawled (iterate session_get BeautifulSoup urlparse urljoin pop_choice
                       k domain st) ->
        count_occ string_dec
          (requests (service (iterate session_get BeautifulSoup urlparse urljoin
                                pop_choice (j + k) domain st))) u
        = count_occ string_dec
            (requests (service (iterate session_get BeautifulSoup urlparse urljoin
                                  pop_choice k domain st))) u).
Proof.
  split; [apply crawl_website_terminates | split].
  - intros Hsame fuel sm self' H Hres u [Hb Hp].
    apply crawl_website_buckets_explained in H as [Hpages Hbroken].
    apply in_map_iff in Hp as (p & Eu & Hp).
    destruct (Hbroken u Hb) as [[self1 Hnone] | (q & link & Hq & Eq & Hl & Hn)].
    + destruct (Hpages p Hp) as [self2 Hsome].
      rewrite Eu in Hsome.
      apply (Hsame u self1 self2) in Hnone. congruence.
    + apply (Hres q link Hq Hl). rewrite Eq. exact Hn.
  - intros domain st u k j Hu.
    apply (iterate_keeps_visited _ _ _ _ _ domain st u k j Hu).
Qed.

Lemma stable_crawl_buckets_disjoint_witness :
  exists sm self',
    Sites.crawl_home_about_contact 10 = Returned (sm, self')
    /\ same_outcome_every_attempt (Demo.serve Demo.three_pages) Demo.BeautifulSoup
    /\ links_of_pages_resolve Demo.urljoin (pages sm)
    /\ forall u, ~ (In u (broken_links sm) /\ In u (map url (pages sm))).
Proof.
  run_crawl.
  assert (Hs : same_outcome_every_attempt (Demo.serve Demo.three_pages)
                                          Demo.BeautifulSoup)
    by (intros u self1 self2; reflexivity).
  match goal with
  | |- _ /\ links_of_pages_resolve _ ?ps /\ _ =>
      assert (Hr : links_of_pages_resolve Demo.urljoin ps)
  end.
  { intros p link Hp Hl. cbn [pages] in Hp.
    repeat (destruct Hp as [<- | Hp];
            [cbn in Hl;
             repeat (destruct Hl as [<- | Hl]; [vm_compute; discriminate |]);
             destruct Hl |]).
    destruct Hp. }
  split; [exact Hs | split; [exact Hr |]].
  refine (proj1 (proj2 (stable_crawl_buckets_disjoint
                          (Demo.serve Demo.three_pages) Demo.BeautifulSoup
                          Demo.urlparse Demo.urljoin
                          (Demo.prefer ["http://a.com/"; "http://a.com/about";
                                        "http://a.com/contact"])
                          "http://a.com/" (new_service 10))) Hs 10%nat _ _ _ Hr).
  vm_compute. reflexivity.
Defined.

(** C9. A crawl ends, and in the site map it returns the keys of
    [funnel_pages] are exactly landing, product, checkout, confirmation,
    signup and contact; the list under a key [t] holds the URLs of the
    crawled pages of type [t], in crawl order, so each of its URLs is the
    URL of a crawled page of type [t]; and the URL of a page classified
    about, content or general is in none of the lists. *)
Theorem funnel_pages_grouping
    (session_get : nat -> string -> option Response)
    (BeautifulSoup : string -> list node)
    (urlparse : string -> option (string * string))
    (urljoin : string -> string -> option string)
    (pop_choice : nat -> gset string -> string)
    (start_url : string) (self : CrawlerService) :
  (exists fuel,
      crawl_website session_get BeautifulSoup urlparse urljoin pop_choice
                    fuel start_url self <> OutOfFuel)
  /\ forall fuel sm self',
      crawl_website session_get BeautifulSoup urlparse urljoin pop_choice
                    fuel start_url self = Returned (sm, self') ->
      dom (funnel_pages sm) = list_to_set funnel_types
      /\ (forall t, In t funnel_types ->
            funnel_pages sm !! t
            = Some (map url (List.filter (fun p => String.eqb (page_type p) t)
                                         (pages sm))))
      /\ (forall t urls u,
            funnel_pages sm !! t = Some urls -> In u urls ->
            exists p, In p (pages sm) /\ url p = u /\ page_type p = t)
      /\ (forall p,
            In p (pages sm) ->
            In (page_type p) ["about"; "content"; "general"] ->
            forall t urls, funnel_pages sm !! t = Some urls -> ~ In (url p) urls).
Proof.
  split; [apply crawl_website_terminates |].
  intros fuel sm self' H.
  pose proof (crawl_website_pages_match _ _ _ _ _ _ _ _ _ _ H) as [_ Hnd].
  apply crawl_website_returned in H as (scheme & netloc & st & _ & _ & -> & _).
  cbn [funnel_pages pages site_map] in *.
  assert (Hmem : forall t urls u,
             _identify_funnel_pages (cur_pages st) !! t = Some urls -> In u urls ->
             In t funnel_types
             /\ exists p, In p (cur_pages st) /\ url p = u /\ page_type p = t).
  { intros t urls u Hl Hu. rewrite identify_funnel_pages_lookup in Hl.
    destruct (existsb (String.eqb t) funnel_types) eqn:Et; [| discriminate].
    injection Hl as <-. split; [apply funnel_type_spec; exact Et |].
    apply in_map_iff in Hu as (p & Hp & Hin).
    apply filter_In in Hin as [Hin Ht]. apply String.eqb_eq in Ht. eauto. }
  split; [apply identify_funnel_pages_dom | split; [| split]].
  - intros t Ht. rewrite identify_funnel_pages_lookup.
    apply funnel_type_spec in Ht. rewrite Ht. reflexivity.
  - intros t urls u Hl Hu. apply (Hmem t urls u Hl Hu).
  - intros p Hp Hty t urls Hl Hu.
    destruct (Hmem t urls (url p) Hl Hu) as (Ht & q & Hq & Hurl & Hqt).
    assert (q = p) by (eapply NoDup_map_inj; eauto). subst q.
    rewrite Hqt in Hty. cbn in Hty, Ht.
    intuition congruence.
Qed.

Lemma funnel_pages_grouping_witness :
  exists sm self',
    Demo.crawl_three_pages 10 = Returned (sm, self')
    /\ dom (funnel_pages sm) = list_to_set funnel_types
    /\ funnel_pages sm !! "contact" = Some ["http://a.com/contact"]
    /\ map page_type (pages sm) = ["general"; "about"; "contact"].
Proof.
  run_crawl.
  split; [| split; reflexivity].
  eapply (proj2 (funnel_pages_grouping
                   (Demo.serve Demo.three_pages) Demo.BeautifulSoup Demo.urlparse
                   Demo.urljoin_wellformed
                   (Demo.prefer ["http://a.com/"; "http://a.com/about";
                                 "http://a.com/contact"])
                   "http://a.com/" (new_service 10)) 10%nat).
  vm_compute. reflexivity.
Defined.

(** ** External links *)




(** * Further properties of the services *)

(** ** More about the crawl *)

Section CrawlBuckets.

Variable session_get : nat -> string -> option Response.
Variable BeautifulSoup : string -> list node.
Variable urlparse : string -> option (string * string).
Variable urljoin : string -> string -> option string.
Variable pop_choice : nat -> gset string -> string.

Local Abbreviation same_domain := (_is_same_domain urlparse).
Local Abbreviation route := (route_links urlparse urljoin).
Local Abbreviation iteration :=
  (crawl_iteration session_get BeautifulSoup urlparse urljoin pop_choice).
Local Abbreviation loop :=
  (crawl_loop session_get BeautifulSoup urlparse urljoin pop_choice).
Local Abbreviation crawl :=
  (crawl_website session_get BeautifulSoup urlparse urljoin pop_choice).
Local Abbreviation cases :=
  (iteration_cases session_get BeautifulSoup urlparse urljoin pop_choice).

(** Routing appends to the external links, and only off-domain URLs. *)
Lemma route_links_appends (u domain : string) (ls : list string)
    (tc : gset string) (ext : list string) :
  exists added,
    snd (route u domain ls tc ext) = ext ++ added
    /\ Forall (fun a => same_domain a domain = false) added.
Proof.
  revert tc ext. induction ls as [| l ls IH]; intros tc ext; cbn.
  - exists []. rewrite app_nil_r. split; [reflexivity | constructor].
  - destruct (urljoin u l) as [a |]; cbn.
    + destruct (same_domain a domain) eqn:Ed.
      * apply IH.
      * destruct (IH tc (ext ++ [a])) as (added & E & Hf).
        exists (a :: added). rewrite E, <- app_assoc. split; [reflexivity |].
        constructor; assumption.
    + exists []. rewrite app_nil_r. split; [reflexivity | constructor].
Qed.

(** The three lists by domain: pages and broken links on the domain,
    external links off it. *)
Lemma iteration_buckets_by_domain (domain : string) (st : CrawlState) :
  (Forall (fun p => same_domain (url p) domain = true) (cur_pages st)
   /\ Forall (fun u => same_domain u domain = true) (cur_broken_links st)
   /\ Forall (fun u => same_domain u domain = false) (cur_external_links st)) ->
  Forall (fun p => same_domain (url p) domain = true) (cur_pages (iteration domain st))
  /\ Forall (fun u => same_domain u domain = true)
            (cur_broken_links (iteration domain st))
  /\ Forall (fun u => same_domain u domain = false)
            (cur_external_links (iteration domain st)).
Proof.
  intros (Hp & Hb & He).
  destruct (cases domain st)
    as [u _ Hx | u _ Hx Hd | u p r t2 e2 _ Hx Hd Hf Hr | u _ Hx Hd Hf];
    cbn [cur_pages cur_broken_links cur_external_links]; auto.
  - repeat split; auto. apply Forall_app. split; [exact He |]. repeat constructor.
    exact Hd.
  - destruct (route_links_appends u domain (links p) (to_crawl st ∖ {[u]})
                (cur_external_links st)) as (added & E & Hadd).
    rewrite Hr in E. cbn [snd] in E. subst e2. repeat split.
    + apply Forall_app. split; [exact Hp |]. repeat constructor.
      rewrite (crawl_page_url _ _ _ _ _ Hf). exact Hd.
    + destruct r; [exact Hb |]. apply Forall_app. split; [exact Hb |].
      repeat constructor. exact Hd.
    + apply Forall_app. split; assumption.
  - repeat split; auto. apply Forall_app. split; [exact Hb |]. repeat constructor.
    exact Hd.
Qed.

(** The requests of the loop: one per page or failed fetch, all for URLs
    of the domain; the cache of robots answers is left alone. *)
Lemma iteration_requests (domain : string) (base : list string) (st : CrawlState) :
  (exists reqs,
      requests (service st) = base ++ reqs
      /\ Forall (fun u => same_domain u domain = true) reqs
      /\ (length (cur_pages st) <= length reqs)%nat
      /\ (length reqs <= length (cur_pages st) + length (cur_broken_links st))%nat) ->
  exists reqs,
    requests (service (iteration domain st)) = base ++ reqs
    /\ Forall (fun u => same_domain u domain = true) reqs
    /\ (length (cur_pages (iteration domain st)) <= length reqs)%nat
    /\ (length reqs <= length (cur_pages (iteration domain st))
                       + length (cur_broken_links (iteration domain st)))%nat.
Proof.
  intros (reqs & E & Hf & Hlo & Hhi).
  destruct (cases domain st)
    as [u _ Hx | u _ Hx Hd | u p r t2 e2 _ Hx Hd Hp Hr | u _ Hx Hd Hp];
    cbn [cur_pages cur_broken_links service requests with_request].
  - exists reqs. auto.
  - exists reqs. auto.
  - exists (reqs ++ [u]). rewrite E, <- app_assoc. split; [reflexivity |].
    split; [apply Forall_app; split; [exact Hf | repeat constructor; exact Hd] |].
    rewrite !length_app. cbn [length].
    destruct r; [| rewrite length_app; cbn [length]]; lia.
  - exists (reqs ++ [u]). rewrite E, <- app_assoc. split; [reflexivity |].
    split; [apply Forall_app; split; [exact Hf | repeat constructor; exact Hd] |].
    rewrite !length_app. cbn [length]. lia.
Qed.

Lemma iteration_robots_cache (domain : string) (st : CrawlState) :
  robots_cache (service (iteration domain st)) = robots_cache (service st).
Proof. destruct (cases domain st); reflexivity. Qed.

Lemma set_pop_singleton (n : nat) (u : string) : set_pop pop_choice n {[u]} = u.
Proof.
  assert (H : set_pop pop_choice n {[u]} ∈ ({[u]} : gset string)).
  { apply set_pop_in. intros E. apply (f_equal size) in E.
    rewrite size_singleton, size_empty in E. discriminate. }
  apply elem_of_singleton in H. exact H.
Qed.

End CrawlBuckets.

(** The crawl sorts URLs by domain: every page and every broken link is
    on the domain of the site map, every external link is off it, so an
    external link is never also a page or a broken link. *)
Theorem crawl_buckets_by_domain
    (session_get : nat -> string -> option Response)
    (BeautifulSoup : string -> list node)
    (urlparse : string -> option (string * string))
    (urljoin : string -> string -> option string)
    (pop_choice : nat -> gset string -> string)
    (fuel : nat) (start_url : string) (self : CrawlerService)
    (sm : SiteMap) (self' : CrawlerService) :
  crawl_website session_get BeautifulSoup urlparse urljoin pop_choice
                fuel start_url self = Returned (sm, self') ->
  Forall (fun p => _is_same_domain urlparse (url p) (domain sm) = true) (pages sm)
  /\ Forall (fun u => _is_same_domain urlparse u (domain sm) = true) (broken_links sm)
  /\ Forall (fun u => _is_same_domain urlparse u (domain sm) = false)
            (external_links sm)
  /\ (forall u, In u (external_links sm) ->
                ~ In u (map url (pages sm)) /\ ~ In u (broken_links sm)).
Proof.
  intros H.
  apply crawl_website_returned in H as (scheme & netloc & st & _ & Hl & -> & _).
  cbn [domain pages broken_links external_links site_map].
  set (d := scheme +:+ "://" +:+ netloc) in *.
  assert (Hinv :
    Forall (fun p => _is_same_domain urlparse (url p) d = true) (cur_pages st)
    /\ Forall (fun u => _is_same_domain urlparse u d = true) (cur_broken_links st)
    /\ Forall (fun u => _is_same_domain urlparse u d = false) (cur_external_links st)).
  { eapply (crawl_loop_invariant _ _ _ _ _
              (fun st =>
                 Forall (fun p => _is_same_domain urlparse (url p) d = true)
                        (cur_pages st)
                 /\ Forall (fun u => _is_same_domain urlparse u d = true)
                           (cur_broken_links st)
                 /\ Forall (fun u => _is_same_domain urlparse u d = false)
                           (cur_external_links st))); [| | exact Hl].
    - intros st0 _. apply iteration_buckets_by_domain.
    - cbn. repeat split; constructor. }
  destruct Hinv as (Hp & Hb & He).
  split; [exact Hp | split; [exact Hb | split; [exact He |]]].
  rewrite Forall_forall in Hp. rewrite Forall_forall in Hb.
  rewrite Forall_forall in He.
  intros u Hu. apply list_elem_of_In in Hu. specialize (He _ Hu). split.
  - intros Hin. apply in_map_iff in Hin as (p & <- & Hin).
    apply list_elem_of_In in Hin. specialize (Hp _ Hin). congruence.
  - intros Hin. apply list_elem_of_In in Hin. specialize (Hb _ Hin). congruence.
Qed.

Lemma crawl_buckets_by_domain_witness :
  exists sm self',
    Demo.crawl_twice 10 = Returned (sm, self')
    /\ Forall (fun u => _is_same_domain Demo.urlparse u (domain sm) = false)
              (external_links sm).
Proof.
  run_crawl.
  refine (proj1 (proj2 (proj2 (crawl_buckets_by_domain
            (Demo.serve [("http://a.com/", Demo.twice_html);
                         ("http://a.com/b", Demo.ext_again_html)])
            Demo.BeautifulSoup Demo.urlparse Demo.urljoin_wellformed
            (Demo.prefer ["http://a.com/"; "http://a.com/b"])
            10%nat "http://a.com/" (new_service 10) _ _ _)))).
  vm_compute. reflexivity.
Defined.

(** No URL is fetched into the page list twice: the pages of a site map
    have pairwise distinct URLs, and [total_pages] counts them. *)
Theorem crawl_pages_distinct
    (session_get : nat -> string -> option Response)
    (BeautifulSoup : string -> list node)
    (urlparse : string -> option (string * string))
    (urljoin : string -> string -> option string)
    (pop_choice : nat -> gset string -> string)
    (fuel : nat) (start_url : string) (self : CrawlerService)
    (sm : SiteMap) (self' : CrawlerService) :
  crawl_website session_get BeautifulSoup urlparse urljoin pop_choice
                fuel start_url self = Returned (sm, self') ->
  NoDup (map url (pages sm))
  /\ total_pages (crawl_stats sm)
     = size (list_to_set (map url (pages sm)) : gset string).
Proof.
  intros H.
  pose proof (crawl_website_pages_match _ _ _ _ _ _ _ _ _ _ H) as [_ Hnd].
  split; [exact Hnd |].
  apply crawl_website_returned in H as (scheme & netloc & st & _ & _ & -> & _).
  cbn [crawl_stats total_pages pages site_map] in *.
  rewrite size_list_to_set by exact Hnd. rewrite length_map. reflexivity.
Qed.

Lemma crawl_pages_distinct_witness :
  exists sm self',
    Demo.crawl_flaky 10 = Returned (sm, self')
    /\ NoDup (map url (pages sm))
    /\ total_pages (crawl_stats sm)
       = size (list_to_set (map url (pages sm)) : gset string).
Proof.
  run_crawl.
  refine (crawl_pages_distinct Demo.flaky Demo.BeautifulSoup Demo.urlparse
            Demo.urljoin_wellformed
            (Demo.prefer ["http://a.com/"; "http://a.com/x"; "http://a.com/b"])
            10%nat "http://a.com/" (new_service 10) _ _ _).
  vm_compute. reflexivity.
Defined.

(** What a crawl asks of the network: at most one request for robots.txt
    of the domain, then only requests for URLs of the domain, at least one
    per page and at most one per page or broken link. *)
Theorem crawl_requests_stay_on_domain
    (session_get : nat -> string -> option Response)
    (BeautifulSoup : string -> list node)
    (urlparse : string -> option (string * string))
    (urljoin : string -> string -> option string)
    (pop_choice : nat -> gset string -> string)
    (fuel : nat) (start_url : string) (self : CrawlerService)
    (sm : SiteMap) (self' : CrawlerService) :
  crawl_website session_get BeautifulSoup urlparse urljoin pop_choice
                fuel start_url self = Returned (sm, self') ->
  exists robots reqs,
    requests self' = requests self ++ robots ++ reqs
    /\ (robots = [] \/ robots = [domain sm +:+ "/robots.txt"])
    /\ Forall (fun u => _is_same_domain urlparse u (domain sm) = true) reqs
    /\ (length (pages sm) <= length reqs)%nat
    /\ (length reqs <= length (pages sm) + length (broken_links sm))%nat.
Proof.
  intros H.
  apply crawl_website_returned in H as (scheme & netloc & st & _ & Hl & -> & ->).
  cbn [domain pages broken_links site_map].
  set (d := scheme +:+ "://" +:+ netloc) in *.
  set (self1 := snd (_check_robots_txt session_get d self)) in *.
  assert (Hr : exists robots,
             requests self1 = requests self ++ robots
             /\ (robots = [] \/ robots = [d +:+ "/robots.txt"])).
  { subst self1. unfold _check_robots_txt.
    destruct (robots_cache self !! d);
      [exists []; rewrite app_nil_r; auto |].
    exists [d +:+ "/robots.txt"].
    destruct (session_get _ _) as [r |]; [| cbn; auto].
    destruct (status r =? 200); [| cbn; auto].
    destruct (text r); cbn; auto. }
  destruct Hr as (robots & Er & Hrob).
  assert (Hinv : exists reqs,
             requests (service st) = requests self1 ++ reqs
             /\ Forall (fun u => _is_same_domain urlparse u d = true) reqs
             /\ (length (cur_pages st) <= length reqs)%nat
             /\ (length reqs <= length (cur_pages st)
                                + length (cur_broken_links st))%nat).
  { eapply (crawl_loop_invariant _ _ _ _ _
              (fun st => exists reqs,
                   requests (service st) = requests self1 ++ reqs
                   /\ Forall (fun u => _is_same_domain urlparse u d = true) reqs
                   /\ (length (cur_pages st) <= length reqs)%nat
                   /\ (length reqs <= length (cur_pages st)
                                      + length (cur_broken_links st))%nat));
      [| | exact Hl].
    - intros st0 _. apply iteration_requests.
    - exists []. cbn. rewrite app_nil_r. repeat split; auto. }
  destruct Hinv as (reqs & E & Hf & Hlo & Hhi).
  exists robots, reqs. rewrite E, Er, <- app_assoc. auto.
Qed.

Lemma crawl_requests_stay_on_domain_witness :
  exists sm self',
    Demo.crawl_flaky 10 = Returned (sm, self')
    /\ exists robots reqs,
        requests self' = requests (new_service 10) ++ robots ++ reqs
        /\ (robots = [] \/ robots = [domain sm +:+ "/robots.txt"])
        /\ Forall (fun u => _is_same_domain Demo.urlparse u (domain sm) = true) reqs
        /\ (length (pages sm) <= length reqs)%nat
        /\ (length reqs <= length (pages sm) + length (broken_links sm))%nat.
Proof.
  run_crawl.
  refine (crawl_requests_stay_on_domain Demo.flaky Demo.BeautifulSoup Demo.urlparse
            Demo.urljoin_wellformed
            (Demo.prefer ["http://a.com/"; "http://a.com/x"; "http://a.com/b"])
            10%nat "http://a.com/" (new_service 10) _ _ _).
  vm_compute. reflexivity.
Defined.

(** After a crawl the robots answer for the domain is cached in the
    service, so a later check for that domain, as a second crawl of the
    site makes, issues no request, whatever the network then does. *)
Theorem crawl_leaves_robots_cached
    (session_get : nat -> string -> option Response)
    (BeautifulSoup : string -> list node)
    (urlparse : string -> option (string * string))
    (urljoin : string -> string -> option string)
    (pop_choice : nat -> gset string -> string)
    (fuel : nat) (start_url : string) (self : CrawlerService)
    (sm : SiteMap) (self' : CrawlerService) :
  crawl_website session_get BeautifulSoup urlparse urljoin pop_choice
                fuel start_url self = Returned (sm, self') ->
  exists allowed,
    robots_cache self' !! domain sm = Some allowed
    /\ forall later_get,
        _check_robots_txt later_get (domain sm) self' = (allowed, self').
Proof.
  intros H.
  apply crawl_website_returned in H as (scheme & netloc & st & _ & Hl & -> & ->).
  cbn [domain site_map].
  set (d := scheme +:+ "://" +:+ netloc) in *.
  pose proof (check_robots_caches session_get d self) as Hc.
  set (self1 := snd (_check_robots_txt session_get d self)) in *.
  assert (Hinv : robots_cache (service st) = robots_cache self1).
  { eapply (crawl_loop_invariant _ _ _ _ _
              (fun st => robots_cache (service st) = robots_cache self1));
      [| | exact Hl].
    - intros st0 _ E. rewrite iteration_robots_cache. exact E.
    - reflexivity. }
  exists (fst (_check_robots_txt session_get d self)).
  rewrite Hinv. split; [exact Hc |].
  intros later_get. apply check_robots_cached. rewrite Hinv. exact Hc.
Qed.

Lemma crawl_leaves_robots_cached_witness :
  exists sm self',
    Demo.crawl_three_pages 10 = Returned (sm, self')
    /\ exists allowed,
        robots_cache self' !! domain sm = Some allowed
        /\ forall later_get,
            _check_robots_txt later_get (domain sm) self' = (allowed, self').
Proof.
  run_crawl.
  refine (crawl_leaves_robots_cached
            (Demo.serve Demo.three_pages) Demo.BeautifulSoup Demo.urlparse
            Demo.urljoin_wellformed
            (Demo.prefer ["http://a.com/"; "http://a.com/about";
                          "http://a.com/contact"])
            10%nat "http://a.com/" (new_service 10) _ _ _).
  vm_compute. reflexivity.
Defined.

(** With a page cap of 0 or less the loop body never runs: for a start
    URL that parses, the crawl returns, with any fuel, a site map without
    pages, broken links or external links, all six funnel lists empty,
    and the only request it may have made is the one for robots.txt. *)
Theorem crawl_with_no_page_allowed
    (session_get : nat -> string -> option Response)
    (BeautifulSoup : string -> list node)
    (urlparse : string -> option (string * string))
    (urljoin : string -> string -> option string)
    (pop_choice : nat -> gset string -> string)
    (fuel : nat) (start_url scheme netloc : string) (self : CrawlerService) :
  max_pages self <= 0 ->
  urlparse start_url = Some (scheme, netloc) ->
  exists sm,
    crawl_website session_get BeautifulSoup urlparse urljoin pop_choice
                  fuel start_url self
    = Returned (sm, snd (_check_robots_txt session_get
                           (scheme +:+ "://" +:+ netloc) self))
    /\ pages sm = [] /\ broken_links sm = [] /\ external_links sm = []
    /\ crawl_stats sm
       = {| total_pages := 0; stat_broken_links := 0; stat_external_links := 0 |}
    /\ forall t, In t funnel_types -> funnel_pages sm !! t = Some [].
Proof.
  intros Hmax Hparse. unfold crawl_website. rewrite Hparse. cbv zeta.
  pose proof (check_robots_max_pages session_get (scheme +:+ "://" +:+ netloc) self)
    as Hm.
  destruct (_check_robots_txt session_get (scheme +:+ "://" +:+ netloc) self)
    as [allowed self1]. cbn [snd] in *.
  assert (Hc : loop_condition (initial_state start_url self1) = false).
  { unfold loop_condition. cbn [initial_state crawled service].
    rewrite size_empty. apply andb_false_iff. right. apply Z.ltb_ge. lia. }
  assert (Hl : crawl_loop session_get BeautifulSoup urlparse urljoin pop_choice
                 fuel (scheme +:+ "://" +:+ netloc) (initial_state start_url self1)
               = Some (initial_state start_url self1)).
  { destruct fuel; cbn [crawl_loop]; rewrite Hc; reflexivity. }
  rewrite Hl. eexists. split; [reflexivity |].
  cbn [pages broken_links external_links crawl_stats funnel_pages site_map
       initial_state cur_pages cur_broken_links cur_external_links length service].
  repeat split.
  intros t Ht. rewrite identify_funnel_pages_lookup.
  apply funnel_type_spec in Ht. rewrite Ht. reflexivity.
Qed.

Lemma crawl_with_no_page_allowed_witness :
  exists sm,
    Sites.crawl_capped_at_zero 5
    = Returned (sm, snd (_check_robots_txt (Demo.serve Demo.three_pages)
                           ("http" +:+ "://" +:+ "a.com") (new_service 0)))
    /\ pages sm = [] /\ broken_links sm = [] /\ external_links sm = []
    /\ crawl_stats sm
       = {| total_pages := 0; stat_broken_links := 0; stat_external_links := 0 |}
    /\ forall t, In t funnel_types -> funnel_pages sm !! t = Some [].
Proof.
  apply (crawl_with_no_page_allowed
           (Demo.serve Demo.three_pages) Demo.BeautifulSoup Demo.urlparse
           Demo.urljoin_wellformed (Demo.prefer []) 5%nat "http://a.com/"
           "http" "a.com" (new_service 0)).
  - cbn. lia.
  - reflexivity.
Defined.

(** A start URL whose fetch fails: when the cap allows a page, the start
    URL is on its own domain and its request raises, the crawl returns,
    with any fuel above 0, a site map with no page and the start URL as
    its one broken link. *)
Theorem crawl_of_unreachable_start
    (session_get : nat -> string -> option Response)
    (BeautifulSoup : string -> list node)
    (urlparse : string -> option (string * string))
    (urljoin : string -> string -> option string)
    (pop_choice : nat -> gset string -> string)
    (fuel : nat) (start_url scheme netloc : string) (self : CrawlerService) :
  0 < max_pages self ->
  urlparse start_url = Some (scheme, netloc) ->
  _is_same_domain urlparse start_url (scheme +:+ "://" +:+ netloc) = true ->
  fetch_ok session_get
    (length (requests (snd (_check_robots_txt session_get
                              (scheme +:+ "://" +:+ netloc) self))))
    start_url = false ->
  exists sm self',
    crawl_website session_get BeautifulSoup urlparse urljoin pop_choice
                  (S fuel) start_url self = Returned (sm, self')
    /\ pages sm = [] /\ broken_links sm = [start_url] /\ external_links sm = []
    /\ crawl_stats sm
       = {| total_pages := 0; stat_broken_links := 1; stat_external_links := 0 |}.
Proof.
  intros Hmax Hparse Hsame Hfail. unfold crawl_website. rewrite Hparse. cbv zeta.
  set (d := scheme +:+ "://" +:+ netloc) in *.
  pose proof (check_robots_max_pages session_get d self) as Hm.
  destruct (_check_robots_txt session_get d self) as [allowed self1].
  cbn [snd] in *.
  set (st0 := initial_state start_url self1).
  assert (Hc : loop_condition st0 = true).
  { unfold loop_condition. cbn [st0 initial_state crawled to_crawl service].
    rewrite size_empty. apply andb_true_iff. split.
    - apply bool_decide_eq_true. intros E. apply (f_equal size) in E.
      rewrite size_singleton, size_empty in E. discriminate.
    - apply Z.ltb_lt. lia. }
  cbn [crawl_loop]. rewrite Hc.
  pose proof (iteration_cases session_get BeautifulSoup urlparse urljoin pop_choice
                d st0) as Hcase.
  assert (Epop : set_pop pop_choice (iterations st0) (to_crawl st0) = start_url)
    by apply set_pop_singleton.
  destruct Hcase as [u Eu Hx | u Eu Hx Hd | u p r t2 e2 Eu Hx Hd Hf Hr | u Eu Hx Hd Hf];
    rewrite Epop in Eu; subst u.
  - cbn in Hx. destruct (not_elem_of_empty _ Hx).
  - congruence.
  - pose proof (crawl_page_fetch_ok session_get BeautifulSoup start_url self1) as E.
    cbn [st0 initial_state service] in Hf. rewrite Hf, Hfail in E. discriminate.
  - match goal with
    | |- context [crawl_loop _ _ _ _ _ fuel d ?st] =>
        assert (Hend : loop_condition st = false)
    end.
    { unfold loop_condition. cbn [to_crawl st0 initial_state].
      apply andb_false_iff. left. apply bool_decide_eq_false.
      intros Hne. apply Hne. apply difference_diag_L. }
    assert (Hl : forall st, loop_condition st = false ->
                 crawl_loop session_get BeautifulSoup urlparse urljoin pop_choice
                            fuel d st = Some st).
    { intros st Hs. destruct fuel; cbn [crawl_loop]; rewrite Hs; reflexivity. }
    rewrite (Hl _ Hend). eexists _, _. split; [reflexivity |].
    cbn. repeat split.
Qed.

Lemma crawl_of_unreachable_start_witness :
  exists sm self',
    Sites.crawl_unreachable 1 = Returned (sm, self')
    /\ pages sm = [] /\ broken_links sm = ["http://a.com/"]
    /\ external_links sm = []
    /\ crawl_stats sm
       = {| total_pages := 0; stat_broken_links := 1; stat_external_links := 0 |}.
Proof.
  apply (crawl_of_unreachable_start
           Sites.unreachable Demo.BeautifulSoup Demo.urlparse Demo.urljoin
           (Demo.prefer []) 0%nat "http://a.com/" "http" "a.com" (new_service 10)).
  - cbn. lia.
  - reflexivity.
  - reflexivity.
  - reflexivity.
Defined.

(** ** More about the page analysis *)

(** The error list, check by check, in the order of the checks. *)
Lemma detect_page_errors_parts (soup : list node) (status_code : Z) :
  _detect_page_errors soup status_code
  = (if 400 <=? status_code
     then ["HTTP " +:+ PyStr.of_Z status_code +:+ " error"] else [])
    ++ (match find (name_in ["title"]) soup with
        | Some t => if String.eqb (PyStr.strip (get_text t)) ""
                    then ["Missing or empty title tag"] else []
        | None => ["Missing or empty title tag"]
        end)
    ++ (match find is_meta_description soup with
        | Some m => if String.eqb (PyStr.strip (get "content" "" m)) ""
                    then ["Missing meta description"] else []
        | None => ["Missing meta description"]
        end)
    ++ (match find_all (name_in ["h1"]) soup with
        | [] => ["No H1 tags found"]
        | [_] => []
        | h1_tags => ["Multiple H1 tags found ("
                      +:+ PyStr.of_nat (length h1_tags) +:+ ")"]
        end)
    ++ (match find is_meta_viewport soup with
        | Some _ => []
        | None => ["Missing viewport meta tag"]
        end)
    ++ (match find_all is_empty_src_image soup with
        | [] => []
        | broken_images =>
            [PyStr.of_nat (length broken_images) +:+ " images with empty src"]
        end).
Proof.
  unfold _detect_page_errors.
  destruct (400 <=? status_code);
    destruct (find (name_in ["title"]) soup) as [t |];
    try destruct (String.eqb (PyStr.strip (get_text t)) "");
    destruct (find is_meta_description soup) as [m |];
    try destruct (String.eqb (PyStr.strip (get "content" "" m)) "");
    destruct (find_all (name_in ["h1"]) soup) as [| h1 [| h2 hs]];
    destruct (find is_meta_viewport soup);
    destruct (find_all is_empty_src_image soup);
    reflexivity.
Qed.

Lemma detect_page_errors_http_first (soup : list node) (status_code : Z) :
  400 <= status_code ->
  exists rest,
    _detect_page_errors soup status_code
    = ("HTTP " +:+ PyStr.of_Z status_code +:+ " error") :: rest.
Proof.
  intros H. rewrite detect_page_errors_parts.
  destruct (Z.leb_spec 400 status_code); [| lia].
  eexists. reflexivity.
Qed.

(** The structural checks are independent of each other: a page has no
    error exactly when its status is below 400, its title and its meta
    description are present and not blank, it has one [<h1>], a viewport
    meta tag and no image matched by the empty-[src] query.  There are
    never more than six errors, and the HTTP error, when there is one,
    comes first. *)
Theorem page_errors_checks (soup : list node) (status_code : Z) :
  (_detect_page_errors soup status_code = [] <->
   status_code < 400
   /\ (exists t, find (name_in ["title"]) soup = Some t
                 /\ PyStr.strip (get_text t) <> "")
   /\ (exists m, find is_meta_description soup = Some m
                 /\ PyStr.strip (get "content" "" m) <> "")
   /\ length (find_all (name_in ["h1"]) soup) = 1%nat
   /\ (exists v, find is_meta_viewport soup = Some v)
   /\ find_all is_empty_src_image soup = [])
  /\ (length (_detect_page_errors soup status_code) <= 6)%nat
  /\ (400 <= status_code ->
      exists rest,
        _detect_page_errors soup status_code
        = ("HTTP " +:+ PyStr.of_Z status_code +:+ " error") :: rest).
Proof.
  rewrite detect_page_errors_parts. split; [| split].
  - split.
    + intros H.
      destruct (Z.leb_spec 400 status_code); [discriminate |].
      destruct (find (name_in ["title"]) soup) as [t |]; [| discriminate].
      destruct (String.eqb_spec (PyStr.strip (get_text t)) ""); [discriminate |].
      destruct (find is_meta_description soup) as [m |]; [| discriminate].
      destruct (String.eqb_spec (PyStr.strip (get "content" "" m)) "");
        [discriminate |].
      destruct (find_all (name_in ["h1"]) soup) as [| h1 [| h2 hs]];
        [discriminate | | discriminate].
      destruct (find is_meta_viewport soup) as [v |]; [| discriminate].
      destruct (find_all is_empty_src_image soup); [| discriminate].
      repeat split; eauto.
    + intros (Hs & (t & Et & Ht) & (m & Em & Hm) & Hh & (v & Ev) & Ei).
      rewrite Et, Em, Ev, Ei.
      destruct (Z.leb_spec 400 status_code); [lia |].
      destruct (String.eqb_spec (PyStr.strip (get_text t)) ""); [contradiction |].
      destruct (String.eqb_spec (PyStr.strip (get "content" "" m)) "");
        [contradiction |].
      destruct (find_all (name_in ["h1"]) soup) as [| h1 [| h2 hs]];
        cbn in Hh; try discriminate.
      reflexivity.
  - destruct (400 <=? status_code);
      destruct (find (name_in ["title"]) soup) as [t |];
      try destruct (String.eqb (PyStr.strip (get_text t)) "");
      destruct (find is_meta_description soup) as [m |];
      try destruct (String.eqb (PyStr.strip (get "content" "" m)) "");
      destruct (find_all (name_in ["h1"]) soup) as [| h1 [| h2 hs]];
      destruct (find is_meta_viewport soup);
      destruct (find_all is_empty_src_image soup);
      cbn [length app]; lia.
  - intros H. destruct (Z.leb_spec 400 status_code); [| lia].
    eexists. reflexivity.
Qed.

Lemma page_errors_checks_witness :
  exists rest,
    _detect_page_errors Demo.two_h1_page 503
    = ("HTTP " +:+ PyStr.of_Z 503 +:+ " error") :: rest.
Proof.
  apply (proj2 (proj2 (page_errors_checks Demo.two_h1_page 503))). lia.
Defined.

Lemma crawl_page_answered
    (session_get : nat -> string -> option Response)
    (BeautifulSoup : string -> list node)
    (u : string) (self : CrawlerService) (p : PageInfo) :
  fst (_crawl_page session_get BeautifulSoup u self) = Some p ->
  exists n response content,
    session_get n u = Some response /\ text response = Some content
    /\ p = analyze_page u (status response) content (BeautifulSoup content).
Proof.
  unfold _crawl_page. cbn [fst].
  destruct (session_get (length (requests self)) u) as [r |] eqn:Eg; [| discriminate].
  destruct (text r) as [c |] eqn:Et; [| discriminate].
  intros [= <-]. exists (length (requests self)), r, c. auto.
Qed.

(** What becomes a page and what becomes a broken link.  In an iteration
    of the loop, a dequeued URL of the domain that is not yet visited and
    whose request is answered, the body read, is appended to [pages] as the
    analysis of that answer, whatever the HTTP status; [broken_links] is
    left as it was when every link of the page resolves, and gets the URL
    as well when [urljoin] raises on one of them.  In a returned site map
    every page is the analysis of an answered request for its URL, a page
    with a status of 400 or more has the HTTP error first in its error
    list, and every broken link is a URL one request for which was not
    answered, or the URL of a page with a link on which [urljoin] raises. *)
Theorem crawl_pages_are_answers
    (session_get : nat -> string -> option Response)
    (BeautifulSoup : string -> list node)
    (urlparse : string -> option (string * string))
    (urljoin : string -> string -> option string)
    (pop_choice : nat -> gset string -> string) :
  (forall (domain : string) (st : CrawlState) (current_url : string)
          (response : Response) (content : string) (page_info : PageInfo),
      current_url = set_pop pop_choice (iterations st) (to_crawl st) ->
      current_url ∉ crawled st ->
      _is_same_domain urlparse current_url domain = true ->
      session_get (length (requests (service st))) current_url = Some response ->
      text response = Some content ->
      page_info = analyze_page current_url (status response) content
                               (BeautifulSoup content) ->
      cur_pages (crawl_iteration session_get BeautifulSoup urlparse urljoin
                                 pop_choice domain st)
      = cur_pages st ++ [page_info]
      /\ ((forall link, In link (links page_info) ->
             urljoin current_url link <> None) ->
          cur_broken_links (crawl_iteration session_get BeautifulSoup urlparse
                                            urljoin pop_choice domain st)
          = cur_broken_links st)
      /\ ((exists link, In link (links page_info)
                        /\ urljoin current_url link = None) ->
          cur_broken_links (crawl_iteration session_get BeautifulSoup urlparse
                                            urljoin pop_choice domain st)
          = cur_broken_links st ++ [current_url]))
  /\ (forall (fuel : nat) (start_url : string) (self : CrawlerService)
             (sm : SiteMap) (self' : CrawlerService),
        crawl_website session_get BeautifulSoup urlparse urljoin pop_choice
                      fuel start_url self = Returned (sm, self') ->
        (forall p, In p (pages sm) ->
           (exists n response content,
               session_get n (url p) = Some response
               /\ text response = Some content
               /\ p = analyze_page (url p) (status response) content
                                   (BeautifulSoup content))
           /\ (400 <= status_code p ->
               exists rest,
                 errors p
                 = ("HTTP " +:+ PyStr.of_Z (status_code p) +:+ " error") :: rest))
        /\ (forall u, In u (broken_links sm) ->
              (exists n, fetch_ok session_get n u = false)
              \/ (exists p link,
                    In p (pages sm) /\ url p = u
                    /\ In link (links p) /\ urljoin u link = None))).
Proof.
  split.
  - intros domain st u response content page_info Eu Hx Hd Hget Htext Epage.
    unfold crawl_iteration. rewrite <- Eu.
    destruct (decide (u ∈ crawled st)) as [Hin | _]; [contradiction |].
    rewrite Hd. cbn [negb].
    unfold _crawl_page. rewrite Hget, Htext, <- Epage.
    destruct (route_links urlparse urljoin u domain (links page_info)
                (to_crawl st ∖ {[u]}) (cur_external_links st))
      as [[routed to_crawl2] external2] eqn:Er.
    cbn [cur_pages cur_broken_links].
    split; [reflexivity | split].
    + intros Hres.
      pose proof (route_links_returned urlparse urljoin u domain (links page_info)
                    (to_crawl st ∖ {[u]}) (cur_external_links st) Hres) as Hrt.
      rewrite Er in Hrt. cbn in Hrt. subst routed. reflexivity.
    + intros (link & Hin & Hn). destruct routed; [| reflexivity].
      exfalso.
      refine (route_links_returned_inv urlparse urljoin u domain (links page_info)
                (to_crawl st ∖ {[u]}) (cur_external_links st) _ link Hin Hn).
      rewrite Er. reflexivity.
  - intros fuel start_url self sm self' H.
    apply crawl_website_buckets_explained in H as [Hpages Hbroken].
    split.
    + intros p Hin. destruct (Hpages p Hin) as [self0 Hp].
      apply crawl_page_answered in Hp.
      split; [exact Hp |].
      destruct Hp as (n & r & c & _ & _ & E). intros Hs.
      rewrite E in Hs |- *. cbn [errors status_code analyze_page] in *.
      apply detect_page_errors_http_first. exact Hs.
    + intros u Hin. destruct (Hbroken u Hin) as [[self0 Hnone] | Hlink];
        [left | right; exact Hlink].
      exists (length (requests self0)).
      rewrite (crawl_page_fetch_ok session_get BeautifulSoup), Hnone. reflexivity.
Qed.

Lemma crawl_pages_are_answers_witness :
  exists sm self',
    Sites.crawl_missing_badlink 5 = Returned (sm, self')
    /\ map url (pages sm) = ["http://a.com/"]
    /\ map status_code (pages sm) = [404]
    /\ broken_links sm = ["http://a.com/"]
    /\ (forall p, In p (pages sm) -> 400 <= status_code p ->
          exists rest,
            errors p
            = ("HTTP " +:+ PyStr.of_Z (status_code p) +:+ " error") :: rest)
    /\ (forall u, In u (broken_links sm) ->
          (exists n,
              fetch_ok (fun _ _ => Some {| status := 404;
                                           text := Some Demo.badlink_html |}) n u
              = false)
          \/ (exists p link,
                In p (pages sm) /\ url p = u
                /\ In link (links p) /\ Demo.urljoin u link = None)).
Proof.
  run_crawl.
  split; [reflexivity | split; [reflexivity | split; [reflexivity |]]].
  split.
  - intros p Hin.
    refine (proj2 (proj1 (proj2 (crawl_pages_are_answers
                     (fun _ _ => Some {| status := 404;
                                         text := Some Demo.badlink_html |})
                     Demo.BeautifulSoup Demo.urlparse Demo.urljoin (Demo.prefer []))
                     5%nat "http://a.com/" (new_service 10) _ _ _) p Hin)).
    vm_compute. reflexivity.
  - refine (proj2 (proj2 (crawl_pages_are_answers
                     (fun _ _ => Some {| status := 404;
                                         text := Some Demo.badlink_html |})
                     Demo.BeautifulSoup Demo.urlparse Demo.urljoin (Demo.prefer []))
                     5%nat "http://a.com/" (new_service 10) _ _ _)).
    vm_compute. reflexivity.
Defined.

(** ** More about the classification *)

Lemma lower_char_idempotent (c : ascii) :
  PyStr.lower_char (PyStr.lower_char c) = PyStr.lower_char c.
Proof. destruct c as [[] [] [] [] [] [] [] []]; reflexivity. Qed.

Lemma lower_idempotent (s : string) : PyStr.lower (PyStr.lower s) = PyStr.lower s.
Proof.
  induction s as [| c s IH]; cbn; [reflexivity |].
  rewrite lower_char_idempotent, IH. reflexivity.
Qed.

(** The label is always one of the nine page types; it does not depend
    on the title, nor on the case of the URL and of the content; and the
    label signup comes from the content alone: it needs "sign up" or "get
    started" in the content and a URL that matches none of the URL
    keywords, so a URL with "signup" in it does not make a signup page. *)
Theorem classification_labels (url title content : string) :
  In (_classify_page_type url title content)
     ["landing"; "product"; "checkout"; "confirmation"; "contact"; "about";
      "content"; "signup"; "general"]
  /\ (forall title', _classify_page_type url title' content
                     = _classify_page_type url title content)
  /\ _classify_page_type (PyStr.lower url) title (PyStr.lower content)
     = _classify_page_type url title content
  /\ (_classify_page_type url title content = "signup" ->
      (PyStr.contains "sign up" (PyStr.lower content) = true
       \/ PyStr.contains "get started" (PyStr.lower content) = true)
      /\ forall keywords,
          In keywords [landing_keywords; product_keywords; checkout_keywords;
                       confirmation_keywords; contact_keywords; about_keywords;
                       content_keywords] ->
          PyStr.any_in keywords (PyStr.lower url) = false).
Proof.
  split; [| split; [reflexivity | split]].
  - unfold _classify_page_type.
    repeat (match goal with
            | |- context [if ?b then _ else _] => destruct b
            end; [cbn; tauto |]).
    cbn; tauto.
  - unfold _classify_page_type. rewrite !lower_idempotent. reflexivity.
  - unfold _classify_page_type.
    destruct (PyStr.any_in landing_keywords _) eqn:K1; [discriminate |].
    destruct (PyStr.any_in product_keywords _) eqn:K2; [discriminate |].
    destruct (PyStr.any_in checkout_keywords _) eqn:K3; [discriminate |].
    destruct (PyStr.any_in confirmation_keywords _) eqn:K4; [discriminate |].
    destruct (PyStr.any_in contact_keywords _) eqn:K5; [discriminate |].
    destruct (PyStr.any_in about_keywords _) eqn:K6; [discriminate |].
    destruct (PyStr.any_in content_keywords _) eqn:K7; [discriminate |].
    destruct (PyStr.contains "add to cart" _ || PyStr.contains "buy now" _);
      [discriminate |].
    destruct (PyStr.contains "sign up" (PyStr.lower content)
              || PyStr.contains "get started" (PyStr.lower content)) eqn:E2;
      [| discriminate].
    intros _. split; [apply orb_true_iff; exact E2 |].
    intros k Hk. cbn in Hk.
    destruct Hk as [<- | [<- | [<- | [<- | [<- | [<- | [<- | []]]]]]]]; assumption.
Qed.

Lemma classification_labels_witness :
  (PyStr.contains "sign up" (PyStr.lower "Sign up today") = true
   \/ PyStr.contains "get started" (PyStr.lower "Sign up today") = true)
  /\ forall keywords,
      In keywords [landing_keywords; product_keywords; checkout_keywords;
                   confirmation_keywords; contact_keywords; about_keywords;
                   content_keywords] ->
      PyStr.any_in keywords (PyStr.lower "https://x.com/signup") = false.
Proof.
  apply (proj2 (proj2 (proj2 (classification_labels
           "https://x.com/signup" "Join" "Sign up today")))).
  reflexivity.
Defined.

Lemma startswith_cons_inv (a : ascii) (p s : string) :
  PyStr.startswith (String a p) s = true ->
  exists s', s = String a s' /\ PyStr.startswith p s' = true.
Proof.
  destruct s as [| b s]; cbn; [discriminate |].
  destruct (Ascii.eqb_spec a b); [subst; eauto | discriminate].
Qed.

Lemma contains_lp_of_help (s : string) :
  PyStr.contains "help" s = true -> PyStr.contains "lp" s = true.
Proof.
  induction s as [| c s IH]; [discriminate |].
  cbn [PyStr.contains]. intros H. apply orb_true_iff in H as [H | H].
  - apply startswith_cons_inv in H as (s1 & E1 & H).
    apply startswith_cons_inv in H as (s2 & -> & H).
    apply startswith_cons_inv in H as (s3 & -> & H).
    apply startswith_cons_inv in H as (s4 & -> & _).
    injection E1 as -> ->. reflexivity.
  - apply orb_true_iff. right. apply IH. exact H.
Qed.

(** The landing keyword "lp" shadows the contact keyword "help": a URL
    that contains "help", in any case, is classified landing, never
    contact. *)
Theorem help_urls_are_landing (url title content : string) :
  PyStr.contains "help" (PyStr.lower url) = true ->
  _classify_page_type url title content = "landing".
Proof.
  intros H. apply contains_lp_of_help in H. unfold _classify_page_type.
  replace (PyStr.any_in landing_keywords (PyStr.lower url)) with true; [reflexivity |].
  symmetry. apply any_in_spec. exists "lp". split; [cbn; tauto | exact H].
Qed.

Lemma help_urls_are_landing_witness :
  _classify_page_type "https://x.com/Help/faq" "Help" "" = "landing".
Proof.
  apply (help_urls_are_landing "https://x.com/Help/faq" "Help" ""). reflexivity.
Defined.

(** ** Links of a page *)

Lemma rstrip_idempotent (s : string) : PyStr.rstrip (PyStr.rstrip s) = PyStr.rstrip s.
Proof.
  induction s as [| c s IH]; [reflexivity |].
  cbn [PyStr.rstrip]. destruct (PyStr.rstrip s) as [| c' r] eqn:E.
  - destruct (PyStr.isspace c) eqn:Ec; [reflexivity |].
    cbn [PyStr.rstrip]. rewrite Ec. reflexivity.
  - cbn [PyStr.rstrip]. cbn [PyStr.rstrip] in IH. rewrite IH. reflexivity.
Qed.

(** A string that does not begin with a blank. *)
Lemma lstrip_fixed (s : string) :
  match s with String c _ => PyStr.isspace c = false | EmptyString => True end ->
  PyStr.lstrip s = s.
Proof. destruct s as [| c s]; cbn; [reflexivity |]. intros ->. reflexivity. Qed.

Lemma lstrip_head (s : string) :
  match PyStr.lstrip s with
  | String c _ => PyStr.isspace c = false
  | EmptyString => True
  end.
Proof.
  induction s as [| c s IH]; cbn; [exact I |].
  destruct (PyStr.isspace c) eqn:E; [exact IH | exact E].
Qed.

Lemma rstrip_head (s : string) :
  match s with String c _ => PyStr.isspace c = false | EmptyString => True end ->
  match PyStr.rstrip s with
  | String c _ => PyStr.isspace c = false
  | EmptyString => True
  end.
Proof.
  destruct s as [| c s]; cbn; [auto |]. intros E.
  destruct (PyStr.rstrip s); [rewrite E |]; exact E.
Qed.

Lemma strip_idempotent (s : string) : PyStr.strip (PyStr.strip s) = PyStr.strip s.
Proof.
  unfold PyStr.strip.
  rewrite (lstrip_fixed (PyStr.rstrip (PyStr.lstrip s)))
    by (apply rstrip_head, lstrip_head).
  apply rstrip_idempotent.
Qed.

(** The links of a page record: each is the trimmed [href] of an [<a>]
    tag of the document, is not empty, does not begin with [#] and has no
    blank at either end; there are no more links than anchors with an
    [href]. *)
Theorem page_links_are_trimmed_hrefs
    (url : string) (status : Z) (content : string) (soup : list node) :
  (forall l, In l (links (analyze_page url status content soup)) ->
     l <> "" /\ PyStr.startswith "#" l = false /\ PyStr.strip l = l
     /\ exists a href,
         In a (descendants soup) /\ tag_name a = "a"
         /\ attr_lookup "href" (tag_attrs a) = Some href
         /\ l = PyStr.strip href)
  /\ (length (links (analyze_page url status content soup))
      <= length (find_all (fun n => name_in ["a"] n && has_attr "href" n) soup))%nat.
Proof.
  cbn [links analyze_page]. unfold extract_links. split.
  - intros l Hl. apply filter_In in Hl as [Hl Hf].
    apply andb_true_iff in Hf as [Hne Hfrag].
    apply in_map_iff in Hl as (a & El & Ha).
    unfold find_all in Ha. apply filter_In in Ha as [Ha Hp].
    apply andb_true_iff in Hp as [Hname Hhref].
    unfold name_in in Hname. cbn [existsb] in Hname. rewrite orb_false_r in Hname.
    apply String.eqb_eq in Hname.
    unfold has_attr in Hhref. unfold get in El.
    destruct (attr_lookup "href" (tag_attrs a)) as [href |] eqn:Eh; [| discriminate].
    subst l. repeat split.
    + intros E. rewrite E in Hne. discriminate.
    + apply negb_true_iff in Hfrag. exact Hfrag.
    + apply strip_idempotent.
    + exists a, href. auto.
  - etransitivity; [apply filter_length_le |]. rewrite length_map. reflexivity.
Qed.

Lemma page_links_are_trimmed_hrefs_witness :
  links (analyze_page "http://a.com/" 200 "" Sites.links_page) = ["/a"; "mailto:x@y.z"]
  /\ "/a" <> "" /\ PyStr.startswith "#" "/a" = false /\ PyStr.strip "/a" = "/a"
  /\ exists a href,
      In a (descendants Sites.links_page) /\ tag_name a = "a"
      /\ attr_lookup "href" (tag_attrs a) = Some href
      /\ "/a" = PyStr.strip href.
Proof.
  split; [reflexivity |].
  apply (proj1 (page_links_are_trimmed_hrefs "http://a.com/" 200 "" Sites.links_page)).
  left. reflexivity.
Defined.

(** ** The robots.txt parser *)

Import RobotsLines.

Lemma robots_line_cases (found dis : bool) (raw : string) :
  robots_line (found, dis) raw
  = if is_user_agent_line raw
    then (names_this_crawler raw, dis)
    else if is_disallow_root raw && found then (found, true) else (found, dis).
Proof.
  unfold robots_line, names_this_crawler, is_disallow_root, is_user_agent_line,
    line_value, normal_line.
  destruct (PyStr.startswith "user-agent:" _); [reflexivity |].
  destruct (PyStr.startswith "disallow:" _); cbn [andb]; [| reflexivity].
  destruct found; cbn [andb]; [| rewrite andb_false_r; reflexivity].
  rewrite andb_true_r. reflexivity.
Qed.

Lemma user_agent_not_disallow (raw : string) :
  is_user_agent_line raw = true -> is_disallow_root raw = false.
Proof.
  unfold is_user_agent_line, is_disallow_root. intros H.
  apply startswith_cons_inv in H as (s' & -> & _). reflexivity.
Qed.

Lemma disallow_in_group_cons (l : string) (ls : list string) :
  disallow_in_group (l :: ls) <->
  is_disallow_root l = true
  \/ (is_user_agent_line l = false /\ disallow_in_group ls).
Proof.
  unfold disallow_in_group. split.
  - intros (between & d & rest & E & Hb & Hd).
    destruct between as [| b between]; cbn in E; injection E as -> ->.
    + left. exact Hd.
    + right. apply Forall_cons in Hb as [Hb1 Hb]. split; [exact Hb1 |].
      exists between, d, rest. auto.
  - intros [Hd | [Hu (between & d & rest & -> & Hb & Hd)]].
    + exists [], l, ls. repeat split; [constructor | exact Hd].
    + exists (l :: between), d, rest. repeat split; [constructor; assumption | exact Hd].
Qed.

Lemma group_disallows_all_cons (l : string) (ls : list string) :
  group_disallows_all (l :: ls) <->
  (names_this_crawler l = true /\ disallow_in_group ls) \/ group_disallows_all ls.
Proof.
  unfold group_disallows_all. split.
  - intros (before & ua & group & E & Hu & Hg).
    destruct before as [| b before]; cbn in E; injection E as -> ->.
    + left. auto.
    + right. exists before, ua, group. auto.
  - intros [[Hu Hg] | (before & ua & group & -> & Hu & Hg)].
    + exists [], l, ls. auto.
    + exists (l :: before), ua, group. auto.
Qed.

Lemma robots_fold_spec (lines : list string) (found dis : bool) :
  snd (fold_left robots_line lines (found, dis)) = true <->
  dis = true \/ (found = true /\ disallow_in_group lines) \/ group_disallows_all lines.
Proof.
  revert found dis. induction lines as [| l ls IH]; intros found dis.
  - cbn. split; [auto |]. intros [H | [[_ (b & d & r & E & _)] | (b & u & g & E & _)]];
      [exact H | destruct b; discriminate | destruct b; discriminate].
  - cbn [fold_left]. rewrite robots_line_cases.
    rewrite disallow_in_group_cons, group_disallows_all_cons.
    destruct (is_user_agent_line l) eqn:Eu.
    + rewrite IH. rewrite (user_agent_not_disallow l Eu).
      unfold names_this_crawler at 2. rewrite Eu. cbn [andb].
      unfold names_this_crawler. rewrite Eu. cbn [andb].
      intuition congruence.
    + assert (En : names_this_crawler l = false)
        by (unfold names_this_crawler; rewrite Eu; reflexivity).
      rewrite En.
      destruct (is_disallow_root l) eqn:Ed; destruct found; cbn [andb];
        rewrite IH; intuition congruence.
Qed.

(** robots.txt denies the crawl exactly when some [User-agent:] line
    names every crawler ([*]) or one with "funnel" in its name, and a
    [Disallow: /] line follows it before the next [User-agent:] line.
    Lines are read trimmed and in lowercase; [Allow:] lines, other
    [Disallow:] paths and [Disallow:] lines outside such a group never
    deny. *)
Theorem robots_denies_iff_group_disallows_root (robots_content : string) :
  robots_disallow_all robots_content = true <->
  exists before ua between d rest,
    PyStr.split_char (ascii_of_nat 10) robots_content
    = before ++ ua :: between ++ d :: rest
    /\ names_this_crawler ua = true
    /\ Forall (fun l => is_user_agent_line l = false) between
    /\ is_disallow_root d = true.
Proof.
  unfold robots_disallow_all. rewrite robots_fold_spec. split.
  - intros [H | [[H _] | (before & ua & group & E & Hu & between & d & rest & -> & Hb & Hd)]];
      [discriminate | discriminate |].
    exists before, ua, between, d, rest. auto.
  - intros (before & ua & between & d & rest & E & Hu & Hb & Hd).
    right. right. exists before, ua, (between ++ d :: rest).
    split; [exact E | split; [exact Hu |]]. exists between, d, rest. auto.
Qed.

Lemma robots_denies_iff_group_disallows_root_witness :
  robots_disallow_all Sites.robots_two_groups = true.
Proof.
  apply (proj2 (robots_denies_iff_group_disallows_root Sites.robots_two_groups)).
  exists ["User-agent: bingbot"; "Disallow: /private"; ""], "User-agent: *",
    ["Allow: /public"], "Disallow: /", [].
  split; [reflexivity | split; [reflexivity | split; [| reflexivity]]].
  repeat constructor.
Defined.

(** ** Test data for form fields *)

Import Probes.

Example test_data_ex :
  _generate_test_data "text" "First_Name" = "John"
  /\ _generate_test_data "text" "company_name" = "John Doe"
  /\ _generate_test_data "password" "pwd" = "TestPassword123!"
  /\ _generate_test_data "textarea" "Message" = "25".
Proof. repeat split; reflexivity. Qed.

(** The test value of a field is never empty: it is one of fifteen fixed
    strings, so the test [if test_value] of the form probe never fails. *)
Theorem test_data_is_a_fixed_value (input_type input_name : string) :
  _generate_test_data input_type input_name <> ""
  /\ In (_generate_test_data input_type input_name)
        ["test@example.com"; "+1234567890"; "https://example.com"; "25";
         "2024-01-01"; "John"; "Doe"; "John Doe"; "Test Company";
         "123 Test Street"; "Test City"; "12345"; "TestPassword123!";
         "This is a test message for form validation."; "Test Value"].
Proof.
  unfold _generate_test_data.
  repeat match goal with
         | |- context [if ?b then _ else _] => destruct b
         end;
    (split; [discriminate | cbn; tauto]).
Qed.

Lemma contains_age_of_message (s : string) :
  PyStr.contains "message" s = true -> PyStr.contains "age" s = true.
Proof.
  induction s as [| c s IH]; [discriminate |].
  cbn [PyStr.contains]. intros H. apply orb_true_iff in H as [H | H].
  - apply startswith_cons_inv in H as (s1 & E1 & H).
    apply startswith_cons_inv in H as (s2 & -> & H).
    apply startswith_cons_inv in H as (s3 & -> & H).
    apply startswith_cons_inv in H as (s4 & -> & H).
    apply startswith_cons_inv in H as (s5 & -> & H).
    apply startswith_cons_inv in H as (s6 & -> & H).
    apply startswith_cons_inv in H as (s7 & -> & _).
    injection E1 as -> ->. reflexivity.
  - apply orb_true_iff. right. apply IH. exact H.
Qed.

(** The rule for "age" shadows the rule for message fields: a field whose
    name contains "message", in any case, and whose type and name do not
    make it an e-mail, phone or URL field, gets "25", not the test
    message. *)
Theorem message_fields_get_a_number (input_type input_name : string) :
  PyStr.contains "message" (PyStr.lower input_name) = true ->
  (String.eqb input_type "email" || PyStr.contains "email" (PyStr.lower input_name))
  = false ->
  (String.eqb input_type "tel" || PyStr.contains "phone" (PyStr.lower input_name))
  = false ->
  (String.eqb input_type "url" || PyStr.contains "website" (PyStr.lower input_name))
  = false ->
  _generate_test_data input_type input_name = "25".
Proof.
  intros Hm He Ht Hu. apply contains_age_of_message in Hm.
  unfold _generate_test_data. rewrite He, Ht, Hu, Hm, orb_true_r. reflexivity.
Qed.

Lemma message_fields_get_a_number_witness :
  _generate_test_data "textarea" "Message" = "25".
Proof.
  apply (message_fields_get_a_number "textarea" "Message"); reflexivity.
Defined.

(** ** The button probe *)

Lemma read_element_text_not_empty (element : ClickableElement) (t : string) :
  read_element_text element = Ok t -> t <> "".
Proof.
  unfold read_element_text, mbind, result_bind.
  destruct (el_text element) as [x |]; [| discriminate].
  destruct (String.eqb_spec (PyStr.strip x) "") as [E | E]; cbn [negb].
  - destruct (el_value element) as [v |]; [| discriminate].
    destruct (String.eqb_spec (or_default v "") "") as [Ev | Ev]; cbn [negb].
    + destruct (el_aria_label element) as [a |]; [| discriminate].
      intros [= <-]. unfold or_default. destruct a as [a |]; [| discriminate].
      destruct (String.eqb_spec a ""); [discriminate | assumption].
    + intros [= <-]. exact Ev.
  - intros [= <-]. exact E.
Qed.

Lemma button_click_result_fields (element : ClickableElement) (selector : string)
    (r : InteractionResult) :
  _test_button_click element selector = Ok r ->
  element_selector r = selector /\ element_type r = "button"
  /\ element_text r <> ""
  /\ (success r = true -> error_message r = None /\ screenshot_data r = None).
Proof.
  intros H. unfold _test_button_click in H.
  destruct (read_element_text element) as [t |] eqn:Et; [| discriminate].
  apply read_element_text_not_empty in Et.
  destruct (_ ← el_scrolled element; _) as [b | e]; injection H as <-;
    cbn [element_selector element_type element_text success error_message
         screenshot_data].
  - auto.
  - repeat split; try discriminate.
    destruct (String.eqb_spec t ""); [discriminate | assumption].
Qed.

(** One click probe.  A result always carries the selector, the type
    "button" and a text that is not empty; success comes without error
    message or screenshot.  When every call answers, there is no error
    message and the click succeeded exactly when the URL changed or a
    modal is displayed (a modal query that raises counts as none).  When
    the text was read and the click raises, the result is a failure with
    the message of the exception.  When reading the text raises, the
    function itself raises and there is no result. *)
Theorem button_click_outcome (element : ClickableElement) (selector : string) :
  (forall r, _test_button_click element selector = Ok r ->
     element_selector r = selector /\ element_type r = "button"
     /\ element_text r <> ""
     /\ (success r = true -> error_message r = None /\ screenshot_data r = None))
  /\ (forall t before after,
        read_element_text element = Ok t ->
        el_scrolled element = Ok tt -> el_url_before element = Ok before ->
        el_clicked element = Ok tt -> el_url_after element = Ok after ->
        exists r,
          _test_button_click element selector = Ok r
          /\ element_text r = t /\ error_message r = None
          /\ (success r = true <->
              before <> after
              \/ exists modals, el_modals element = Ok modals
                                /\ any_displayed modals = Ok true))
  /\ (forall t e,
        read_element_text element = Ok t ->
        el_scrolled element = Ok tt -> el_url_before element = Ok e ->
        forall msg, el_clicked element = Err msg ->
        exists r,
          _test_button_click element selector = Ok r
          /\ success r = false /\ error_message r = Some msg /\ element_text r = t)
  /\ (forall msg, el_text element = Err msg ->
        exists e, _test_button_click element selector = Err e).
Proof.
  split; [| split; [| split]].
  - intros r H. exact (button_click_result_fields element selector r H).
  - intros t before after Et Hs Hb Hc Ha. unfold _test_button_click.
    rewrite Et. unfold mbind, result_bind. rewrite Hs, Hb, Hc, Ha.
    eexists. split; [reflexivity |].
    cbn [element_text error_message success]. split; [reflexivity | split; [reflexivity |]].
    rewrite orb_true_iff, negb_true_iff. split.
    + intros [H | H].
      * left. intros ->. rewrite String.eqb_refl in H. discriminate.
      * right. destruct (el_modals element) as [ms |]; [| discriminate].
        exists ms. split; [reflexivity |].
        destruct (any_displayed ms) as [[] |]; [reflexivity | discriminate | discriminate].
    + intros [H | (ms & Em & Hd)].
      * left. apply String.eqb_neq. exact H.
      * right. rewrite Em, Hd. reflexivity.
  - intros t e Et Hs Hb msg Hc. unfold _test_button_click.
    rewrite Et. unfold mbind, result_bind. rewrite Hs, Hb, Hc.
    eexists. split; [reflexivity |].
    cbn [success error_message element_text]. repeat split.
    pose proof (read_element_text_not_empty _ _ Et) as Hne.
    destruct (String.eqb_spec t ""); [contradiction | reflexivity].
  - intros msg Ht. unfold _test_button_click, read_element_text, mbind, result_bind.
    rewrite Ht. eexists. reflexivity.
Qed.

Lemma button_click_outcome_witness :
  (exists r,
      _test_button_click Sites.inert_button "button[0]" = Ok r
      /\ element_text r = "Save" /\ error_message r = None
      /\ (success r = true <->
          "http://a.com/" <> "http://a.com/"
          \/ exists modals, el_modals Sites.inert_button = Ok modals
                            /\ any_displayed modals = Ok true))
  /\ exists e, _test_button_click Sites.stale_button "button[0]" = Err e.
Proof.
  split.
  - apply (proj1 (proj2 (button_click_outcome Sites.inert_button "button[0]"))
             "Save" "http://a.com/" "http://a.com/"); reflexivity.
  - apply (proj2 (proj2 (proj2 (button_click_outcome Sites.stale_button "button[0]")))
             "stale element reference").
    reflexivity.
Defined.

(** What one selector adds to the results: at most one result per
    element, each labelled with the selector and the index of its element. *)
Lemma probe_elements_adds (selector : string) (elements : list ClickableElement) :
  forall (i : nat) (results : list InteractionResult),
  exists added,
    probe_elements selector i elements results = results ++ added
    /\ (length added <= length elements)%nat
    /\ Forall (fun r => element_type r = "button" /\ element_text r <> ""
                        /\ exists j, (i <= j < i + length elements)%nat
                                    /\ element_selector r
                                       = selector +:+ "[" +:+ PyStr.of_nat j +:+ "]")
              added.
Proof.
  induction elements as [| element rest IH]; intros i results; cbn [probe_elements].
  - exists []. rewrite app_nil_r. repeat split; [cbn; lia | constructor].
  - assert (Hnone : exists added : list InteractionResult,
               results = results ++ added
               /\ (length added <= length (element :: rest))%nat
               /\ Forall (fun r => element_type r = "button" /\ element_text r <> ""
                        /\ exists j, (i <= j < i + length (element :: rest))%nat
                                    /\ element_selector r
                                       = selector +:+ "[" +:+ PyStr.of_nat j +:+ "]")
                         added).
    { exists []. rewrite app_nil_r. repeat split; [cbn; lia | constructor]. }
    assert (Hweak : forall added : list InteractionResult,
               Forall (fun r => element_type r = "button" /\ element_text r <> ""
                        /\ exists j, (S i <= j < S i + length rest)%nat
                                    /\ element_selector r
                                       = selector +:+ "[" +:+ PyStr.of_nat j +:+ "]")
                      added ->
               Forall (fun r => element_type r = "button" /\ element_text r <> ""
                        /\ exists j, (i <= j < i + length (element :: rest))%nat
                                    /\ element_selector r
                                       = selector +:+ "[" +:+ PyStr.of_nat j +:+ "]")
                      added).
    { intros added Hadd. eapply Forall_impl; [exact Hadd |].
      intros r (H1 & H2 & j & Hj & E).
      repeat split; auto. exists j. cbn [length]. split; [lia | exact E]. }
    destruct (both (el_displayed element) (el_enabled element)) as [[] | e];
      [| | exact Hnone].
    + destruct (_test_button_click element _) as [r | e] eqn:Ec; [| exact Hnone].
      destruct (IH (S i) (results ++ [r])) as (added & E & Hlen & Hf).
      exists (r :: added). rewrite E, <- app_assoc. split; [reflexivity |].
      split; [cbn [length]; lia |]. constructor; [| apply Hweak; exact Hf].
      destruct (button_click_result_fields _ _ _ Ec) as (Hs & Ht & Hx & _).
      repeat split; auto. exists i. cbn [length]. split; [lia | exact Hs].
    + destruct (IH (S i) results) as (added & E & Hlen & Hf).
      exists added. split; [exact E | split; [cbn [length]; lia | apply Hweak; exact Hf]].
Qed.

Lemma probe_selectors_adds (page : ButtonsPage) (selectors : list string) :
  forall results : list InteractionResult,
  exists added,
    fold_left
      (fun results selector =>
         match bp_elements page selector with
         | Ok elements => probe_elements selector 0 (firstn 10 elements) results
         | Err _ => results
         end)
      selectors results = results ++ added
    /\ (length added <= 10 * length selectors)%nat
    /\ Forall (fun r => element_type r = "button" /\ element_text r <> ""
                        /\ exists selector j,
                            In selector selectors /\ (j < 10)%nat
                            /\ element_selector r
                               = selector +:+ "[" +:+ PyStr.of_nat j +:+ "]")
              added.
Proof.
  induction selectors as [| selector rest IH]; intros results; cbn [fold_left].
  - exists []. rewrite app_nil_r. repeat split; [cbn; lia | constructor].
  - assert (Hstep : exists added1,
               match bp_elements page selector with
               | Ok elements => probe_elements selector 0 (firstn 10 elements) results
               | Err _ => results
               end = results ++ added1
               /\ (length added1 <= 10)%nat
               /\ Forall (fun r => element_type r = "button" /\ element_text r <> ""
                        /\ exists s j,
                            In s (selector :: rest) /\ (j < 10)%nat
                            /\ element_selector r
                               = s +:+ "[" +:+ PyStr.of_nat j +:+ "]") added1).
    { destruct (bp_elements page selector) as [elements | e].
      - destruct (probe_elements_adds selector (firstn 10 elements) 0 results)
          as (added & E & Hlen & Hf).
        pose proof (length_firstn 10 elements) as Hfl.
        exists added. split; [exact E | split; [lia |]].
        eapply Forall_impl; [exact Hf |]. intros r (H1 & H2 & j & Hj & Es).
        repeat split; auto. exists selector, j.
        split; [left; reflexivity | split; [lia | exact Es]].
      - exists []. rewrite app_nil_r. repeat split; [cbn; lia | constructor]. }
    destruct Hstep as (added1 & E1 & Hlen1 & Hf1). rewrite E1.
    destruct (IH (results ++ added1)) as (added2 & E2 & Hlen2 & Hf2).
    exists (added1 ++ added2). rewrite E2, <- app_assoc. split; [reflexivity |].
    split; [rewrite length_app; cbn [length]; lia |].
    apply Forall_app. split; [exact Hf1 |].
    eapply Forall_impl; [exact Hf2 |]. intros r (H1 & H2 & s0 & j & Hin & Hj & Es).
    repeat split; auto. exists s0, j. split; [right; exact Hin | auto].
Qed.

(** The button probe is bounded: whatever the page holds, it returns at
    most 70 results, ten for each of its seven selectors; each result is
    labelled [selector[j]] with one of the seven selectors and [j < 10],
    has the type "button" (also for links) and a text that is not empty. *)
Theorem button_probe_is_bounded (page : ButtonsPage) :
  (length (probe_buttons page) <= 70)%nat
  /\ Forall (fun r => element_type r = "button" /\ element_text r <> ""
                      /\ exists selector j,
                          In selector clickable_selectors /\ (j < 10)%nat
                          /\ element_selector r
                             = selector +:+ "[" +:+ PyStr.of_nat j +:+ "]")
            (probe_buttons page).
Proof.
  unfold probe_buttons.
  destruct (_ ← bp_opened page; bp_body_ready page) as [u | e];
    [| split; [cbn; lia | constructor]].
  destruct (probe_selectors_adds page clickable_selectors []) as (added & E & Hlen & Hf).
  rewrite E. cbn [app]. split; [cbn in Hlen; lia | exact Hf].
Qed.

Example button_probe_ex :
  map element_selector (probe_buttons Sites.buttons_page)
  = ["button[0]"; "input[type='button'][0]"; "input[type='submit'][0]";
     "a[href][0]"; "[role='button'][0]"; ".btn[0]"; ".button[0]"]
  /\ map success (probe_buttons Sites.buttons_page)
     = [false; false; false; false; false; false; false].
Proof. split; reflexivity. Qed.

(** ** The form probe *)

Example form_without_submit_ex :
  _test_form_submission Sites.form_without_submit "form[0]"
  = {| form_selector := "form[0]"; fields_tested := 1; fields_successful := 1;
       submission_successful := false; validation_errors := [] |}.
Proof. reflexivity. Qed.

(** The loop over the fields: some are filled, some fail, and each
    failure adds one error. *)
Lemma fill_inputs_counts (inputs : list InputElement) :
  forall t s errs t' s' errs',
    fill_inputs inputs (t, s, errs) = Ok (t', s', errs') ->
    exists filled failed : nat,
      t' = t + Z.of_nat filled + Z.of_nat failed
      /\ s' = s + Z.of_nat filled
      /\ length errs' = (length errs + failed)%nat
      /\ (filled + failed <= length inputs)%nat.
Proof.
  induction inputs as [| i rest IH]; intros t s errs t' s' errs' H; cbn [fill_inputs] in H.
  - injection H as <- <- <-. exists 0%nat, 0%nat. cbn. repeat split; lia.
  - unfold mbind, result_bind in H.
    destruct (both (in_displayed i) (in_enabled i)) as [[] | e]; [| | discriminate].
    + destruct (fill_input i) as [[] | e].
      * apply IH in H as (filled & failed & -> & -> & Hl & Hb).
        exists (S filled), failed. cbn [length]. repeat split; lia.
      * apply IH in H as (filled & failed & -> & -> & Hl & Hb).
        exists filled, failed. cbn [length]. repeat split; lia.
      * apply IH in H as (filled & failed & -> & -> & Hl & Hb).
        exists filled, (S failed). rewrite length_app in Hl. cbn [length] in *.
        repeat split; lia.
    + apply IH in H as (filled & failed & -> & -> & Hl & Hb).
      exists filled, failed. cbn [length]. repeat split; lia.
Qed.

(** The counts of a form result are coherent, whatever the browser
    answers: [0 <= fields_successful <= fields_tested]; there is at most
    one error more than fields that failed; a successful submission comes
    with exactly one error per failed field; no more fields are counted
    than the form has; and a form without submit control is not submitted
    and, when its fields were reached, gets no submission error. *)
Theorem form_result_counts (form : FormElement) (selector : string) :
  let r := _test_form_submission form selector in
  form_selector r = selector
  /\ 0 <= fields_successful r <= fields_tested r
  /\ Z.of_nat (length (validation_errors r))
     <= fields_tested r - fields_successful r + 1
  /\ (submission_successful r = true ->
      Z.of_nat (length (validation_errors r))
      = fields_tested r - fields_successful r)
  /\ (forall inputs, fm_inputs form = Ok inputs ->
      fields_tested r <= Z.of_nat (length inputs))
  /\ (fm_submit_buttons form = Ok [] ->
      submission_successful r = false
      /\ (forall inputs counts,
            fm_scrolled form = Ok tt -> fm_inputs form = Ok inputs ->
            fill_inputs inputs (0, 0, []) = Ok counts ->
            Z.of_nat (length (validation_errors r))
            = fields_tested r - fields_successful r)).
Proof.
  intros r. subst r. unfold _test_form_submission, mbind, result_bind.
  destruct (fm_scrolled form) as [[] | e] eqn:Esc.
  2:{ cbn. split; [reflexivity |]. split; [lia |]. split; [lia |].
      split; [discriminate |]. split; [intros; lia |].
      intros _. split; [reflexivity |]. intros inputs counts Hs. discriminate. }
  destruct (fm_inputs form) as [inputs |] eqn:Ei.
  2:{ cbn. split; [reflexivity |]. split; [lia |]. split; [lia |].
      split; [discriminate |]. split; [intros inputs Hi; discriminate |].
      intros _. split; [reflexivity |]. intros inputs counts _ Hi. discriminate. }
  destruct (fill_inputs inputs (0, 0, [])) as [[[t s] errs] | e] eqn:Ef.
  2:{ cbn. split; [reflexivity |]. split; [lia |]. split; [lia |].
      split; [discriminate |]. split; [intros inputs' Hi; lia |].
      intros _. split; [reflexivity |]. intros inputs' counts _ Hi Hc.
      injection Hi as <-. rewrite Ef in Hc. discriminate. }
  apply fill_inputs_counts in Ef as (filled & failed & -> & -> & Hl & Hb).
  cbn [length] in Hl.
  destruct (submit_form form) as [b | e] eqn:Es;
    cbn [form_selector fields_tested fields_successful submission_successful
         validation_errors]; rewrite ?length_app; cbn [length].
  - split; [reflexivity |]. split; [lia |]. split; [lia |].
    split; [intros _; lia |]. split; [intros inputs' Hi; injection Hi as <-; lia |].
    intros Hb0. split; [| intros; lia].
    unfold submit_form, mbind, result_bind in Es. rewrite Hb0 in Es. congruence.
  - split; [reflexivity |]. split; [lia |]. split; [lia |].
    split; [discriminate |]. split; [intros inputs' Hi; injection Hi as <-; lia |].
    intros Hb0. unfold submit_form, mbind, result_bind in Es. rewrite Hb0 in Es.
    discriminate.
Qed.

Lemma form_result_counts_witness :
  submission_successful (_test_form_submission Sites.form_without_submit "form[0]")
  = false
  /\ fields_tested (_test_form_submission Sites.form_without_submit "form[0]")
     <= Z.of_nat (length [Sites.email_field]).
Proof.
  pose proof (form_result_counts Sites.form_without_submit "form[0]")
    as (_ & _ & _ & _ & Hin & Hsub).
  split.
  - apply Hsub. reflexivity.
  - apply Hin. reflexivity.
Defined.





(** ** The navigation walk *)

Lemma test_navigation_path_url (driver_get : string -> result PageView)
    (url link_text : string) (max_depth : Z) :
  path_url (_test_navigation_path driver_get url link_text max_depth) = url.
Proof.
  unfold _test_navigation_path, mbind, result_bind.
  destruct (driver_get url) as [view |]; [| reflexivity].
  destruct (current_url view) as [shown |]; [| reflexivity].
  destruct (negb _ && _).
  - destruct (find_conversion_links view) as [[| x l] |];
      destruct (page_title view); reflexivity.
  - destruct (page_title view); reflexivity.
Qed.

Lemma probe_nav_element_adds (driver_get : string -> result PageView)
    (max_depth : Z) (paths : list path_result) (nav_element : NavElement) :
  probe_nav_element driver_get max_depth paths nav_element = paths
  \/ exists p,
      probe_nav_element driver_get max_depth paths nav_element = paths ++ [p]
      /\ PyStr.startswith "http" (path_url p) = true.
Proof.
  unfold probe_nav_element, mbind, result_bind.
  destruct (both (nav_displayed nav_element) (nav_enabled nav_element))
    as [[] | e]; [| left; reflexivity | left; reflexivity].
  destruct (nav_text nav_element) as [t |]; [| left; reflexivity].
  destruct (nav_href nav_element) as [[href |] |];
    [| left; reflexivity | left; reflexivity].
  destruct (negb (String.eqb href "") && PyStr.startswith "http" href) eqn:E;
    [| left; reflexivity].
  right. eexists. split; [reflexivity |].
  rewrite test_navigation_path_url. apply andb_true_iff in E as [_ E]. exact E.
Qed.

Lemma probe_nav_elements_adds (driver_get : string -> result PageView)
    (max_depth : Z) (elements : list NavElement) :
  forall paths : list path_result,
  exists added,
    fold_left (probe_nav_element driver_get max_depth) elements paths = paths ++ added
    /\ (length added <= length elements)%nat
    /\ Forall (fun p => PyStr.startswith "http" (path_url p) = true) added.
Proof.
  induction elements as [| e rest IH]; intros paths; cbn [fold_left].
  - exists []. rewrite app_nil_r. repeat split; [cbn; lia | constructor].
  - destruct (probe_nav_element_adds driver_get max_depth paths e)
      as [E | (p & E & Hp)]; rewrite E.
    + destruct (IH paths) as (added & Ea & Hlen & Hall).
      exists added. split; [exact Ea | split; [cbn [length]; lia | exact Hall]].
    + destruct (IH (paths ++ [p])) as (added & Ea & Hlen & Hall).
      exists (p :: added). rewrite Ea, <- app_assoc. split; [reflexivity |].
      split; [cbn [length]; lia | constructor; assumption].
Qed.

(** The navigation walk follows at most five links, and only links whose
    [href] begins with "http"; it reports an error exactly when opening
    the start page or listing its navigation links raises; and its report
    never has a visited page, a dead end or a conversion path, and always
    has 0 as average number of clicks: the walk fills [navigation_paths]
    only. *)
Theorem navigation_walk_is_bounded
    (driver_get : string -> result PageView)
    (nav_elements : result (list NavElement))
    (start_url : string) (max_depth : Z) :
  (forall d, probe_navigation driver_get nav_elements start_url max_depth = FlowData d ->
     (length (navigation_paths d) <= 5)%nat
     /\ Forall (fun p => PyStr.startswith "http" (path_url p) = true)
               (navigation_paths d)
     /\ nd_start_url d = start_url
     /\ pages_visited d = [] /\ dead_ends d = [] /\ conversion_paths d = []
     /\ average_clicks_to_convert d = 0)
  /\ ((exists e, probe_navigation driver_get nav_elements start_url max_depth
                 = FlowError e)
      <-> (exists e, driver_get start_url = Err e)
          \/ (exists e, nav_elements = Err e)).
Proof.
  unfold probe_navigation, mbind, result_bind. split.
  - intros d H.
    destruct (driver_get start_url); [| discriminate].
    destruct nav_elements as [elements |]; [| discriminate].
    injection H as <-.
    cbn [navigation_paths nd_start_url pages_visited dead_ends conversion_paths
         average_clicks_to_convert].
    destruct (probe_nav_elements_adds driver_get max_depth (firstn 5 elements) [])
      as (added & E & Hlen & Hall).
    rewrite E. cbn [app]. pose proof (length_firstn 5 elements).
    repeat split; [lia | exact Hall].
  - split.
    + intros [e H]. destruct (driver_get start_url); [| left; eauto].
      destruct nav_elements; [discriminate | right; eauto].
    + intros [[e H] | [e H]]; rewrite H; [eauto |].
      destruct (driver_get start_url); eauto.
Qed.

Lemma navigation_walk_is_bounded_witness :
  exists d,
    probe_navigation (Demo.shows "https://x.com/pricing" ["/cart"])
      (Ok [Sites.nav_link "https://x.com/pricing"; Sites.nav_link "/relative";
           Sites.nav_link "mailto:a@b.c"])
      "https://x.com/" 3 = FlowData d
    /\ (length (navigation_paths d) <= 5)%nat
    /\ Forall (fun p => PyStr.startswith "http" (path_url p) = true)
              (navigation_paths d)
    /\ map path_url (navigation_paths d) = ["https://x.com/pricing"].
Proof.
  eexists. split; [reflexivity |].
  pose proof (proj1 (navigation_walk_is_bounded
                (Demo.shows "https://x.com/pricing" ["/cart"])
                (Ok [Sites.nav_link "https://x.com/pricing"; Sites.nav_link "/relative";
                     Sites.nav_link "mailto:a@b.c"])
                "https://x.com/" 3) _ eq_refl) as (H1 & H2 & _).
  split; [exact H1 | split; [exact H2 | reflexivity]].
Defined.

(** ** More about the driver pool *)

Lemma list_pop_snoc (l : list driver) (d : driver) :
  list_pop (l ++ [d]) = Some (d, l).
Proof. unfold list_pop. rewrite rev_app_distr. cbn. rewrite rev_involutive. reflexivity. Qed.

Lemma manager_eta (self : WebDriverManager) :
  {| max_drivers := max_drivers self; driver_pool := driver_pool self;
     available_drivers := available_drivers self |} = self.
Proof. destruct self. reflexivity. Qed.

Lemma get_after_release (self : WebDriverManager) (d : driver) (quit_ok : bool)
    (fresh : option driver) :
  get_driver fresh (release_driver d true quit_ok self) = (Reused d, self).
Proof.
  unfold get_driver, release_driver. cbn [available_drivers driver_pool max_drivers].
  rewrite list_pop_snoc, manager_eta. reflexivity.
Qed.

(** A released driver is the next one handed out, and the manager is then
    exactly what it was before the release.  The release does not look at
    what is idle already: a driver released twice is handed out twice in
    a row, to two callers. *)
Theorem released_driver_is_next (self : WebDriverManager) (d : driver)
    (quit_ok quit_ok' : bool) (fresh fresh' : option driver) :
  get_driver fresh (release_driver d true quit_ok self) = (Reused d, self)
  /\ (let twice := release_driver d true quit_ok'
                                  (release_driver d true quit_ok self) in
      get_driver fresh twice = (Reused d, release_driver d true quit_ok self)
      /\ get_driver fresh' (snd (get_driver fresh twice)) = (Reused d, self)).
Proof.
  split; [apply get_after_release |]. cbv zeta.
  rewrite get_after_release. cbn [snd]. rewrite get_after_release. auto.
Qed.

(** [close_all] forgets every driver: afterwards nothing is tracked or
    idle, closing again changes nothing, and the next [get_driver] never
    hands out an old driver: it creates one when the ceiling is positive
    and waits when it is not. *)
Theorem close_all_forgets_drivers (self : WebDriverManager) (fresh : option driver) :
  driver_pool (close_all self) = [] /\ available_drivers (close_all self) = []
  /\ close_all (close_all self) = close_all self
  /\ (forall d, fst (get_driver fresh (close_all self)) <> Reused d)
  /\ (0 < max_drivers self ->
      forall d, fresh = Some d ->
      get_driver fresh (close_all self)
      = (Created d, {| max_drivers := max_drivers self; driver_pool := [d];
                       available_drivers := [] |}))
  /\ (max_drivers self <= 0 ->
      get_driver fresh (close_all self) = (Waiting, close_all self)).
Proof.
  unfold close_all, get_driver.
  cbn [driver_pool available_drivers max_drivers list_pop rev length].
  change (Z.of_nat 0) with 0.
  split; [reflexivity | split; [reflexivity | split; [reflexivity | split; [| split]]]].
  - intros d. destruct (0 <? max_drivers self); [destruct fresh |]; discriminate.
  - intros Hpos d ->. apply Z.ltb_lt in Hpos. rewrite Hpos. reflexivity.
  - intros Hneg. apply Z.ltb_ge in Hneg. rewrite Hneg. reflexivity.
Qed.

Lemma close_all_forgets_drivers_witness :
  get_driver (Some 7%nat)
    (close_all {| max_drivers := 2; driver_pool := [1%nat; 2%nat];
                  available_drivers := [2%nat] |})
  = (Created 7%nat, {| max_drivers := 2; driver_pool := [7%nat];
                       available_drivers := [] |}).
Proof.
  apply (proj1 (proj2 (proj2 (proj2 (proj2 (close_all_forgets_drivers
           {| max_drivers := 2; driver_pool := [1%nat; 2%nat];
              available_drivers := [2%nat] |} (Some 7%nat))))))).
  - cbn. lia.
  - reflexivity.
Defined.

Lemma list_remove_count (d x : driver) (l : list driver) :
  count_occ Nat.eq_dec (list_remove d l) x
  = if Nat.eqb x d then Nat.pred (count_occ Nat.eq_dec l x)
    else count_occ Nat.eq_dec l x.
Proof.
  induction l as [| y l IH]; cbn [list_remove count_occ].
  - destruct (Nat.eqb x d); reflexivity.
  - destruct (Nat.eqb_spec y d) as [-> | Hyd].
    + destruct (Nat.eqb_spec x d) as [-> | Hxd].
      * destruct (Nat.eq_dec d d); [reflexivity | contradiction].
      * destruct (Nat.eq_dec d x); [congruence | reflexivity].
    + cbn [count_occ]. rewrite IH.
      destruct (Nat.eqb_spec x d) as [-> | Hxd].
      * destruct (Nat.eq_dec y d); [contradiction | reflexivity].
      * destruct (Nat.eq_dec y x); reflexivity.
Qed.

Lemma list_in_spec (d : driver) (l : list driver) :
  list_in d l = true <-> In d l.
Proof.
  unfold list_in. rewrite existsb_exists. split.
  - intros (x & Hx & E). apply Nat.eqb_eq in E. subst. exact Hx.
  - intros H. exists d. split; [exact H | apply Nat.eqb_refl].
Qed.

Lemma list_remove_absent (d : driver) (l : list driver) :
  list_in d l = false -> list_remove d l = l.
Proof.
  induction l as [| y l IH]; cbn; [reflexivity |].
  rewrite Nat.eqb_sym. destruct (Nat.eqb y d); cbn; [discriminate |].
  intros H. rewrite IH by exact H. reflexivity.
Qed.

Lemma list_remove_present_length (d : driver) (l : list driver) :
  list_in d l = true -> S (length (list_remove d l)) = length l.
Proof.
  induction l as [| y l IH]; cbn; [discriminate |].
  rewrite Nat.eqb_sym. destruct (Nat.eqb y d); cbn; [reflexivity |].
  intros H. rewrite IH by exact H. reflexivity.
Qed.

(** [close_driver] untracks one occurrence of the driver, in the pool and
    among the idle drivers, and touches no other driver, but only when
    [quit()] answers: a driver whose [quit()] raises stays where it was. *)
Theorem close_driver_untracks_one (self : WebDriverManager) (d x : driver) :
  count_occ Nat.eq_dec (driver_pool (close_driver d true self)) x
  = (if Nat.eqb x d then Nat.pred (count_occ Nat.eq_dec (driver_pool self) x)
     else count_occ Nat.eq_dec (driver_pool self) x)
  /\ count_occ Nat.eq_dec (available_drivers (close_driver d true self)) x
     = (if Nat.eqb x d
        then Nat.pred (count_occ Nat.eq_dec (available_drivers self) x)
        else count_occ Nat.eq_dec (available_drivers self) x)
  /\ close_driver d false self = self
  /\ release_driver d false false self = self.
Proof.
  unfold release_driver, close_driver. cbn [driver_pool available_drivers].
  repeat split.
  - destruct (list_in d (driver_pool self)) eqn:E; [apply list_remove_count |].
    rewrite <- (list_remove_absent d _ E) at 1. apply list_remove_count.
  - destruct (list_in d (available_drivers self)) eqn:E; [apply list_remove_count |].
    rewrite <- (list_remove_absent d _ E) at 1. apply list_remove_count.
Qed.

(** Discarding a tracked driver frees its slot: with no idle driver, a
    [get_driver] that follows a [close_driver] whose [quit()] answered
    creates a new driver, also at the ceiling.  When the reset and the
    [quit()] both raise during a release, the pool is as before: at the
    ceiling with no idle driver, [get_driver] waits. *)
Theorem discard_frees_a_slot (self : WebDriverManager) (d n : driver) :
  list_in d (driver_pool self) = true ->
  available_drivers self = [] ->
  Z.of_nat (length (driver_pool self)) <= max_drivers self ->
  fst (get_driver (Some n) (close_driver d true self)) = Created n
  /\ (Z.of_nat (length (driver_pool self)) = max_drivers self ->
      fst (get_driver (Some n) self) = Waiting
      /\ fst (get_driver (Some n) (release_driver d false false self)) = Waiting).
Proof.
  intros Hin Hav Hle. split.
  - unfold get_driver, close_driver. cbn [available_drivers driver_pool max_drivers].
    rewrite Hav, Hin. cbn [list_in existsb list_pop rev].
    pose proof (list_remove_present_length d _ Hin) as Hl.
    destruct (Z.ltb_spec (Z.of_nat (length (list_remove d (driver_pool self))))
                (max_drivers self)); [reflexivity | lia].
  - intros Heq. unfold release_driver, close_driver, get_driver.
    rewrite Hav. cbn [list_pop rev].
    destruct (Z.ltb_spec (Z.of_nat (length (driver_pool self))) (max_drivers self));
      [lia | auto].
Qed.

Lemma discard_frees_a_slot_witness :
  fst (get_driver (Some 9%nat)
         (close_driver 1%nat true
            {| max_drivers := 2; driver_pool := [1%nat; 2%nat];
               available_drivers := [] |})) = Created 9%nat.
Proof.
  apply (discard_frees_a_slot
           {| max_drivers := 2; driver_pool := [1%nat; 2%nat]; available_drivers := [] |}
           1%nat 9%nat).
  - reflexivity.
  - reflexivity.
  - cbn. lia.
Defined.



Lemma generate_test_data_not_empty (input_type input_name : string) :
  _generate_test_data input_type input_name <> "".
Proof.
  unfold _generate_test_data.
  repeat match goal with
         | |- context [if ?b then _ else _] => destruct b
         end;
    discriminate.
Qed.

(** Which fields count.  A displayed field whose calls all answer is
    typed into, and counted as tested and successful, whenever its tag is
    not [select], whatever its type and name: the test value is never
    empty.  A [select] is counted only when it has at least two options,
    the second of which is clicked. *)
Theorem field_is_filled_unless_select (input_elem : InputElement)
    (ty nm : option string) (tag : string) :
  in_type input_elem = Ok ty -> in_name input_elem = Ok nm ->
  in_tag_name input_elem = Ok tag ->
  (PyStr.lower tag <> "select" ->
   in_cleared input_elem = Ok tt -> in_typed input_elem = Ok tt ->
   fill_input input_elem = Ok true)
  /\ (PyStr.lower tag = "select" -> in_tag_name_again input_elem = Ok tag ->
      forall options, in_options input_elem = Ok options ->
      (length options < 2)%nat -> fill_input input_elem = Ok false)
  /\ (PyStr.lower tag = "select" -> in_tag_name_again input_elem = Ok tag ->
      forall first rest, in_options input_elem = Ok (first :: Ok tt :: rest) ->
      fill_input input_elem = Ok true).
Proof.
  intros Hty Hnm Htag. unfold fill_input, mbind, result_bind.
  rewrite Hty, Hnm, Htag.
  pose proof (generate_test_data_not_empty (or_default ty "text") (or_default nm ""))
    as Hne.
  destruct (String.eqb_spec
              (_generate_test_data (or_default ty "text") (or_default nm "")) "")
    as [E | _]; [contradiction |].
  split; [| split].
  - intros Hns Hc Ht. apply String.eqb_neq in Hns. rewrite Hns. cbn [negb].
    rewrite Hc, Ht. reflexivity.
  - intros Hs Hagain options Ho Hlen. rewrite Hs, Hagain, Ho. cbn [String.eqb negb].
    rewrite Hs. cbn.
    destruct options as [| o1 [| o2 os]]; cbn in Hlen; try reflexivity. lia.
  - intros Hs Hagain first rest Ho. rewrite Hs, Hagain, Ho. cbn [negb].
    rewrite Hs. reflexivity.
Qed.

Lemma field_is_filled_unless_select_witness :
  fill_input Sites.email_field = Ok true.
Proof.
  apply (proj1 (field_is_filled_unless_select Sites.email_field
                  (Some "email") (Some "contact") "input" eq_refl eq_refl eq_refl)).
  - discriminate.
  - reflexivity.
  - reflexivity.
Defined.
